(** * Datumaro COCO import, extraction and detection-format conversion

    A shallow embedding of
      - [datumaro/components/extractors/ms_coco.py]  (RleMask, CocoExtractor),
      - [datumaro/components/importers/ms_coco.py]   (CocoImporter),
      - [datumaro/components/converters/yolo.py]     (YoloConverter),
      - [datumaro/components/converters/tfrecord.py] (DetectionApiConverter),
    together with the properties the specification states about them.

    Python values are modelled as they are at run time: JSON numbers are
    either unbounded integers or binary64 floats, dictionaries that are
    iterated keep insertion order, exceptions are an explicit error result,
    and file output is a state threaded through the converters. *)

From Stdlib Require Import ZArith List String Ascii Floats Lia Bool.
From Stdlib Require Import DecimalString.
From stdpp Require Import base option list strings gmap.

Local Open Scope Z_scope.
Local Open Scope string_scope.
Local Open Scope list_scope.

(** ** Exceptions and the error monad *)

Inductive dictkey :=
| IntKey (z : Z)
| StrKey (s : string).

#[global] Instance dictkey_eq_dec : EqDecision dictkey.
Proof. solve_decision. Defined.

(** The exceptions the four files raise, by their Python class.  The message
    of a plain [Exception] and of [NotADirectoryError] is kept. *)
Inductive exn :=
| KeyError (k : dictkey)
| IndexError
| ValueError
| TypeError
| AttributeError
| ZeroDivisionError
| OverflowError
| NotImplementedError
| FileNotFoundError
| NotADirectoryError (msg : string)
| Exception (msg : string).

Inductive result (A : Type) :=
| Ok (a : A)
| Raise (e : exn).
Arguments Ok {A} a.
Arguments Raise {A} e.

#[global] Instance result_ret : MRet result := fun A a => Ok a.
#[global] Instance result_bind : MBind result := fun A B f m =>
  match m with
  | Ok a => f a
  | Raise e => Raise e
  end.
#[global] Instance result_fmap : FMap result := fun A B f m =>
  match m with
  | Ok a => Ok (f a)
  | Raise e => Raise e
  end.

Definition is_ok {A} (r : result A) : bool :=
  match r with Ok _ => true | Raise _ => false end.

(** [d[k]] on a value read with [dict.get]-like optionality: a missing key
    raises [KeyError]. *)
Definition subscript {A} (field : string) (v : option A) : result A :=
  match v with
  | Some a => Ok a
  | None => Raise (KeyError (StrKey field))
  end.

(** [l[i]] on a Python list. *)
Definition index {A} (l : list A) (i : nat) : result A :=
  match l !! i with
  | Some a => Ok a
  | None => Raise IndexError
  end.

(** A loop that threads a state through a fallible body, left to right. *)
Fixpoint foldM {A S} (f : S -> A -> result S) (s : S) (l : list A) : result S :=
  match l with
  | [] => Ok s
  | a :: l' => s' ← f s a; foldM f s' l'
  end.

(** Sequencing a fallible loop body over a list, left to right. *)
Fixpoint mapM {A B} (f : A -> result B) (l : list A) : result (list B) :=
  match l with
  | [] => Ok []
  | a :: l' => b ← f a; bs ← mapM f l'; Ok (b :: bs)
  end.

(** ** Python numbers *)

Module PyNum.

(** A JSON number: [int] (unbounded) or [float] (binary64). *)
Inductive pynum :=
| PyInt (z : Z)
| PyFloat (f : float).

Definition Z2SF (z : Z) : spec_float :=
  match z with
  | Z0 => S754_zero false
  | Zpos p => S754_finite false p 0
  | Zneg p => S754_finite true p 0
  end.

(** [float(z)]: round to nearest even; too large an [int] raises. *)
Definition float_of_int (z : Z) : result float :=
  let f := SF2Prim (binary_normalize prec emax z 0 false) in
  if PrimFloat.is_infinity f then Raise OverflowError else Ok f.

Definition to_float (n : pynum) : result float :=
  match n with
  | PyInt z => float_of_int z
  | PyFloat f => Ok f
  end.

Definition float_is_zero (f : float) : bool := PrimFloat.is_zero f.

(** [a + b] *)
Definition add (a b : pynum) : result pynum :=
  match a, b with
  | PyInt x, PyInt y => Ok (PyInt (x + y))
  | _, _ => x ← to_float a; y ← to_float b; Ok (PyFloat (x + y)%float)
  end.

(** [a - b] *)
Definition sub (a b : pynum) : result pynum :=
  match a, b with
  | PyInt x, PyInt y => Ok (PyInt (x - y))
  | _, _ => x ← to_float a; y ← to_float b; Ok (PyFloat (x - y)%float)
  end.

(** [a / b], true division: always a float; [int / int] is the correctly
    rounded quotient; a zero divisor raises for ints and floats alike. *)
Definition truediv (a b : pynum) : result pynum :=
  match a, b with
  | PyInt x, PyInt y =>
      if Z.eqb y 0 then Raise ZeroDivisionError
      else
        let q := SF2Prim (SFdiv prec emax (Z2SF x) (Z2SF y)) in
        if PrimFloat.is_infinity q then Raise OverflowError
        else Ok (PyFloat q)
  | _, _ =>
      x ← to_float a; y ← to_float b;
      if float_is_zero y then Raise ZeroDivisionError
      else Ok (PyFloat (x / y)%float)
  end.

(** *** Printing *)

Definition str_of_N (n : N) : string := NilZero.string_of_uint (N.to_uint n).

(** [str(z)] *)
Definition str_of_Z (z : Z) : string :=
  match z with
  | Zneg p => "-" +:+ str_of_N (Npos p)
  | _ => str_of_N (Z.to_N z)
  end.

Definition str_of_nat (n : nat) : string := str_of_N (N.of_nat n).

Fixpoint zeros (n : nat) : string :=
  match n with
  | O => ""
  | S n' => String "0" (zeros n')
  end.

(** The nearest integer to [num / den] ([den > 0]), ties to even. *)
Definition round_half_even (num den : Z) : Z :=
  let q := num / den in
  let r := num mod den in
  match 2 * r ?= den with
  | Lt => q
  | Gt => q + 1
  | Eq => if Z.even q then q else q + 1
  end.

(** The magnitude [m * 2^e] in units of [10^-6], correctly rounded. *)
Definition micro_units (m : positive) (e : Z) : Z :=
  match e with
  | Zneg p => round_half_even (Zpos m * 1000000) (2 ^ Zpos p)
  | _ => Zpos m * 1000000 * 2 ^ e
  end.

Definition fixed6 (neg : bool) (u : Z) : string :=
  let frac := str_of_N (Z.to_N (u mod 1000000)) in
  (if neg then "-" else "") +:+ str_of_N (Z.to_N (u / 1000000)) +:+ "."
    +:+ zeros (6 - String.length frac) +:+ frac.

(** ['%.6f' % f] for a float. *)
Definition format_f6_float (f : float) : string :=
  match Prim2SF f with
  | S754_nan => "nan"
  | S754_infinity neg => if neg then "-inf" else "inf"
  | S754_zero neg => fixed6 neg 0
  | S754_finite neg m e => fixed6 neg (micro_units m e)
  end.

(** ['%.6f' % p]: an [int] is converted with [float()] first. *)
Definition format_f6 (p : pynum) : result string :=
  f ← to_float p; Ok (format_f6_float f).

End PyNum.
Export PyNum.

(** ** Python strings and paths *)

Module PyStr.

Fixpoint drop (n : nat) (s : string) : string :=
  match n, s with
  | O, _ => s
  | S n', String _ s' => drop n' s'
  | S _, EmptyString => EmptyString
  end.

(** [s.endswith(suf)] *)
Definition endswith (s suf : string) : bool :=
  (String.length suf <=? String.length s)%nat
  && String.eqb (drop (String.length s - String.length suf) s) suf.

(** [s.rsplit(sep, maxsplit=1)] for a non-empty [sep]: the split at the
    rightmost occurrence of [sep], or [None] when [sep] does not occur
    (Python then returns the one-element list [[s]]). *)
Fixpoint rsplit1 (sep s : string) : option (string * string) :=
  match s with
  | EmptyString => None
  | String c s' =>
      match rsplit1 sep s' with
      | Some (a, b) => Some (String c a, b)
      | None =>
          if String.prefix sep s
          then Some (EmptyString, drop (String.length sep) s)
          else None
      end
  end.

(** The list [s.rsplit(sep, maxsplit=1)] returns. *)
Definition rsplit (sep s : string) : list string :=
  match rsplit1 sep s with
  | Some (a, b) => [a; b]
  | None => [s]
  end.

(** [sep.join(l)] *)
Fixpoint join (sep : string) (l : list string) : string :=
  match l with
  | [] => ""
  | [x] => x
  | x :: l' => x +:+ sep +:+ join sep l'
  end.

Fixpoint concat (l : list string) : string :=
  match l with
  | [] => ""
  | x :: l' => x +:+ concat l'
  end.

Definition is_char (c : ascii) (d : ascii) : bool := Ascii.eqb c d.

Fixpoint all_chars (c : ascii) (s : string) : bool :=
  match s with
  | EmptyString => true
  | String d s' => is_char c d && all_chars c s'
  end.

Fixpoint contains_char (c : ascii) (s : string) : bool :=
  match s with
  | EmptyString => false
  | String d s' => is_char c d || contains_char c s'
  end.

(** [os.path.basename(p)]: what follows the last ["/"]. *)
Definition basename (p : string) : string :=
  match rsplit1 "/" p with
  | Some (_, b) => b
  | None => p
  end.

(** [os.path.splitext(p)]: the extension starts at the last dot of the
    last path component, unless that component has only dots before it. *)
Definition splitext (p : string) : string * string :=
  let '(dir, name) :=
    match rsplit1 "/" p with
    | Some (d, b) => (d +:+ "/", b)
    | None => ("", p)
    end in
  match rsplit1 "." name with
  | Some (root, ext) =>
      if all_chars "." root then (p, "")
      else (dir +:+ root, "." +:+ ext)
  | None => (p, "")
  end.

(** [os.path.join(a, b)] *)
Definition path_join (a b : string) : string :=
  if String.prefix "/" b then b
  else if String.eqb a "" || endswith a "/" then a +:+ b
  else a +:+ "/" +:+ b.

Definition path_join3 (a b c : string) : string := path_join (path_join a b) c.

End PyStr.

(** ** Insertion-ordered dictionaries

    A Python [dict] that the code iterates (the loaders of a subset, the
    subsets of an extractor and of an importer): keys are unique and keep
    the order of their first insertion. *)

Module PyDict.
Section Dict.
Context {K V : Type} `{EqDecision K}.

Definition dict := list (K * V).

Fixpoint get (d : dict) (k : K) : option V :=
  match d with
  | [] => None
  | (k', v) :: d' => if decide (k' = k) then Some v else get d' k
  end.

(** [d[k] = v] *)
Fixpoint set (d : dict) (k : K) (v : V) : dict :=
  match d with
  | [] => [(k, v)]
  | (k', v') :: d' =>
      if decide (k' = k) then (k, v) :: d' else (k', v') :: set d' k v
  end.

(** [d.update(d')] *)
Definition update (d d' : dict) : dict :=
  foldl (fun acc kv => set acc kv.1 kv.2) d d'.

Definition keys (d : dict) : list K := d.*1.
Definition values (d : dict) : list V := d.*2.

End Dict.
Arguments dict : clear implicits.
End PyDict.

(** ** The COCO format constants *)

(** Modelled from the spec: [datumaro/components/formats/ms_coco.py] is not
    among the sources.  The spec gives the task vocabulary as instances,
    person_keypoints, captions, labels, image_info, and the layout as
    [annotations/<task>_<subset>.json] and [images/[<subset>/]<filename>]. *)
Module CocoTask.

Inductive t := instances | person_keypoints | captions | labels | image_info.

(** The members in the order [for e in CocoTask] visits them. *)
Definition members : list t :=
  [instances; person_keypoints; captions; labels; image_info].

(** [e.name] *)
Definition name (e : t) : string :=
  match e with
  | instances => "instances"
  | person_keypoints => "person_keypoints"
  | captions => "captions"
  | labels => "labels"
  | image_info => "image_info"
  end.

(** [CocoTask[s]]: the member of that name, or [KeyError]. *)
Definition of_name (s : string) : result t :=
  match List.find (fun e => String.eqb (name e) s) members with
  | Some e => Ok e
  | None => Raise (KeyError (StrKey s))
  end.

#[global] Instance eq_dec : EqDecision t.
Proof. solve_decision. Defined.

End CocoTask.

Module CocoPath.
Definition IMAGES_DIR : string := "images".
Definition ANNOTATIONS_DIR : string := "annotations".
End CocoPath.

(** ** The annotation model *)

(** Modelled from the spec: [datumaro/components/extractor.py] is not among
    the sources.  The spec's data model gives the annotation kinds
    Label, Bbox, Polygon, Mask, Points and Caption, their common fields
    (id, label, group, attributes), the category tables and the dataset
    item; the constructors below take their arguments as the sources call
    them. *)
Module AnnotationType.
Inductive t := label | mask | points | polygon | bbox | caption.
#[global] Instance eq_dec : EqDecision t.
Proof. solve_decision. Defined.
End AnnotationType.

Inductive attr_value :=
| AttrBool (b : bool)
| AttrNum (n : pynum).

(** A run-length encoding as [pycocotools] passes it around: the dictionary
    [{'size': [h, w], 'counts': ...}], whose counts are a list of run
    lengths (uncompressed), a [str] (compressed, as read from JSON) or
    [bytes] (compressed, as the mask library returns it). *)
Inductive rle_counts :=
| CountsList (runs : list Z)
| CountsStr (s : string)
| CountsBytes (b : string).

Record Rle := mkRle {
  rle_size : list Z;
  rle_counts_of : rle_counts;
}.

Definition rle_counts_eqb (a b : rle_counts) : bool :=
  match a, b with
  | CountsList x, CountsList y => bool_decide (x = y)
  | CountsStr x, CountsStr y => String.eqb x y
  | CountsBytes x, CountsBytes y => String.eqb x y
  | _, _ => false
  end.

(** [r1 == r2] on two such dictionaries. *)
Definition Rle_eqb (r1 r2 : Rle) : bool :=
  bool_decide (rle_size r1 = rle_size r2)
  && rle_counts_eqb (rle_counts_of r1) (rle_counts_of r2).

(** The fields every annotation has. *)
Record Common := mkCommon {
  label : option nat;
  id_ : option Z;
  attributes : gmap string attr_value;
  group : option Z;
}.

Inductive Annotation :=
| Label (c : Common)
| Bbox (pts : list pynum) (c : Common)
| Polygon (pts : list pynum) (c : Common)
| Points (pts : list pynum) (visibility : list pynum) (c : Common)
| Caption (text : string) (c : Common)
| PlainMask (image : list (list bool)) (c : Common)
| RleMask (rle : Rle) (c : Common).

Definition common (a : Annotation) : Common :=
  match a with
  | Label c | Bbox _ c | Polygon _ c | Points _ _ c | Caption _ c
  | PlainMask _ c | RleMask _ c => c
  end.

(** [a.type] *)
Definition type_of (a : Annotation) : AnnotationType.t :=
  match a with
  | Label _ => AnnotationType.label
  | Bbox _ _ => AnnotationType.bbox
  | Polygon _ _ => AnnotationType.polygon
  | Points _ _ _ => AnnotationType.points
  | Caption _ _ => AnnotationType.caption
  | PlainMask _ _ | RleMask _ _ => AnnotationType.mask
  end.

(** [a.points] of a shape; other kinds have no such attribute. *)
Definition points_of (a : Annotation) : result (list pynum) :=
  match a with
  | Bbox p _ | Polygon p _ | Points p _ _ => Ok p
  | _ => Raise AttributeError
  end.

(** [BboxObject(x, y, w, h, label=, id=, attributes=, group=)]: the box is
    kept by its corners, [points = [x, y, x + w, y + h]] (the spec's
    line-format scenario reads the box [10,10,20,20] back as 10..30). *)
Definition BboxObject (x y w h : pynum) (c : Common) : result Annotation :=
  x2 ← add x w; y2 ← add y h; Ok (Bbox [x; y; x2; y2] c).

(** [LabelCategories]: the ordered table of (name, parent); the position
    is the label id. *)
Record LabelCategories := mkLabelCategories {
  items : list (string * string);
}.

(** [categories.add(name=, parent=)] *)
Definition LabelCategories_add (c : LabelCategories) (name parent : string)
  : LabelCategories :=
  mkLabelCategories (items c ++ [(name, parent)]).

Fixpoint find_last_index (name : string) (l : list (string * string)) (i : nat)
  : option nat :=
  match l with
  | [] => None
  | (n, _) :: l' =>
      match find_last_index name l' (S i) with
      | Some j => Some j
      | None => if String.eqb n name then Some i else None
      end
  end.

(** [categories.find(name)]: the index of the label of that name (a later
    duplicate shadows an earlier one); no such label is an error. *)
Definition LabelCategories_find (c : LabelCategories) (name : string)
  : result nat :=
  match find_last_index name (items c) 0 with
  | Some i => Ok i
  | None => Raise (KeyError (StrKey name))
  end.

(** [PointsCategories]: per label id, the keypoint names and the skeleton. *)
Record PointsCategories := mkPointsCategories {
  points_items : list (nat * (list string * list (list Z)));
}.

Definition PointsCategories_add (c : PointsCategories) (label_id : nat)
    (labels : list string) (adjacent : list (list Z)) : PointsCategories :=
  mkPointsCategories
    (PyDict.set (points_items c) label_id (labels, adjacent)).

(** The dictionary [categories()] returns: at most a label table under
    [AnnotationType.label] and a points table under [AnnotationType.points]. *)
Record Categories := mkCategories {
  cat_label : option LabelCategories;
  cat_points : option PointsCategories;
}.

(** [categories()[AnnotationType.label]] *)
Definition categories_label (c : Categories) : result LabelCategories :=
  match cat_label c with
  | Some l => Ok l
  | None => Raise (KeyError (StrKey "AnnotationType.label"))
  end.

(** A decoded image; only its [shape] is consulted. *)
Record Image := mkImage {
  shape : list Z;
}.

Record DatasetItem := mkDatasetItem {
  item_id : dictkey;
  item_subset : option string;
  image : option Image;
  annotations : list Annotation;
}.

(** [item.has_image] *)
Definition has_image (item : DatasetItem) : bool :=
  match image item with Some _ => true | None => false end.

(** [str(item.id)] *)
Definition str_of_key (k : dictkey) : string :=
  match k with
  | IntKey z => str_of_Z z
  | StrKey s => s
  end.

(** What a converter is given: [subsets()], [get_subset(name)],
    [categories()] and iteration.  Iteration is lazy: fetching an item may
    raise, after the items before it were delivered. *)
Record Dataset := mkDataset {
  ds_iter : list (result DatasetItem);
  ds_categories : Categories;
}.

Record Extractor := mkExtractor {
  ex_dataset : Dataset;
  ex_subsets : list string;
  ex_get_subset : string -> result Dataset;
}.

(** ** COCO documents and the COCO API *)

Record CocoCategory := mkCocoCategory {
  c_id : Z;
  c_name : option string;
  c_supercategory : option string;
  c_keypoints : option (list string);
  c_skeleton : option (list (list Z));
}.

Record CocoImage := mkCocoImage {
  i_id : Z;
  i_file_name : option string;
  i_height : option Z;
  i_width : option Z;
}.

(** The [segmentation] member: a list of polygons, or an RLE dictionary. *)
Inductive Segmentation :=
| SegPolygons (parts : list (list pynum))
| SegRle (r : Rle).

(** An annotation record; a member that may be missing (or [null]) is an
    [option]. *)
Record CocoAnn := mkCocoAnn {
  j_id : option Z;
  j_image_id : Z;
  j_category_id : option Z;
  j_bbox : option (list pynum);
  j_iscrowd : option Z;
  j_segmentation : option Segmentation;
  j_keypoints : option (list pynum);
  j_caption : option string;
  j_score : option pynum;
}.

Record CocoDataset := mkCocoDataset {
  d_categories : list CocoCategory;
  d_images : list CocoImage;
  d_annotations : list CocoAnn;
}.

(** The calls the extractor makes on a [pycocotools.coco.COCO] object. *)
Record COCO := mkCOCO {
  getCatIds : list Z;
  loadCats : list Z -> result (list CocoCategory);
  getImgIds : list Z;
  loadImgs : Z -> result (list CocoImage);
  getAnnIds : Z -> list Z;
  loadAnns : list Z -> result (list CocoAnn);
}.

Definition lookup_id {V} (d : PyDict.dict Z V) (k : Z) : result V :=
  match PyDict.get d k with
  | Some v => Ok v
  | None => Raise (KeyError (IntKey k))
  end.

(** [COCO.createIndex()] on a loaded document, as far as those calls go:
    [anns], [imgs] and [cats] are dictionaries by id (a later record of the
    same id replaces an earlier one), [imgToAnns] lists the annotations of
    an image in file order. *)
Definition createIndex (d : CocoDataset) : result COCO :=
  anns ← foldM (fun acc a => i ← subscript "id" (j_id a);
                             Ok (PyDict.set acc i a)) [] (d_annotations d);
  let imgs := foldl (fun acc i => PyDict.set acc (i_id i) i) [] (d_images d) in
  let cats := foldl (fun acc c => PyDict.set acc (c_id c) c) [] (d_categories d) in
  Ok {| getCatIds := c_id <$> d_categories d;
        loadCats := mapM (lookup_id cats);
        getImgIds := PyDict.keys imgs;
        loadImgs := fun i => img ← lookup_id imgs i; Ok [img];
        getAnnIds := fun i =>
          omap j_id (List.filter (fun a => Z.eqb (j_image_id a) i)
                                 (d_annotations d));
        loadAnns := mapM (lookup_id anns) |}.

(** The calls the extractor makes on [pycocotools.mask]; the run-length
    mathematics is outside the repository. *)
Record MaskUtils := mkMaskUtils {
  (** [frPyObjects(polygons, h, w)] *)
  frPyObjects_polygons : list (list pynum) -> Z -> Z -> result (list Rle);
  (** [frPyObjects([rle], h, w)[0]] on an uncompressed RLE *)
  frPyObjects_rle : Rle -> Z -> Z -> result Rle;
  (** [merge(rles)] *)
  merge : list Rle -> result Rle;
}.

(** ** datumaro/components/extractors/ms_coco.py *)

(** [RleMask.__eq__]: against another [RleMask] the stored encodings are
    compared; anything else is left to [MaskObject.__eq__]. *)
Definition RleMask_eq (super_eq : Annotation -> Annotation -> bool)
    (self other : Annotation) : bool :=
  match self, other with
  | RleMask rle _, RleMask rle' _ => Rle_eqb rle rle'
  | _, _ => super_eq self other
  end.

Record Subset := mkSubset {
  sub_name : string;
  loaders : PyDict.dict CocoTask.t COCO;
  sub_items : list Z;
}.

Record CocoExtractor := mkCocoExtractor {
  _path : string;
  _task : CocoTask.t;
  _subsets : PyDict.dict string Subset;
  _categories : Categories;
  _label_map : option (gmap Z nat);
  _merge_instance_polygons : bool;
}.

Fixpoint enumerate_from {A} (i : nat) (l : list A) : list (nat * A) :=
  match l with
  | [] => []
  | a :: l' => (i, a) :: enumerate_from (S i) l'
  end.

(** [enumerate(l)] *)
Definition enumerate {A} (l : list A) : list (nat * A) := enumerate_from 0 l.

(** [CocoExtractor._load_label_categories] *)
Definition _load_label_categories (loader : COCO)
  : result (LabelCategories * gmap Z nat) :=
  let catIds := getCatIds loader in
  cats ← loadCats loader catIds;
  foldM (fun '(categories, label_map) '(idx, cat) =>
           let label_map := <[c_id cat := idx]> label_map in
           name ← subscript "name" (c_name cat);
           parent ← subscript "supercategory" (c_supercategory cat);
           Ok (LabelCategories_add categories name parent, label_map))
        (mkLabelCategories [], ∅) (enumerate cats).

(** [CocoExtractor._load_person_kp_categories]; [label_categories] is
    [self._categories[AnnotationType.label]]. *)
Definition _load_person_kp_categories (label_categories : LabelCategories)
    (loader : COCO) : result PointsCategories :=
  let catIds := getCatIds loader in
  cats ← loadCats loader catIds;
  foldM (fun categories cat =>
           name ← subscript "name" (c_name cat);
           label_id ← LabelCategories_find label_categories name;
           labels ← subscript "keypoints" (c_keypoints cat);
           adjacent ← subscript "skeleton" (c_skeleton cat);
           Ok (PointsCategories_add categories label_id labels adjacent))
        (mkPointsCategories []) cats.

(** The dictionary [loaders] that [_load_categories] collects. *)
Definition collect_loaders (subsets : PyDict.dict string Subset)
  : PyDict.dict CocoTask.t COCO :=
  foldl (fun acc subset => PyDict.update acc (loaders subset))
        [] (PyDict.values subsets).

(** The value of [label_loader] when [_load_categories] reaches
    [if label_loader is not None]. *)
Definition label_loader_of (loaders : PyDict.dict CocoTask.t COCO)
  : option COCO :=
  let label_loader := PyDict.get loaders CocoTask.labels in
  let instances_loader := PyDict.get loaders CocoTask.instances in
  let person_kp_loader := PyDict.get loaders CocoTask.person_keypoints in
  let label_loader :=
    match label_loader, instances_loader with
    | None, Some l => Some l
    | _, _ => label_loader
    end in
  let label_loader :=
    match label_loader, person_kp_loader with
    | None, Some l => Some l
    | _, _ => label_loader
    end in
  label_loader.

(** [CocoExtractor._load_categories] on the collected loaders: the
    categories dictionary and [self._label_map] (unset without a label
    loader). *)
Definition _load_categories_from (loaders : PyDict.dict CocoTask.t COCO)
  : result (Categories * option (gmap Z nat)) :=
  let person_kp_loader := PyDict.get loaders CocoTask.person_keypoints in
  '(cat_l, label_map) ←
    match label_loader_of loaders with
    | Some label_loader =>
        '(label_categories, label_map) ← _load_label_categories label_loader;
        Ok (Some label_categories, Some label_map)
    | None => Ok (None, None)
    end;
  cat_p ←
    match person_kp_loader with
    | Some l =>
        label_categories ← categories_label (mkCategories cat_l None);
        Some <$> _load_person_kp_categories label_categories l
    | None => Ok None
    end;
  Ok (mkCategories cat_l cat_p, label_map).

Definition _load_categories (subsets : PyDict.dict string Subset)
  : result (Categories * option (gmap Z nat)) :=
  _load_categories_from (collect_loaders subsets).

(** [CocoExtractor._parse_label]: [self._label_map[cat_id]] unless the
    category id is [0] or [None]. *)
Definition _parse_label (self : CocoExtractor) (ann : CocoAnn)
  : result (option nat) :=
  let cat_id := j_category_id ann in
  match cat_id with
  | None => Ok None
  | Some cat_id =>
      if Z.eqb cat_id 0 then Ok None
      else
        match _label_map self with
        | None => Raise AttributeError
        | Some label_map =>
            match label_map !! cat_id with
            | Some idx => Ok (Some idx)
            | None => Raise (KeyError (IntKey cat_id))
            end
        end
  end.

(** [a, b, c, d = l] *)
Definition unpack4 {A} (l : list A) : result (A * A * A * A) :=
  match l with
  | [a; b; c; d] => Ok (a, b, c, d)
  | _ => Raise ValueError
  end.

(** [a, b = l] *)
Definition unpack2 {A} (l : list A) : result (A * A) :=
  match l with
  | [a; b] => Ok (a, b)
  | _ => Raise ValueError
  end.

(** [l[start::step]] with [start < step]: [k] counts down to the next
    element that is kept. *)
Fixpoint every {A} (step k : nat) (l : list A) : list A :=
  match l with
  | [] => []
  | a :: l' =>
      match k with
      | O => a :: every step (step - 1) l'
      | S k' => every step k' l'
      end
  end.

Definition slice_from_step {A} (start step : nat) (l : list A) : list A :=
  every step start l.

(** [[p for i, p in enumerate(keypoints) if i % 3 != 2]] *)
Definition keypoint_coordinates (keypoints : list pynum) : list pynum :=
  (List.filter (fun ip => negb (Nat.eqb (fst ip mod 3) 2))
               (enumerate keypoints)).*2.

Section ParseAnnotation.

Variable mask_utils : MaskUtils.

(** The instances branch from [segmentation is not None] on: the polygons
    appended in the loop, then the mask, if [rle] was set. *)
Definition parse_segmentation (self : CocoExtractor) (segmentation : Segmentation)
    (image_info : CocoImage) (c : Common) : result (list Annotation) :=
  match segmentation with
  | SegPolygons parts =>
      let polygons := (fun polygon_points => Polygon polygon_points c) <$> parts in
      if _merge_instance_polygons self then
        img_h ← subscript "height" (i_height image_info);
        img_w ← subscript "width" (i_width image_info);
        rles ← frPyObjects_polygons mask_utils parts img_h img_w;
        rle ← merge mask_utils rles;
        Ok (polygons ++ [RleMask rle c])
      else Ok polygons
  | SegRle r =>
      match rle_counts_of r with
      | CountsList _ =>
          '(img_h, img_w) ← unpack2 (rle_size r);
          rle ← frPyObjects_rle mask_utils r img_h img_w;
          Ok [RleMask rle c]
      | _ => Ok [RleMask r c]
      end
  end.

(** [CocoExtractor._parse_annotation]: the annotations it appends to
    [parsed_annotations], in order. *)
Definition _parse_annotation (self : CocoExtractor) (ann : CocoAnn)
    (ann_type : CocoTask.t) (image_info : CocoImage) : result (list Annotation) :=
  let ann_id := j_id ann in
  let attributes : gmap string attr_value :=
    match j_score ann with
    | Some score => {["score" := AttrNum score]}
    | None => ∅
    end in
  match ann_type with
  | CocoTask.instances =>
      bbox ← subscript "bbox" (j_bbox ann);
      '(x, y, w, h) ← unpack4 bbox;
      label_id ← _parse_label self ann;
      iscrowd ← subscript "iscrowd" (j_iscrowd ann);
      let is_crowd := negb (Z.eqb iscrowd 0) in
      let attributes := <["is_crowd" := AttrBool is_crowd]> attributes in
      let segmentation := j_segmentation ann in
      let group := match segmentation with Some _ => ann_id | None => None end in
      let c := mkCommon label_id ann_id attributes group in
      shapes ←
        match segmentation with
        | Some segmentation => parse_segmentation self segmentation image_info c
        | None => Ok []
        end;
      box ← BboxObject x y w h c;
      Ok (shapes ++ [box])
  | CocoTask.labels =>
      label_id ← _parse_label self ann;
      Ok [Label (mkCommon label_id ann_id attributes None)]
  | CocoTask.person_keypoints =>
      keypoints ← subscript "keypoints" (j_keypoints ann);
      let points := keypoint_coordinates keypoints in
      let visibility := slice_from_step 2 3 keypoints in
      let bbox := j_bbox ann in
      label_id ← _parse_label self ann;
      let group := match bbox with Some _ => ann_id | None => None end in
      let pts := Points points visibility
                   (mkCommon label_id ann_id attributes group) in
      match bbox with
      | Some bbox =>
          (* BboxObject( *bbox, ...): four positional numbers *)
          '(x, y, w, h) ←
            match bbox with
            | [x; y; w; h] => Ok (x, y, w, h)
            | _ => Raise TypeError
            end;
          box ← BboxObject x y w h (mkCommon label_id None ∅ group);
          Ok [pts; box]
      | None => Ok [pts]
      end
  | CocoTask.captions =>
      caption ← subscript "caption" (j_caption ann);
      Ok [Caption caption (mkCommon None ann_id attributes None)]
  | _ => Raise NotImplementedError
  end.

(** The image files below the dataset root: [osp.exists] and the image
    [lazy_image] would load. *)
Variable image_files : string -> option Image.

(** The first of [search_paths] that exists. *)
Definition find_image (self : CocoExtractor) (subset file_name : string)
  : option Image :=
  let image_dir := PyStr.path_join (_path self) CocoPath.IMAGES_DIR in
  let search_paths :=
    [PyStr.path_join image_dir file_name;
     PyStr.path_join3 image_dir subset file_name] in
  match omap image_files search_paths with
  | img :: _ => Some img
  | [] => None
  end.

(** [CocoExtractor._get] *)
Definition _get (self : CocoExtractor) (img_id : Z) (subset : string)
  : result DatasetItem :=
  sub ← match PyDict.get (_subsets self) subset with
        | Some s => Ok s
        | None => Raise (KeyError (StrKey subset))
        end;
  '(image_info, image, annotations) ←
    foldM (fun '(image_info, image, annotations) '(ann_type, loader) =>
             '(image_info, image) ←
               match image with
               | None =>
                   infos ← loadImgs loader img_id;
                   image_info ← index infos 0;
                   file_name ← subscript "file_name" (i_file_name image_info);
                   Ok (Some image_info,
                       if String.eqb file_name "" then None
                       else find_image self subset file_name)
               | Some _ => Ok (image_info, image)
               end;
             let annIds := getAnnIds loader img_id in
             anns ← loadAnns loader annIds;
             info ← match image_info with
                    | Some i => Ok i
                    | None => Raise TypeError
                    end;
             new ← mapM (fun ann => _parse_annotation self ann ann_type info) anns;
             Ok (image_info, image, annotations ++ mjoin new))
          (None, None, []) (loaders sub);
  Ok (mkDatasetItem (IntKey img_id) (Some subset) image annotations).

(** The annotation files: [open(path)] and [json.load]. *)
Variable json_files : string -> option CocoDataset.

(** [CocoExtractor._make_subset_loader] *)
Definition _make_subset_loader (path : string) : result COCO :=
  match json_files path with
  | Some dataset => createIndex dataset
  | None => Raise FileNotFoundError
  end.

(** [CocoExtractor.__init__] *)
Definition CocoExtractor_init (path : string) (task : CocoTask.t)
    (merge_instance_polygons : bool) : result CocoExtractor :=
  rootpath ← index (PyStr.rsplit CocoPath.ANNOTATIONS_DIR path) 0;
  subset_name ←
    index (PyStr.rsplit "_" (PyStr.splitext (PyStr.basename path)).1) 1;
  loader ← _make_subset_loader path;
  let items := PyDict.keys
    (foldl (fun acc img_id => PyDict.set acc img_id tt) [] (getImgIds loader)) in
  let subset := mkSubset subset_name [(task, loader)] items in
  let subsets := PyDict.set [] subset_name subset in
  '(categories, label_map) ← _load_categories subsets;
  Ok (mkCocoExtractor rootpath task subsets categories label_map
        merge_instance_polygons).

(** [Subset.__iter__] *)
Definition Subset_iter (self : CocoExtractor) (subset : Subset)
  : list (result DatasetItem) :=
  (fun img_id => _get self img_id (sub_name subset)) <$> sub_items subset.

(** [CocoExtractor.__iter__] *)
Definition CocoExtractor_iter (self : CocoExtractor) : list (result DatasetItem) :=
  mjoin (Subset_iter self <$> PyDict.values (_subsets self)).

(** The extractor as converters see it: [subsets()], [get_subset(name)],
    [categories()] and iteration. *)
Definition as_extractor (self : CocoExtractor) : Extractor :=
  {| ex_dataset := mkDataset (CocoExtractor_iter self) (_categories self);
     ex_subsets := PyDict.keys (_subsets self);
     ex_get_subset := fun name =>
       match PyDict.get (_subsets self) name with
       | Some s => Ok (mkDataset (Subset_iter self s) (_categories self))
       | None => Raise (KeyError (StrKey name))
       end |}.

End ParseAnnotation.

(** ** Files written by the converters *)

Definition chr (n : nat) : string := String (Ascii.ascii_of_nat n) EmptyString.
Definition nl : string := chr 10.
Definition tab : string := chr 9.
Definition dquote : string := chr 34.

(** One feature of a [tf.train.Example]. *)
Inductive Feature :=
| Int64List (value : list Z)
| BytesList (value : list string)
| FloatList (value : list pynum).

(** [tf.train.Example(features=tf.train.Features(feature=features))] *)
Definition TfExample := gmap string Feature.

Inductive file :=
| TextFile (content : string)
| ImageFile (img : option Image)
| RecordFile (records : list TfExample).

(** The output tree, and the warnings logged so far.  Writing never fails
    here: an I/O error would propagate like any other exception. *)
Record World := mkWorld {
  files : gmap string file;
  dirs : gset string;
  warnings : list string;
}.

Definition empty_world : World := mkWorld ∅ ∅ [].

(** A computation that writes files and may raise: what was written
    before the exception stays written. *)
Definition IO (A : Type) : Type := World -> World * result A.

#[global] Instance IO_ret : MRet IO := fun A a w => (w, Ok a).
#[global] Instance IO_bind : MBind IO := fun A B f m w =>
  match m w with
  | (w', Ok a) => f a w'
  | (w', Raise e) => (w', Raise e)
  end.

Definition lift {A} (r : result A) : IO A := fun w => (w, r).

(** [os.makedirs(path, exist_ok=True)] *)
Definition makedirs (path : string) : IO unit := fun w =>
  (mkWorld (files w) ({[path]} ∪ dirs w) (warnings w), Ok tt).

(** [with open(path, 'w') as f: f.write(content)] *)
Definition write_text (path content : string) : IO unit := fun w =>
  (mkWorld (<[path := TextFile content]> (files w)) (dirs w) (warnings w), Ok tt).

(** [osp.exists(path)] *)
Definition exists_ (path : string) : IO bool := fun w =>
  (w, Ok (bool_decide (is_Some (files w !! path)) || bool_decide (path ∈ dirs w))).

(** [save_image(path, image)]: the image writer is outside the repository;
    the file is taken to be written whatever [image] is. *)
Definition save_image (path : string) (img : option Image) : IO unit := fun w =>
  (mkWorld (<[path := ImageFile img]> (files w)) (dirs w) (warnings w), Ok tt).

(** [log.warn(msg)] *)
Definition warn (msg : string) : IO unit := fun w =>
  (mkWorld (files w) (dirs w) (warnings w ++ [msg]), Ok tt).

(** [tf.io.TFRecordWriter(path)]: opening creates (or truncates) the file. *)
Definition open_records (path : string) : IO unit := fun w =>
  (mkWorld (<[path := RecordFile [] ]> (files w)) (dirs w) (warnings w), Ok tt).

(** [writer.write(example.SerializeToString())] *)
Definition write_record (path : string) (e : TfExample) : IO unit := fun w =>
  let old := match files w !! path with
             | Some (RecordFile l) => l
             | _ => []
             end in
  (mkWorld (<[path := RecordFile (old ++ [e])]> (files w)) (dirs w) (warnings w),
   Ok tt).

(** A [for] loop that threads a state through an effectful body. *)
Fixpoint io_fold {A S} (f : S -> A -> IO S) (s : S) (l : list A) : IO S :=
  match l with
  | [] => mret s
  | a :: l' => s' ← f s a; io_fold f s' l'
  end.

Definition io_for {A} (l : list A) (f : A -> IO unit) : IO unit :=
  io_fold (fun _ a => f a) tt l.

(** [height, width, _ = item.image.shape] *)
Definition image_shape (item : DatasetItem) : result (Z * Z) :=
  match image item with
  | None => Raise AttributeError
  | Some img =>
      match shape img with
      | [height; width; _] => Ok (height, width)
      | _ => Raise ValueError
      end
  end.

(** [{label.name: idx for idx, label in enumerate(items)}], with [first]
    added to every index. *)
Definition label_ids_of (first : nat) (c : LabelCategories)
  : PyDict.dict string nat :=
  foldl (fun acc il => PyDict.set acc (snd il).1 (first + fst il)%nat)
        [] (enumerate (items c)).

(** ** datumaro/components/converters/yolo.py *)

(** [_make_yolo_bbox] *)
Definition _make_yolo_bbox (img_size : pynum * pynum) (box : list pynum)
  : result (pynum * pynum * pynum * pynum) :=
  b0 ← index box 0; b2 ← index box 2;
  s ← add b0 b2; m ← truediv s (PyInt 2); x ← truediv m (fst img_size);
  b1 ← index box 1; b3 ← index box 3;
  s ← add b1 b3; m ← truediv s (PyInt 2); y ← truediv m (snd img_size);
  d ← sub b2 b0; w ← truediv d (fst img_size);
  d ← sub b3 b1; h ← truediv d (snd img_size);
  Ok (x, y, w, h).

Fixpoint insert_by_value (kv : string * nat) (l : list (string * nat))
  : list (string * nat) :=
  match l with
  | [] => [kv]
  | kv' :: l' =>
      if (snd kv <=? snd kv')%nat then kv :: l
      else kv' :: insert_by_value kv l'
  end.

(** [sorted(d.items(), key=lambda x: x[1])] *)
Definition sorted_by_value (d : PyDict.dict string nat) : list (string * nat) :=
  foldr insert_by_value [] d.

(** The text of one item's annotation file: the loop over
    [item.annotations] in [YoloConverter.__call__]. *)
Definition yolo_annotation_of (width height : Z) (anns : list Annotation)
  : result string :=
  foldM (fun yolo_annotation bbox =>
           if negb (bool_decide (type_of bbox = AnnotationType.bbox))
           then Ok yolo_annotation
           else
             match label (common bbox) with
             | None => Ok yolo_annotation
             | Some l =>
                 pts ← points_of bbox;
                 '(x, y, w, h) ←
                   _make_yolo_bbox (PyInt width, PyInt height) pts;
                 strs ← mapM format_f6 [x; y; w; h];
                 let yolo_bb := PyStr.join " " strs in
                 Ok (yolo_annotation +:+ str_of_nat l +:+ " " +:+ yolo_bb +:+ nl)
             end)
        "" anns.

Section YoloConverter.

(** [YoloPath.SUBSET_NAMES] and [YoloPath.DEFAULT_SUBSET_NAME], from
    [datumaro/components/formats/yolo.py]. *)
Variable SUBSET_NAMES : list string.
Variable DEFAULT_SUBSET_NAME : string.

Record YoloConverter := mkYoloConverter {
  yolo_task : option CocoTask.t;
  yolo_save_images : bool;
  yolo_apply_colormap : bool;
}.

(** The message of the warning for a subset that is not exported. *)
Definition yolo_skip_message (subset_name : string) : string :=
  "Skipping subset export '" +:+ subset_name
    +:+ "'. If specified, the only valid names are "
    +:+ PyStr.join ", " ((fun s => "'" +:+ s +:+ "'") <$> SUBSET_NAMES).

(** The body of [for item in subset]. *)
Definition yolo_item (self : YoloConverter) (subset_dir : string)
    (image_paths : PyDict.dict dictkey string) (next : result DatasetItem)
  : IO (PyDict.dict dictkey string) :=
  item ← lift next;
  let image_name := str_of_key (item_id item) +:+ ".jpg" in
  let image_paths :=
    PyDict.set image_paths (item_id item)
      (PyStr.path_join3 "data" (PyStr.basename subset_dir) image_name) in
  (if yolo_save_images self then
     let image_path := PyStr.path_join subset_dir image_name in
     present ← exists_ image_path;
     if present : bool then mret tt else save_image image_path (image item)
   else mret tt);;
  '(height, width) ← lift (image_shape item);
  yolo_annotation ← lift (yolo_annotation_of width height (annotations item));
  let annotation_path :=
    PyStr.path_join subset_dir (str_of_key (item_id item) +:+ ".txt") in
  write_text annotation_path yolo_annotation;;
  mret image_paths.

(** The loop body of [for subset_name in subsets] once [subset_name] and
    [subset] are chosen: from [subset_dir = ...] to the subset's list file. *)
Definition yolo_export (self : YoloConverter) (save_dir : string)
    (subset_lists : PyDict.dict string string)
    (subset_name : string) (subset : Dataset)
  : IO (PyDict.dict string string) :=
  let subset_dir :=
    PyStr.path_join save_dir ("obj_" +:+ subset_name +:+ "_data") in
  makedirs subset_dir;;
  image_paths ← io_fold (yolo_item self subset_dir) [] (ds_iter subset);
  let subset_list_name := subset_name +:+ ".txt" in
  let subset_lists := PyDict.set subset_lists subset_name subset_list_name in
  write_text (PyStr.path_join save_dir subset_list_name)
    (PyStr.concat ((fun s => s +:+ nl) <$> PyDict.values image_paths));;
  mret subset_lists.

(** Python truth of a subset name: [None] and the empty string are false. *)
Definition truthy (subset_name : option string) : bool :=
  match subset_name with
  | Some n => negb (String.eqb n "")
  | None => false
  end.

(** The body of [for subset_name in subsets]; [None] is the unnamed subset
    of a source without subsets. *)
Definition yolo_subset (self : YoloConverter) (extractor : Extractor)
    (save_dir : string) (subset_lists : PyDict.dict string string)
    (subset_name : option string) : IO (PyDict.dict string string) :=
  let name := default "" subset_name in
  if truthy subset_name && bool_decide (name ∈ SUBSET_NAMES) then
    subset ← lift (ex_get_subset extractor name);
    yolo_export self save_dir subset_lists name subset
  else if negb (truthy subset_name) then
    yolo_export self save_dir subset_lists DEFAULT_SUBSET_NAME
      (ex_dataset extractor)
  else
    warn (yolo_skip_message name);;
    mret subset_lists.

(** [subsets = extractor.subsets()], replaced by [[None]] when empty. *)
Definition subsets_or_default (extractor : Extractor) : list (option string) :=
  match ex_subsets extractor with
  | [] => [None]
  | l => Some <$> l
  end.

(** [YoloConverter.__call__] *)
Definition YoloConverter_call (self : YoloConverter) (extractor : Extractor)
    (save_dir : string) : IO unit :=
  makedirs save_dir;;
  label_categories ← lift (categories_label (ds_categories (ex_dataset extractor)));
  let label_ids := label_ids_of 0 label_categories in
  write_text (PyStr.path_join save_dir "obj.names")
    (PyStr.concat ((fun l => fst l +:+ nl) <$> sorted_by_value label_ids));;
  let subsets := subsets_or_default extractor in
  subset_lists ← io_fold (yolo_subset self extractor save_dir) [] subsets;
  write_text (PyStr.path_join save_dir "obj.data")
    ("classes = " +:+ str_of_nat (length label_ids) +:+ nl
     +:+ PyStr.concat
           ((fun kv => fst kv +:+ " = " +:+ PyStr.path_join "data" (snd kv) +:+ nl)
              <$> subset_lists)
     +:+ "names = " +:+ PyStr.path_join "data" "obj.names" +:+ nl
     +:+ "backup = backup/" +:+ nl).

End YoloConverter.

(** ** datumaro/components/converters/tfrecord.py *)

(** Membership in [string.printable]: the ASCII digits, letters,
    punctuation and whitespace. *)
Definition printable (c : ascii) : bool :=
  let n := Ascii.nat_of_ascii c in
  ((32 <=? n) && (n <=? 126) || (9 <=? n) && (n <=? 13))%nat.

(** [_make_printable] *)
Fixpoint _make_printable (s : string) : string :=
  match s with
  | EmptyString => EmptyString
  | String c s' =>
      if printable c then String c (_make_printable s') else _make_printable s'
  end.

Section DetectionApiConverter.

(** [DEFAULT_SUBSET_NAME] of [datumaro/components/extractor.py] and the
    constants of [DetectionApiPath]
    ([datumaro/components/formats/tfrecord.py]). *)
Variable DEFAULT_SUBSET_NAME : string.
Variable IMAGE_EXT : string.
Variable IMAGE_FORMAT : string.
Variable LABELMAP_FILE : string.

(** [Image.fromarray(...).save(buffer, format=fmt); buffer.getvalue()] *)
Variable encode_image : Image -> string.

(** The image height and width [_make_tf_example] records. *)
Definition tf_image_size (item : DatasetItem) : result (Z * Z) :=
  if has_image item then image_shape item else Ok (0, 0).

(** The loop [for box in boxes]: the six parallel lists. *)
Definition tf_boxes (get_label : option nat -> result string)
    (get_label_id : option nat -> result Z) (width height : Z)
    (boxes : list Annotation)
  : result (list pynum * list pynum * list pynum * list pynum
            * list string * list Z) :=
  foldM (fun '(xmins, xmaxs, ymins, ymaxs, classes_text, classes) box =>
           name ← get_label (label (common box));
           let box_label := _make_printable name in
           pts ← points_of box;
           p0 ← index pts 0; xmin ← truediv p0 (PyInt width);
           p2 ← index pts 2; xmax ← truediv p2 (PyInt width);
           p1 ← index pts 1; ymin ← truediv p1 (PyInt height);
           p3 ← index pts 3; ymax ← truediv p3 (PyInt height);
           cls ← get_label_id (label (common box));
           Ok (xmins ++ [xmin], xmaxs ++ [xmax], ymins ++ [ymin],
               ymaxs ++ [ymax], classes_text ++ [box_label], classes ++ [cls]))
        ([], [], [], [], [], []) boxes.

(** [_make_tf_example] *)
Definition _make_tf_example (item : DatasetItem)
    (get_label_id : option nat -> result Z)
    (get_label : option nat -> result string) (save_images : bool)
  : result TfExample :=
  let features : TfExample :=
    {[ "image/source_id" := BytesList [str_of_key (item_id item)];
       "image/filename" :=
         BytesList [str_of_key (item_id item) +:+ IMAGE_EXT] ]} in
  '(height, width) ← tf_image_size item;
  let features :=
    <["image/width" := Int64List [width] ]>
      (<["image/height" := Int64List [height] ]> features) in
  let features :=
    match image item with
    | Some img =>
        if save_images then
          <["image/format" := BytesList [IMAGE_FORMAT] ]>
            (<["image/encoded" := BytesList [encode_image img] ]> features)
        else features
    | None => features
    end in
  let boxes :=
    List.filter (fun ann => bool_decide (type_of ann = AnnotationType.bbox))
                (annotations item) in
  '(xmins, xmaxs, ymins, ymaxs, classes_text, classes) ←
    tf_boxes get_label get_label_id width height boxes;
  let features :=
    match boxes with
    | [] => features
    | _ =>
        <["image/object/class/label" := Int64List classes]>
          (<["image/object/class/text" := BytesList classes_text]>
            (<["image/object/bbox/ymax" := FloatList ymaxs]>
              (<["image/object/bbox/ymin" := FloatList ymins]>
                (<["image/object/bbox/xmax" := FloatList xmaxs]>
                  (<["image/object/bbox/xmin" := FloatList xmins]> features)))))
    end in
  Ok features.

Record DetectionApiConverter := mkDetectionApiConverter {
  save_images : bool;
}.

(** [get_label]: the name at [label_id], or the empty string. *)
Definition tf_get_label (label_categories : LabelCategories)
    (label_id : option nat) : result string :=
  match label_id with
  | Some i => fst <$> index (items label_categories) i
  | None => Ok ""
  end.

(** [map_label_id] *)
Definition tf_map_label_id (label_categories : LabelCategories)
    (label_ids : PyDict.dict string nat) (label_id : option nat) : result Z :=
  name ← tf_get_label label_categories label_id;
  Ok (Z.of_nat (default 0%nat (PyDict.get label_ids name))).

(** The text of the label map file. *)
Definition labelmap_text (label_ids : PyDict.dict string nat) : string :=
  PyStr.concat
    ((fun kv =>
        "item {" +:+ nl
        +:+ tab +:+ "id: " +:+ str_of_nat (snd kv) +:+ nl
        +:+ tab +:+ "name: '" +:+ fst kv +:+ "'" +:+ nl
        +:+ "}" +:+ nl +:+ nl) <$> label_ids).

(** The path of the record file of a subset. *)
Definition record_path (save_dir subset_name : string) : string :=
  PyStr.path_join save_dir (subset_name +:+ ".tfrecord").

(** The loop body of [for subset_name in subsets] once [subset_name] and
    [subset] are chosen: the label map, then the record file. *)
Definition tf_export (self : DetectionApiConverter) (save_dir : string)
    (subset_name : string) (subset : Dataset) : IO unit :=
  label_categories ← lift (categories_label (ds_categories subset));
  let get_label := tf_get_label label_categories in
  let label_ids := label_ids_of 1 label_categories in
  let map_label_id := tf_map_label_id label_categories label_ids in
  let labelmap_path := PyStr.path_join save_dir LABELMAP_FILE in
  write_text labelmap_path (labelmap_text label_ids);;
  let anno_path := record_path save_dir subset_name in
  open_records anno_path;;
  io_for (ds_iter subset) (fun next =>
    item ← lift next;
    tf_example ← lift (_make_tf_example item map_label_id get_label
                         (save_images self));
    write_record anno_path tf_example).

(** The body of [for subset_name in subsets]. *)
Definition tf_subset (self : DetectionApiConverter) (extractor : Extractor)
    (save_dir : string) (subset_name : option string) : IO unit :=
  if truthy subset_name then
    let name := default "" subset_name in
    subset ← lift (ex_get_subset extractor name);
    tf_export self save_dir name subset
  else
    tf_export self save_dir DEFAULT_SUBSET_NAME (ex_dataset extractor).

(** [DetectionApiConverter.__call__] *)
Definition DetectionApiConverter_call (self : DetectionApiConverter)
    (extractor : Extractor) (save_dir : string) : IO unit :=
  makedirs save_dir;;
  let subsets := subsets_or_default extractor in
  io_for subsets (tf_subset self extractor save_dir).

End DetectionApiConverter.

(** ** datumaro/components/importers/ms_coco.py *)

Module CocoImporter.

(** [_COCO_EXTRACTORS] *)
Definition _COCO_EXTRACTORS (t : CocoTask.t) : string :=
  match t with
  | CocoTask.instances => "coco_instances"
  | CocoTask.person_keypoints => "coco_person_kp"
  | CocoTask.captions => "coco_captions"
  | CocoTask.labels => "coco_labels"
  | CocoTask.image_info => "coco_images"
  end.

(** The message raised for a file whose task is not a [CocoTask]. *)
Definition unknown_task_message (ann_type : string) : string :=
  "Unknown subset type " +:+ ann_type +:+ ", only known are: "
    +:+ PyStr.join ", " (CocoTask.name <$> CocoTask.members).

Definition subsets_dict := PyDict.dict string (PyDict.dict CocoTask.t string).

(** The body of [for ann_file in os.listdir(ann_dir)]. *)
Definition find_subsets_step (ann_dir : string) (subsets : subsets_dict)
    (ann_file : string) : result subsets_dict :=
  let subset_path := PyStr.path_join ann_dir ann_file in
  if negb (PyStr.endswith subset_path ".json") then Ok subsets
  else
    let name_parts := PyStr.rsplit "_" (PyStr.splitext ann_file).1 in
    ann_type ← index name_parts 0;
    ann_type ←
      match CocoTask.of_name ann_type with
      | Ok t => Ok t
      | Raise (KeyError _) => Raise (Exception (unknown_task_message ann_type))
      | Raise e => Raise e
      end;
    subset_name ← index name_parts 1;
    let of_subset := default [] (PyDict.get subsets subset_name) in
    Ok (PyDict.set subsets subset_name (PyDict.set of_subset ann_type subset_path)).

Section Files.

(** [osp.isdir] and [os.listdir] on the dataset directory. *)
Variable isdir : string -> bool.
Variable listdir : string -> list string.

(** [CocoImporter.find_subsets] *)
Definition find_subsets (dataset_dir : string) : result subsets_dict :=
  let ann_dir := PyStr.path_join dataset_dir CocoPath.ANNOTATIONS_DIR in
  if negb (isdir ann_dir) then
    Raise (NotADirectoryError
             ("COCO annotations directory not found at " +:+ dquote
                +:+ ann_dir +:+ dquote))
  else foldM (find_subsets_step ann_dir) [] (listdir ann_dir).

(** A source registered with the project: its name, url and format. *)
Record Source := mkSource {
  source_name : string;
  url : string;
  format : string;
}.

(** [CocoImporter.__call__]: the sources added to the project, in order. *)
Definition call (path : string) : result (list Source) :=
  subsets ← find_subsets path;
  match subsets with
  | [] => Raise (Exception ("Failed to find 'coco' dataset at '" +:+ path +:+ "'"))
  | _ =>
      Ok (mjoin
            ((fun ann_files : PyDict.dict CocoTask.t string =>
                (fun af =>
                   mkSource (PyStr.splitext (PyStr.basename (snd af))).1 (snd af)
                            (_COCO_EXTRACTORS (fst af))) <$> ann_files)
               <$> PyDict.values subsets))
  end.

End Files.
End CocoImporter.

(** ** Definitions used to state the properties *)

(** The label part of what [_load_categories] leaves in the extractor:
    [self._categories.get(AnnotationType.label)] and [self._label_map]. *)
Definition label_table (r : result (Categories * option (gmap Z nat)))
  : result (option LabelCategories * option (gmap Z nat)) :=
  cm ← r; Ok (cat_label cm.1, cm.2).

(** The label part a given loader's categories produce. *)
Definition table_of (loader : COCO)
  : result (option LabelCategories * option (gmap Z nat)) :=
  cm ← _load_label_categories loader; Ok (Some cm.1, Some cm.2).

(** The specification's wording of a preference order: the loader of the
    first task of [order] that has one. *)
Definition first_present (order : list CocoTask.t)
    (loaders : PyDict.dict CocoTask.t COCO) : option COCO :=
  head (omap (PyDict.get loaders) order).

(** The loader of a document, when [createIndex] accepts it. *)
Definition loader_of (d : CocoDataset) : COCO :=
  match createIndex d with
  | Ok l => l
  | Raise e => mkCOCO [] (fun _ => Raise e) [] (fun _ => Raise e) (fun _ => [])
                 (fun _ => Raise e)
  end.

Module TwoTasks.

(** A labels file and an instances file of one subset whose categories
    differ. *)
Definition labels_loader : COCO :=
  loader_of (mkCocoDataset
    [mkCocoCategory 1 (Some "from_labels") (Some "") None None] [] []).

Definition instances_loader : COCO :=
  loader_of (mkCocoDataset
    [mkCocoCategory 1 (Some "from_instances") (Some "") None None] [] []).

Definition both : PyDict.dict CocoTask.t COCO :=
  [(CocoTask.instances, instances_loader); (CocoTask.labels, labels_loader)].

End TwoTasks.

Module Labelled.

(** An extractor over the categories 1 ("cat") and 2 ("dog"), and label
    records of it. *)
Definition self : CocoExtractor :=
  mkCocoExtractor "/data/" CocoTask.labels []
    (mkCategories (Some (mkLabelCategories [("cat", ""); ("dog", "")])) None)
    (Some (<[2 := 1%nat]> (<[1 := 0%nat]> ∅))) false.

Definition record (category_id : option Z) : CocoAnn :=
  mkCocoAnn (Some 11) 7 category_id None None None None None None.

Definition info : CocoImage := mkCocoImage 7 (Some "a.jpg") (Some 50) (Some 100).

End Labelled.

(** The attributes [_parse_annotation] starts from: the score, if the
    record has one. *)
Definition score_attributes (ann : CocoAnn) : gmap string attr_value :=
  match j_score ann with
  | Some score => {["score" := AttrNum score]}
  | None => ∅
  end.

(** The attributes of the annotations of an instances record. *)
Definition instances_attributes (ann : CocoAnn) (iscrowd : Z)
  : gmap string attr_value :=
  <["is_crowd" := AttrBool (negb (Z.eqb iscrowd 0))]> (score_attributes ann).

(** The flat array [(x1, y1, v1, ..., xn, yn, vn)] of [n] keypoints. *)
Fixpoint flat_keypoints (kps : list (pynum * pynum * pynum)) : list pynum :=
  match kps with
  | [] => []
  | (x, y, v) :: kps' => x :: y :: v :: flat_keypoints kps'
  end.

(** The same array without every third element. *)
Fixpoint flat_coordinates (kps : list (pynum * pynum * pynum)) : list pynum :=
  match kps with
  | [] => []
  | (x, y, _) :: kps' => x :: y :: flat_coordinates kps'
  end.

Module Instance.

(** A toy mask library: a polygon becomes the RLE whose counts list its
    length, an uncompressed RLE is tagged as compressed, a merge keeps the
    sizes of the first part. *)
Definition mask_utils : MaskUtils :=
  {| frPyObjects_polygons := fun parts h w =>
       Ok ((fun p => mkRle [h; w] (CountsBytes (str_of_nat (length p)))) <$> parts);
     frPyObjects_rle := fun r h w => Ok (mkRle [h; w] (CountsBytes "rle"));
     merge := fun rles =>
       Ok (mkRle (default [] (rle_size <$> head rles)) (CountsBytes "merged")) |}.

Definition self (merge_instance_polygons : bool) : CocoExtractor :=
  mkCocoExtractor "/data/" CocoTask.instances []
    (mkCategories (Some (mkLabelCategories [("cat", ""); ("dog", "")])) None)
    (Some (<[2 := 1%nat]> (<[1 := 0%nat]> ∅))) merge_instance_polygons.

Definition info : CocoImage := mkCocoImage 7 (Some "a.jpg") (Some 50) (Some 100).

Definition triangle : list pynum :=
  [PyInt 10; PyInt 10; PyInt 30; PyInt 10; PyInt 30; PyInt 30].
Definition square : list pynum :=
  [PyInt 0; PyInt 0; PyInt 4; PyInt 0; PyInt 4; PyInt 4; PyInt 0; PyInt 4].

Definition record (segmentation : option Segmentation) : CocoAnn :=
  mkCocoAnn (Some 11) 7 (Some 2)
    (Some [PyInt 10; PyInt 10; PyInt 20; PyInt 20]) (Some 0)
    segmentation None None None.

Definition fields : Common :=
  mkCommon (Some 1%nat) (Some 11)
    (instances_attributes (record None) 0) (Some 11).

Definition box : Annotation :=
  Bbox [PyInt 10; PyInt 10; PyInt 30; PyInt 30] fields.

(** A keypoints record with two keypoints and a box. *)
Definition person : CocoAnn :=
  mkCocoAnn (Some 12) 7 (Some 1)
    (Some [PyInt 1; PyInt 2; PyInt 3; PyInt 4]) None None
    (Some (flat_keypoints
             [(PyInt 10, PyInt 11, PyInt 2); (PyInt 20, PyInt 21, PyInt 1)]))
    None None.

End Instance.

Module Scenario.

(** The specification's line-format scenario: the categories 1 ("cat") and
    2 ("dog"), one image of width 100 and height 50, and one instance
    annotation with [bbox = [10, 10, 20, 20]] and [category_id = 2].  The
    members the scenario leaves open but the format requires (the
    supercategories, [iscrowd]) are parameters; the image file is present
    under [images/]. *)
Definition dataset (sup1 sup2 : string) (iscrowd : Z) : CocoDataset :=
  mkCocoDataset
    [mkCocoCategory 1 (Some "cat") (Some sup1) None None;
     mkCocoCategory 2 (Some "dog") (Some sup2) None None]
    [mkCocoImage 7 (Some "a.jpg") (Some 50) (Some 100)]
    [mkCocoAnn (Some 1) 7 (Some 2)
       (Some [PyInt 10; PyInt 10; PyInt 20; PyInt 20]) (Some iscrowd)
       None None None None].

Definition path : string := "/data/annotations/instances_train.json".

Definition json_files (sup1 sup2 : string) (iscrowd : Z) (p : string)
  : option CocoDataset :=
  if String.eqb p path then Some (dataset sup1 sup2 iscrowd) else None.

Definition image_files (p : string) : option Image :=
  if String.eqb p "/data/images/a.jpg" then Some (mkImage [50; 100; 3])
  else None.

Definition line : string := "1 0.200000 0.400000 0.200000 0.400000".

End Scenario.

Module NoImageItem.

(** An item without an image that carries one labelled box. *)
Definition label_categories : LabelCategories :=
  mkLabelCategories [("cat", ""); ("dog", "")].

Definition item : DatasetItem :=
  mkDatasetItem (IntKey 7) (Some "train") None
    [Bbox [PyInt 10; PyInt 10; PyInt 30; PyInt 30]
       (mkCommon (Some 1%nat) (Some 1) ∅ None)].

End NoImageItem.

(** The file name of the annotations of [task] for [subset]. *)
Definition annotation_file_name (task : CocoTask.t) (subset : string) : string :=
  CocoTask.name task +:+ "_" +:+ subset +:+ ".json".

(** Whether [path] is a record file of the output tree. *)
Definition is_record_file (w : World) (path : string) : bool :=
  match files w !! path with
  | Some (RecordFile _) => true
  | _ => false
  end.

(** The world after [log.warn(msg)]. *)
Definition warned (w : World) (msg : string) : World :=
  mkWorld (files w) (dirs w) (warnings w ++ [msg]).

(** A computation that logs no warning. *)
Definition quiet {A} (m : IO A) : Prop :=
  forall w, warnings (m w).1 = warnings w.

Module Unnamed.

(** A source without subsets: one item with an image and no annotations. *)
Definition item : DatasetItem :=
  mkDatasetItem (IntKey 7) None (Some (mkImage [50; 100; 3])) [].

Definition dataset : Dataset :=
  mkDataset [Ok item]
    (mkCategories (Some (mkLabelCategories [("cat", ""); ("dog", "")])) None).

Definition extractor : Extractor :=
  mkExtractor dataset [] (fun name => Raise (KeyError (StrKey name))).

(** A source with the subsets "train" and "extra". *)
Definition named : Extractor :=
  mkExtractor dataset ["extra"; "train"] (fun _ => Ok dataset).

End Unnamed.

(** A source without subsets whose categories hold no label table. *)
Module Unlabelled.

Definition dataset : Dataset :=
  mkDataset [Ok Unnamed.item] (mkCategories None None).

Definition extractor : Extractor :=
  mkExtractor dataset [] (fun name => Raise (KeyError (StrKey name))).

End Unlabelled.

Section RecordItems.

Variable IMAGE_EXT IMAGE_FORMAT : string.
Variable encode_image : Image -> string.

(** The record of one item, as the loop of the record-format converter
    makes it for a subset with the given label categories. *)
Definition tf_item (self : DetectionApiConverter)
    (label_categories : LabelCategories) (item : DatasetItem)
  : result TfExample :=
  _make_tf_example IMAGE_EXT IMAGE_FORMAT encode_image item
    (tf_map_label_id label_categories (label_ids_of 1 label_categories))
    (tf_get_label label_categories) (save_images self).

(** The body of [for item in subset] in that loop. *)
Definition tf_write (self : DetectionApiConverter)
    (label_categories : LabelCategories) (anno_path : string)
    (next : result DatasetItem) : IO unit :=
  item ← lift next;
  tf_example ← lift (tf_item self label_categories item);
  write_record anno_path tf_example.

End RecordItems.

(** ** Further definitions used to state properties *)

(** Every character of [s] is in [string.printable]. *)
Fixpoint all_printable (s : string) : bool :=
  match s with
  | EmptyString => true
  | String c s' => printable c && all_printable s'
  end.

(** The names of a label table, in order. *)
Definition label_names (c : LabelCategories) : list string := (items c).*1.

(** The text [YoloConverter.__call__] writes to [obj.names]. *)
Definition obj_names_text (label_categories : LabelCategories) : string :=
  PyStr.concat
    ((fun l => fst l +:+ nl)
       <$> sorted_by_value (label_ids_of 0 label_categories)).

(** Whether the line-format loop writes a line for an annotation: it is a
    box and has a label. *)
Definition labelled_bbox (a : Annotation) : bool :=
  bool_decide (type_of a = AnnotationType.bbox)
  && bool_decide (is_Some (label (common a))).

(** What one annotation adds to the annotation text of its item. *)
Definition yolo_line (width height : Z) (bbox : Annotation) : result string :=
  if negb (bool_decide (type_of bbox = AnnotationType.bbox)) then Ok ""
  else
    match label (common bbox) with
    | None => Ok ""
    | Some l =>
        pts ← points_of bbox;
        '(x, y, w, h) ← _make_yolo_bbox (PyInt width, PyInt height) pts;
        strs ← mapM format_f6 [x; y; w; h];
        Ok (str_of_nat l +:+ " " +:+ PyStr.join " " strs +:+ nl)
    end.

(** A label table with three distinct names. *)
Definition three_labels : LabelCategories :=
  mkLabelCategories [("cat", ""); ("dog", "animal"); ("car", "")].

(** A label table in which the name "cat" occurs twice. *)
Definition repeated_labels : LabelCategories :=
  mkLabelCategories [("cat", ""); ("dog", ""); ("cat", "pet")].

Module Mixed.

(** An item whose annotations are a caption, an unlabelled box, a labelled
    box and a polygon. *)
Definition fields (l : option nat) : Common := mkCommon l None ∅ None.

Definition labelled : Annotation :=
  Bbox [PyInt 10; PyInt 10; PyInt 30; PyInt 30] (fields (Some 1%nat)).

Definition annotations : list Annotation :=
  [Caption "a dog" (fields None);
   Bbox [PyInt 0; PyInt 0; PyInt 5; PyInt 5] (fields None);
   labelled;
   Polygon [PyInt 0; PyInt 0; PyInt 4; PyInt 0; PyInt 4; PyInt 4]
     (fields (Some 0%nat))].

End Mixed.

(** The mixed annotations on an image of width 100 and height 50. *)
Definition mixed_item : DatasetItem :=
  mkDatasetItem (IntKey 7) (Some "train") (Some (mkImage [50; 100; 3]))
    Mixed.annotations.

(** The boxes [_make_tf_example] normalises: the annotations of type bbox. *)
Definition boxes_of (item : DatasetItem) : list Annotation :=
  List.filter (fun ann => bool_decide (type_of ann = AnnotationType.bbox))
              (annotations item).

(** The name under which the record format exports a subset: its own
    name, or the default name when it is unnamed. *)
Definition tf_subset_name (DEFAULT_SUBSET_NAME : string)
    (subset_name : option string) : string :=
  if truthy subset_name then default "" subset_name else DEFAULT_SUBSET_NAME.

(** Whether the importer looks at a directory entry: the test
    [subset_path.endswith('.json')]. *)
Definition is_json (ann_dir ann_file : string) : bool :=
  PyStr.endswith (PyStr.path_join ann_dir ann_file) ".json".

(** The name of a file without its extension, as the importer takes it. *)
Definition stem (ann_file : string) : string := (PyStr.splitext ann_file).1.

(** The row of the label table a category gives: its name and its
    supercategory, both subscripted. *)
Definition category_row (cat : CocoCategory) : result (string * string) :=
  name ← subscript "name" (c_name cat);
  parent ← subscript "supercategory" (c_supercategory cat);
  Ok (name, parent).

(** The id-to-index map after the categories [cats], numbered from [i]. *)
Definition ids_map (i : nat) (cats : list CocoCategory) (m : gmap Z nat)
  : gmap Z nat :=
  foldl (fun m ic => <[c_id (snd ic) := fst ic]> m) m (enumerate_from i cats).

Module Dogs.

(** A document with the categories 3 ("cat") and 9 ("dog"). *)
Definition cats : list CocoCategory :=
  [mkCocoCategory 3 (Some "cat") (Some "animal") None None;
   mkCocoCategory 9 (Some "dog") (Some "animal") None None].

Definition loader : COCO := loader_of (mkCocoDataset cats [] []).

(** The same with the second category lacking its supercategory. *)
Definition bare_loader : COCO :=
  loader_of (mkCocoDataset
    [mkCocoCategory 3 (Some "cat") (Some "animal") None None;
     mkCocoCategory 9 (Some "dog") None None None] [] []).

Definition self : CocoExtractor :=
  mkCocoExtractor "/data/" CocoTask.instances []
    (mkCategories (Some (mkLabelCategories [("cat", "animal"); ("dog", "animal")]))
       None)
    (Some (ids_map 0 cats ∅)) false.

End Dogs.

(** [Subset.__len__] *)
Definition Subset_len (subset : Subset) : nat := length (sub_items subset).

(** [CocoExtractor.__len__] *)
Definition CocoExtractor_len (self : CocoExtractor) : nat :=
  foldl (fun length_ subset => (length_ + Subset_len subset)%nat) 0%nat
        (PyDict.values (_subsets self)).

(** [CocoExtractor.subsets] *)
Definition CocoExtractor_subsets (self : CocoExtractor) : list string :=
  PyDict.keys (_subsets self).

(** [CocoExtractor.get_subset] *)
Definition CocoExtractor_get_subset (self : CocoExtractor) (name : string)
  : result Subset :=
  match PyDict.get (_subsets self) name with
  | Some s => Ok s
  | None => Raise (KeyError (StrKey name))
  end.

(** What a consumer gets from a lazy iteration: the items delivered
    before the first fetch that raises; the generator ends there. *)
Fixpoint yielded {A} (l : list (result A)) : list A :=
  match l with
  | Ok a :: l' => a :: yielded l'
  | _ => []
  end.

(** Whether a task's file defines the label categories. *)
Definition defines_labels (task : CocoTask.t) : bool :=
  match task with
  | CocoTask.labels | CocoTask.instances | CocoTask.person_keypoints => true
  | CocoTask.captions | CocoTask.image_info => false
  end.

Module Captions.

(** A captions file with two images, the first listed twice, and one
    caption. *)
Definition dataset : CocoDataset :=
  mkCocoDataset []
    [mkCocoImage 7 (Some "a.jpg") (Some 50) (Some 100);
     mkCocoImage 8 (Some "b.jpg") (Some 50) (Some 100);
     mkCocoImage 7 (Some "a.jpg") (Some 50) (Some 100)]
    [mkCocoAnn (Some 1) 7 None None None None None (Some "a dog") None].

Definition path : string := "/data/annotations/captions_val.json".

Definition json_files (p : string) : option CocoDataset :=
  if String.eqb p path then Some dataset else None.

End Captions.

(** The keys of a dictionary filled in the order of [l]: every element
    once, at the place of its first occurrence. *)
Definition first_occurrences {K} `{EqDecision K} (l : list K) : list K :=
  foldl (fun seen k => if decide (k ∈ seen) then seen else seen ++ [k]) [] l.

Section YoloNames.

Variable SUBSET_NAMES : list string.
Variable DEFAULT_SUBSET_NAME : string.

(** The name under which [YoloConverter.__call__] exports a subset, if it
    does: an accepted name, or the default name for a falsy one. *)
Definition yolo_exported_as (subset_name : option string) : option string :=
  if truthy subset_name && bool_decide (default "" subset_name ∈ SUBSET_NAMES)
  then Some (default "" subset_name)
  else if negb (truthy subset_name) then Some DEFAULT_SUBSET_NAME
  else None.

(** The subsets it skips. *)
Definition yolo_skipped (subset_name : option string) : option string :=
  match yolo_exported_as subset_name with
  | Some _ => None
  | None => subset_name
  end.

End YoloNames.

(** The text of [obj.data] for a class count and the exported subsets. *)
Definition obj_data_text (classes : nat) (subset_names : list string) : string :=
  "classes = " +:+ str_of_nat classes +:+ nl
  +:+ PyStr.concat
        ((fun n => n +:+ " = " +:+ PyStr.path_join "data" (n +:+ ".txt") +:+ nl)
           <$> subset_names)
  +:+ "names = " +:+ PyStr.path_join "data" "obj.names" +:+ nl
  +:+ "backup = backup/" +:+ nl.

(** The text of a subset's list file for the ids of its items. *)
Definition image_list_text (subset_name : string) (ids : list dictkey) : string :=
  PyStr.concat
    ((fun id => PyStr.path_join3 "data" ("obj_" +:+ subset_name +:+ "_data")
                  (str_of_key id +:+ ".jpg") +:+ nl) <$> ids).

(** An image-info file: two images and an annotation on the first. *)
Module Infos.

Definition dataset : CocoDataset :=
  mkCocoDataset []
    [mkCocoImage 7 (Some "a.jpg") (Some 50) (Some 100);
     mkCocoImage 8 (Some "") (Some 50) (Some 100)]
    [mkCocoAnn (Some 1) 7 None None None None None None None].

Definition path : string := "/data/annotations/image_info_val.json".

Definition json_files (p : string) : option CocoDataset :=
  if String.eqb p path then Some dataset else None.

(** One image file, below the subset's directory. *)
Definition image_files (p : string) : option Image :=
  if String.eqb p "/data/images/val/a.jpg" then Some (mkImage [50; 100; 3])
  else None.

End Infos.

(** What a category adds to the points categories: its keypoint names and
    its skeleton. *)
Definition keypoint_row (cat : CocoCategory)
  : result (list string * list (list Z)) :=
  labels ← subscript "keypoints" (c_keypoints cat);
  adjacent ← subscript "skeleton" (c_skeleton cat);
  Ok (labels, adjacent).

(** A keypoints document with the categories "person" and "hand". *)
Module People.

Definition cats : list CocoCategory :=
  [mkCocoCategory 1 (Some "person") (Some "")
     (Some ["nose"; "left_eye"; "right_eye"]) (Some [[1; 2]; [1; 3]]);
   mkCocoCategory 4 (Some "hand") (Some "person")
     (Some ["thumb"; "index"]) (Some [[1; 2]])].

Definition loader : COCO := loader_of (mkCocoDataset cats [] []).

Definition labels : LabelCategories :=
  mkLabelCategories [("person", ""); ("hand", "person")].

End People.

(** * Properties *)

(** ** Numbers and strings on concrete inputs *)

Example format_f6_fifth :
  (q ← truediv (PyInt 1) (PyInt 5); format_f6 q) = Ok "0.200000".
Proof. vm_compute. reflexivity. Qed.

Example format_f6_rounds :
  (q ← truediv (PyInt (-2)) (PyInt 3); format_f6 q) = Ok "-0.666667".
Proof. vm_compute. reflexivity. Qed.

Example truediv_by_zero :
  truediv (PyFloat 3%float) (PyInt 0) = Raise ZeroDivisionError.
Proof. vm_compute. reflexivity. Qed.

Example rsplit_last_underscore :
  PyStr.rsplit "_" "person_keypoints_val" = ["person_keypoints"; "val"].
Proof. reflexivity. Qed.

Example splitext_json :
  PyStr.splitext "labels_train.json" = ("labels_train", ".json").
Proof. reflexivity. Qed.

Example splitext_dotfile : PyStr.splitext "/a/.json" = ("/a/.json", "").
Proof. reflexivity. Qed.

(** ** Helper lemmas *)

Lemma rle_counts_eqb_eq a b : rle_counts_eqb a b = true <-> a = b.
Proof.
  destruct a, b; simpl; try (split; [discriminate | congruence]).
  - rewrite bool_decide_eq_true. split; congruence.
  - rewrite String.eqb_eq. split; congruence.
  - rewrite String.eqb_eq. split; congruence.
Qed.

Lemma Rle_eqb_eq r1 r2 : Rle_eqb r1 r2 = true <-> r1 = r2.
Proof.
  destruct r1 as [s1 c1], r2 as [s2 c2]. unfold Rle_eqb. simpl.
  rewrite andb_true_iff, bool_decide_eq_true, rle_counts_eqb_eq.
  split; [intros [-> ->]; reflexivity | intros [= -> ->]; done].
Qed.

(** ** RleMask equality *)

(** C1.  Two masks built from run-length encodings [r1] and [r2] are equal
    exactly when [r1] and [r2] are the same encoding, whatever their other
    fields are and whatever [MaskObject.__eq__] does; in particular two
    different encodings that decode to the same pixel array (for any
    decoder) give unequal masks. *)
Theorem C1_RleMask_eq_iff_same_rle
    (super_eq : Annotation -> Annotation -> bool)
    (decode : Rle -> list (list bool)) (r1 r2 : Rle) (c1 c2 : Common) :
  (RleMask_eq super_eq (RleMask r1 c1) (RleMask r2 c2) = true <-> r1 = r2)
  /\ (decode r1 = decode r2 -> r1 <> r2 ->
      RleMask_eq super_eq (RleMask r1 c1) (RleMask r2 c2) = false).
Proof.
  simpl. split.
  - apply Rle_eqb_eq.
  - intros _ Hne. apply not_true_is_false. rewrite Rle_eqb_eq. exact Hne.
Qed.

(** Two encodings of the same five background pixels, one run or three:
    the masks differ although a decoder that expands runs agrees on them. *)
Example RleMask_eq_same_pixels_different_runs :
  let r1 := mkRle [5; 1] (CountsList [5]) in
  let r2 := mkRle [5; 1] (CountsList [2; 0; 3]) in
  let c := mkCommon None None ∅ None in
  RleMask_eq (fun _ _ => true) (RleMask r1 c) (RleMask r2 c) = false
  /\ RleMask_eq (fun _ _ => false) (RleMask r1 c) (RleMask r1 c) = true.
Proof. split; reflexivity. Qed.

(** ** The source of the label categories *)

Lemma label_loader_of_first_present loaders :
  label_loader_of loaders
  = first_present
      [CocoTask.labels; CocoTask.instances; CocoTask.person_keypoints] loaders.
Proof.
  unfold label_loader_of, first_present. simpl.
  destruct (PyDict.get loaders CocoTask.labels),
    (PyDict.get loaders CocoTask.instances),
    (PyDict.get loaders CocoTask.person_keypoints); reflexivity.
Qed.

(** With both an instances file and a labels file, the label table is the
    one of the labels file, not of the instances file. *)
Lemma C2_labels_loader_wins_over_instances :
  ~ (forall loaders li ll,
       PyDict.get loaders CocoTask.instances = Some li ->
       PyDict.get loaders CocoTask.labels = Some ll ->
       label_table (_load_categories_from loaders) = table_of li).
Proof.
  intros H.
  specialize (H TwoTasks.both TwoTasks.instances_loader TwoTasks.labels_loader
                eq_refl eq_refl).
  vm_compute in H. discriminate H.
Qed.

(** C2 (as the code has it).  The label categories are built from the first
    present loader in the order explicit labels, then instances, then
    person_keypoints: [label_loader] is that loader, the table and the
    id-to-index map the extractor keeps are the ones that loader's
    categories give, and a failure to read them is the failure of
    [_load_categories]. *)
Theorem C2_label_categories_from_labels_then_instances_then_keypoints
    (loaders : PyDict.dict CocoTask.t COCO) :
  label_loader_of loaders
  = first_present
      [CocoTask.labels; CocoTask.instances; CocoTask.person_keypoints] loaders
  /\ (forall l,
        first_present
          [CocoTask.labels; CocoTask.instances; CocoTask.person_keypoints]
          loaders = Some l ->
        (PyDict.get loaders CocoTask.person_keypoints = None ->
         label_table (_load_categories_from loaders) = table_of l)
        /\ (forall cats lm,
              _load_categories_from loaders = Ok (cats, lm) ->
              table_of l = Ok (cat_label cats, lm))
        /\ (forall e,
              table_of l = Raise e ->
              _load_categories_from loaders = Raise e)).
Proof.
  split; [apply label_loader_of_first_present|].
  intros l Hl. rewrite <- label_loader_of_first_present in Hl.
  unfold _load_categories_from, table_of, label_table. rewrite Hl.
  destruct (_load_label_categories l) as [[lc lm]|e]; simpl.
  - repeat split.
    + intros ->. reflexivity.
    + intros cats lm'.
      destruct (PyDict.get loaders CocoTask.person_keypoints) as [kp|]; simpl.
      * destruct (_load_person_kp_categories lc kp); simpl; [|discriminate].
        intros [= <- <-]. reflexivity.
      * intros [= <- <-]. reflexivity.
    + discriminate.
  - repeat split; try discriminate.
    intros e' [= ->]. reflexivity.
Qed.

(** The theorem at the two-task subset: the table is the labels file's. *)
Lemma C2_two_tasks_witness :
  label_table (_load_categories_from TwoTasks.both)
  = table_of TwoTasks.labels_loader.
Proof.
  apply (C2_label_categories_from_labels_then_instances_then_keypoints
           TwoTasks.both); reflexivity.
Defined.

(** ** Category ids *)

(** C4.  A record whose category id is absent or [0] gets no label; any
    other category id is looked up in the id-to-index map built when the
    categories were loaded, and an id that is not in the map raises
    ([KeyError], the specification's CategoryMismatchError) instead of
    yielding a default; the error leaves [_parse_annotation] as it is. *)
Theorem C4_parse_label (self : CocoExtractor) (ann : CocoAnn) :
  (j_category_id ann = None \/ j_category_id ann = Some 0 ->
   _parse_label self ann = Ok None)
  /\ (forall cat_id label_map,
        j_category_id ann = Some cat_id -> cat_id <> 0 ->
        _label_map self = Some label_map ->
        (forall idx, label_map !! cat_id = Some idx ->
                     _parse_label self ann = Ok (Some idx))
        /\ (label_map !! cat_id = None ->
            _parse_label self ann = Raise (KeyError (IntKey cat_id))
            /\ forall mask_utils image_info,
                 _parse_annotation mask_utils self ann CocoTask.labels image_info
                 = Raise (KeyError (IntKey cat_id)))).
Proof.
  unfold _parse_annotation, _parse_label. split.
  - intros [-> | ->]; reflexivity.
  - intros cat_id label_map -> Hne ->.
    apply Z.eqb_neq in Hne. rewrite Hne. split.
    + intros idx ->. reflexivity.
    + intros ->. split; reflexivity.
Qed.

(** The theorem on the categories 1 and 2: absent and [0] give no label,
    [2] gives index 1, [3] raises. *)
Lemma C4_parse_label_witness :
  _parse_label Labelled.self (Labelled.record None) = Ok None
  /\ _parse_label Labelled.self (Labelled.record (Some 0)) = Ok None
  /\ _parse_label Labelled.self (Labelled.record (Some 2)) = Ok (Some 1%nat)
  /\ _parse_label Labelled.self (Labelled.record (Some 3))
     = Raise (KeyError (IntKey 3)).
Proof.
  split; [|split; [|split]].
  - apply (C4_parse_label Labelled.self (Labelled.record None)). left. reflexivity.
  - apply (C4_parse_label Labelled.self (Labelled.record (Some 0))). right.
    reflexivity.
  - eapply (C4_parse_label Labelled.self (Labelled.record (Some 2)));
      [reflexivity | lia | reflexivity | reflexivity].
  - eapply (C4_parse_label Labelled.self (Labelled.record (Some 3)));
      [reflexivity | lia | reflexivity | reflexivity].
Defined.

(** ** Instances records *)

(** C5.  An instances record with a box, an [iscrowd] flag and a category
    that resolves is decoded as follows.  A list of polygons gives one
    polygon per part, all with the record's id as group, followed by one
    merged mask exactly when polygons are to be merged, and it is the
    merge of the parts' encodings; an uncompressed RLE gives exactly one
    mask, of its compressed form; a compressed RLE gives exactly one mask,
    of that RLE; and the box of the record comes last in every case. *)
Theorem C5_instances_annotations (mask_utils : MaskUtils)
    (self : CocoExtractor) (ann : CocoAnn) (image_info : CocoImage)
    (x y w h : pynum) (iscrowd : Z) (label_id : option nat) (box : Annotation)
    (Hbbox : j_bbox ann = Some [x; y; w; h])
    (Hcrowd : j_iscrowd ann = Some iscrowd)
    (Hlabel : _parse_label self ann = Ok label_id)
    (Hbox : BboxObject x y w h
              (mkCommon label_id (j_id ann) (instances_attributes ann iscrowd)
                        (j_id ann)) = Ok box) :
  let c := mkCommon label_id (j_id ann) (instances_attributes ann iscrowd)
                    (j_id ann) in
  let parsed :=
    _parse_annotation mask_utils self ann CocoTask.instances image_info in
  (forall parts,
     j_segmentation ann = Some (SegPolygons parts) ->
     (_merge_instance_polygons self = false ->
      parsed = Ok (((fun p => Polygon p c) <$> parts) ++ [box]))
     /\ (forall img_h img_w rles rle,
           _merge_instance_polygons self = true ->
           i_height image_info = Some img_h ->
           i_width image_info = Some img_w ->
           frPyObjects_polygons mask_utils parts img_h img_w = Ok rles ->
           merge mask_utils rles = Ok rle ->
           parsed = Ok (((fun p => Polygon p c) <$> parts)
                          ++ [RleMask rle c; box])))
  /\ (forall r,
        j_segmentation ann = Some (SegRle r) ->
        (forall runs img_h img_w rle,
           rle_counts_of r = CountsList runs ->
           rle_size r = [img_h; img_w] ->
           frPyObjects_rle mask_utils r img_h img_w = Ok rle ->
           parsed = Ok [RleMask rle c; box])
        /\ ((forall runs, rle_counts_of r <> CountsList runs) ->
            parsed = Ok [RleMask r c; box])).
Proof.
  intros c parsed. subst parsed. unfold _parse_annotation.
  rewrite Hbbox, Hlabel, Hcrowd. simpl.
  fold (score_attributes ann). fold (instances_attributes ann iscrowd).
  split.
  - intros parts ->. simpl. fold c. split.
    + intros ->. simpl. fold c in Hbox. rewrite Hbox. reflexivity.
    + intros img_h img_w rles rle -> -> -> Hfr Hmerge. simpl.
      rewrite Hfr. simpl. rewrite Hmerge. simpl.
      fold c in Hbox. rewrite Hbox. simpl.
      rewrite <- app_assoc. reflexivity.
  - intros r ->. simpl. fold c. fold c in Hbox. split.
    + intros runs img_h img_w rle -> -> Hfr. simpl.
      rewrite Hfr. simpl. rewrite Hbox. reflexivity.
    + intros Hcompressed.
      destruct (rle_counts_of r) as [runs| |] eqn:Hc;
        [exfalso; exact (Hcompressed runs eq_refl)| |];
        simpl; rewrite Hbox; reflexivity.
Qed.

(** The theorem on a record with two polygon parts, merged. *)
Lemma C5_instances_witness :
  _parse_annotation Instance.mask_utils (Instance.self true)
    (Instance.record (Some (SegPolygons [Instance.triangle; Instance.square])))
    CocoTask.instances Instance.info
  = Ok [Polygon Instance.triangle Instance.fields;
        Polygon Instance.square Instance.fields;
        RleMask (mkRle [50; 100] (CountsBytes "merged")) Instance.fields;
        Instance.box].
Proof.
  pose proof (C5_instances_annotations Instance.mask_utils (Instance.self true)
                (Instance.record
                   (Some (SegPolygons [Instance.triangle; Instance.square])))
                Instance.info (PyInt 10) (PyInt 10) (PyInt 20) (PyInt 20) 0
                (Some 1%nat) Instance.box eq_refl eq_refl eq_refl eq_refl)
    as [Hpolygons _].
  destruct (Hpolygons [Instance.triangle; Instance.square] eq_refl) as [_ Hmerged].
  exact (Hmerged 50 100 _ _ eq_refl eq_refl eq_refl eq_refl eq_refl).
Defined.

(** ** Keypoints records *)

Lemma enumerate_from_flat_keypoints kps k :
  (List.filter (fun ip => negb (Nat.eqb (fst ip mod 3) 2))
     (enumerate_from (3 * k) (flat_keypoints kps))).*2
  = flat_coordinates kps.
Proof.
  revert k. induction kps as [|[[x y] v] kps IH]; intros k; [reflexivity|].
  cbn [flat_keypoints flat_coordinates enumerate_from List.filter fst].
  assert (H0 : ((3 * k) mod 3 = 0)%nat)
    by (rewrite Nat.mul_comm; apply Nat.Div0.mod_mul).
  assert (H1 : (S (3 * k) mod 3 = 1)%nat).
  { replace (S (3 * k)) with (1 + k * 3)%nat by lia.
    rewrite Nat.Div0.mod_add. reflexivity. }
  assert (H2 : (S (S (3 * k)) mod 3 = 2)%nat).
  { replace (S (S (3 * k))) with (2 + k * 3)%nat by lia.
    rewrite Nat.Div0.mod_add. reflexivity. }
  rewrite H0, H1, H2. cbn [Nat.eqb negb fmap list_fmap snd].
  replace (S (S (S (3 * k)))) with (3 * S k)%nat by lia.
  rewrite <- (IH (S k)). reflexivity.
Qed.

Lemma keypoint_coordinates_flat kps :
  keypoint_coordinates (flat_keypoints kps) = flat_coordinates kps.
Proof. apply (enumerate_from_flat_keypoints kps 0). Qed.

Lemma slice_visibility_flat kps :
  slice_from_step 2 3 (flat_keypoints kps) = kps.*2.
Proof.
  unfold slice_from_step.
  induction kps as [|[[x y] v] kps IH]; [reflexivity|].
  simpl. f_equal. exact IH.
Qed.

Lemma BboxObject_fields x y w h c box :
  BboxObject x y w h c = Ok box ->
  common box = c /\ type_of box = AnnotationType.bbox.
Proof.
  unfold BboxObject.
  destruct (add x w); simpl; [|discriminate].
  destruct (add y h); simpl; [|discriminate].
  intros [= <-]. split; reflexivity.
Qed.

(** C6.  A person_keypoints record whose keypoints are the flat array
    [(x1, y1, v1, ..., xn, yn, vn)] and whose category resolves gives a
    points annotation whose geometry is the array without every third
    element and whose visibility is the [n] third elements, in order;
    when the record has a box, a box annotation follows, and both carry
    the record's id as group. *)
Theorem C6_person_keypoints (mask_utils : MaskUtils) (self : CocoExtractor)
    (ann : CocoAnn) (image_info : CocoImage)
    (kps : list (pynum * pynum * pynum)) (label_id : option nat)
    (Hkeypoints : j_keypoints ann = Some (flat_keypoints kps))
    (Hlabel : _parse_label self ann = Ok label_id) :
  let parsed :=
    _parse_annotation mask_utils self ann CocoTask.person_keypoints image_info in
  let pts group :=
    Points (flat_coordinates kps) (kps.*2)
      (mkCommon label_id (j_id ann) (score_attributes ann) group) in
  length (kps.*2) = length kps
  /\ (j_bbox ann = None -> parsed = Ok [pts None])
  /\ (forall x y w h box,
        j_bbox ann = Some [x; y; w; h] ->
        BboxObject x y w h (mkCommon label_id None ∅ (j_id ann)) = Ok box ->
        parsed = Ok [pts (j_id ann); box]
        /\ type_of box = AnnotationType.bbox
        /\ group (common box) = group (common (pts (j_id ann)))
        /\ group (common box) = j_id ann).
Proof.
  intros parsed pts. subst parsed pts. unfold _parse_annotation.
  rewrite Hkeypoints, Hlabel. simpl.
  rewrite keypoint_coordinates_flat, slice_visibility_flat.
  fold (score_attributes ann).
  split; [apply length_fmap|]. split.
  - intros ->. reflexivity.
  - intros x y w h box -> Hbox. simpl. rewrite Hbox. simpl.
    destruct (BboxObject_fields _ _ _ _ _ _ Hbox) as [-> ->].
    split; [reflexivity|]. split; [reflexivity|]. split; reflexivity.
Qed.

(** The theorem on a record with two keypoints and a box. *)
Lemma C6_person_keypoints_witness :
  _parse_annotation Instance.mask_utils (Instance.self false) Instance.person
    CocoTask.person_keypoints Instance.info
  = Ok [Points [PyInt 10; PyInt 11; PyInt 20; PyInt 21] [PyInt 2; PyInt 1]
          (mkCommon (Some 0%nat) (Some 12) ∅ (Some 12));
        Bbox [PyInt 1; PyInt 2; PyInt 4; PyInt 6]
          (mkCommon (Some 0%nat) None ∅ (Some 12))].
Proof.
  pose proof (C6_person_keypoints Instance.mask_utils (Instance.self false)
                Instance.person Instance.info
                [(PyInt 10, PyInt 11, PyInt 2); (PyInt 20, PyInt 21, PyInt 1)]
                (Some 0%nat) eq_refl eq_refl) as (_ & _ & Hbox).
  exact (proj1 (Hbox (PyInt 1) (PyInt 2) (PyInt 3) (PyInt 4) _ eq_refl eq_refl)).
Defined.

(** ** The line-format scenario *)

(** C3.  For the categories 1 ("cat") and 2 ("dog"), one image of width
    100 and height 50 and one instance annotation with box [10,10,20,20]
    and category 2, read by the extractor from
    [annotations/instances_train.json] and converted with "train" among
    the accepted subset names, the annotation file of the item holds
    exactly the line "1 0.200000 0.400000 0.200000 0.400000"; the label
    index 1 is the position of "dog" in the names file. *)
Theorem C3_yolo_scenario_line (sup1 sup2 : string) (iscrowd : Z)
    (mask_utils : MaskUtils) (other_names : list string)
    (default_name : string) :
  exists self,
    CocoExtractor_init (Scenario.json_files sup1 sup2 iscrowd) Scenario.path
      CocoTask.instances false = Ok self
    /\ let out :=
         YoloConverter_call ("train" :: other_names) default_name
           (mkYoloConverter None false false)
           (as_extractor mask_utils Scenario.image_files self)
           "out" empty_world in
       out.2 = Ok tt
       /\ files out.1 !! "out/obj_train_data/7.txt"
          = Some (TextFile (Scenario.line +:+ nl))
       /\ files out.1 !! "out/obj.names"
          = Some (TextFile ("cat" +:+ nl +:+ "dog" +:+ nl)).
Proof.
  eexists. split; [vm_compute; reflexivity|].
  vm_compute. repeat split.
Qed.

(** ** Items without an image in the record format *)

Lemma truediv_by_int_zero p : truediv p (PyInt 0) = Raise ZeroDivisionError.
Proof. destruct p as [z|f]; reflexivity. Qed.

Lemma filter_bbox_head (anns : list Annotation) box rest :
  List.filter (fun ann => bool_decide (type_of ann = AnnotationType.bbox)) anns
  = box :: rest ->
  exists pts c, box = Bbox pts c.
Proof.
  intros H.
  assert (Hin : List.In box (box :: rest)) by (left; reflexivity).
  rewrite <- H in Hin. apply List.filter_In in Hin as [_ Ht].
  apply bool_decide_eq_true in Ht.
  destruct box; try discriminate Ht. eauto.
Qed.

Lemma tf_boxes_zero_width get_label get_label_id height pts c rest :
  (exists e, tf_boxes get_label get_label_id 0 height (Bbox pts c :: rest)
             = Raise e)
  /\ (forall name p0 pts',
        get_label (label c) = Ok name -> pts = p0 :: pts' ->
        tf_boxes get_label get_label_id 0 height (Bbox pts c :: rest)
        = Raise ZeroDivisionError).
Proof.
  unfold tf_boxes. simpl. split.
  - destruct (get_label (label c)); simpl; [|eauto].
    unfold index. destruct pts as [|p0 pts]; simpl; [eauto|].
    rewrite truediv_by_int_zero. simpl. eauto.
  - intros name p0 pts' -> ->. simpl.
    rewrite truediv_by_int_zero. reflexivity.
Qed.

Section NoImage.

Variable IMAGE_EXT IMAGE_FORMAT : string.
Variable encode_image : Image -> string.

(** C10.  For an item without an image the recorded height and width are
    0: an item without boxes gets a record with both set to 0.  An item
    with at least one box gets no record at all: normalising the first
    box divides by the width 0, so the conversion raises, and the error is
    [ZeroDivisionError] whenever the box has its label resolved and a first
    coordinate to divide. *)
Theorem C10_no_image_divides_by_zero (item : DatasetItem)
    (get_label_id : option nat -> result Z)
    (get_label : option nat -> result string) (save_images : bool)
    (Himage : image item = None) :
  let boxes :=
    List.filter (fun ann => bool_decide (type_of ann = AnnotationType.bbox))
                (annotations item) in
  let example :=
    _make_tf_example IMAGE_EXT IMAGE_FORMAT encode_image item
      get_label_id get_label save_images in
  has_image item = false
  /\ tf_image_size item = Ok (0, 0)
  /\ (boxes = [] ->
      exists features,
        example = Ok features
        /\ features !! "image/height" = Some (Int64List [0])
        /\ features !! "image/width" = Some (Int64List [0]))
  /\ (boxes <> [] -> is_ok example = false)
  /\ (forall box rest name p0 pts,
        boxes = box :: rest ->
        get_label (label (common box)) = Ok name ->
        points_of box = Ok (p0 :: pts) ->
        example = Raise ZeroDivisionError).
Proof.
  intros boxes example. subst example.
  assert (Hhas : has_image item = false) by (unfold has_image; rewrite Himage; done).
  assert (Hsize : tf_image_size item = Ok (0, 0))
    by (unfold tf_image_size; rewrite Hhas; done).
  split; [exact Hhas|]. split; [exact Hsize|].
  unfold _make_tf_example. rewrite Hsize, Himage. simpl. fold boxes.
  split; [|split].
  - intros ->. simpl. eexists. split; [reflexivity|].
    split; vm_compute; reflexivity.
  - destruct boxes as [|box rest] eqn:Hboxes; [done|]. intros _.
    destruct (filter_bbox_head _ _ _ Hboxes) as (pts & c & ->).
    destruct (tf_boxes_zero_width get_label get_label_id 0 pts c rest)
      as [[e ->] _].
    reflexivity.
  - intros box rest name p0 pts Hboxes Hname Hpts.
    destruct (filter_bbox_head _ _ _ Hboxes) as (pts' & c & ->).
    injection Hpts as ->.
    rewrite Hboxes.
    rewrite (proj2 (tf_boxes_zero_width get_label get_label_id 0 _ c rest)
               name p0 pts Hname eq_refl).
    reflexivity.
Qed.

End NoImage.

(** The theorem on an item with one box and no image. *)
Lemma C10_no_image_witness :
  _make_tf_example ".jpg" "jpeg" (fun _ => "") NoImageItem.item
    (tf_map_label_id NoImageItem.label_categories
       (label_ids_of 1 NoImageItem.label_categories))
    (tf_get_label NoImageItem.label_categories) true
  = Raise ZeroDivisionError.
Proof.
  pose proof (C10_no_image_divides_by_zero ".jpg" "jpeg" (fun _ => "")
                NoImageItem.item
                (tf_map_label_id NoImageItem.label_categories
                   (label_ids_of 1 NoImageItem.label_categories))
                (tf_get_label NoImageItem.label_categories) true eq_refl)
    as (_ & _ & _ & _ & Hdiv).
  exact (Hdiv _ _ _ _ _ eq_refl eq_refl eq_refl).
Defined.

(** ** Strings *)

Lemma app_cons c a b : String c a +:+ b = String c (a +:+ b).
Proof. reflexivity. Qed.

Lemma app_assoc_str a b c : (a +:+ b) +:+ c = a +:+ (b +:+ c).
Proof.
  induction a as [|d a IH]; [reflexivity|].
  rewrite !app_cons. f_equal. exact IH.
Qed.

Lemma length_app_str a b :
  String.length (a +:+ b) = (String.length a + String.length b)%nat.
Proof.
  induction a as [|d a IH]; [reflexivity|].
  rewrite app_cons. simpl. f_equal. exact IH.
Qed.

Lemma drop_app_str a b n :
  PyStr.drop (String.length a + n) (a +:+ b) = PyStr.drop n b.
Proof.
  induction a as [|d a IH]; [reflexivity|].
  rewrite app_cons. simpl. exact IH.
Qed.

Lemma endswith_app a b suf :
  PyStr.endswith b suf = true -> PyStr.endswith (a +:+ b) suf = true.
Proof.
  unfold PyStr.endswith. intros [Hlen Heq]%andb_true_iff.
  apply Nat.leb_le in Hlen. rewrite length_app_str.
  apply andb_true_iff. split; [apply Nat.leb_le; lia|].
  replace (String.length a + String.length b - String.length suf)%nat
    with (String.length a + (String.length b - String.length suf))%nat by lia.
  rewrite drop_app_str. exact Heq.
Qed.

Lemma contains_char_app c a b :
  PyStr.contains_char c (a +:+ b)
  = PyStr.contains_char c a || PyStr.contains_char c b.
Proof.
  induction a as [|d a IH]; [reflexivity|].
  rewrite app_cons. simpl. rewrite IH. apply orb_assoc.
Qed.

Lemma prefix_char c d s :
  String.prefix (String c "") (String d s) = PyStr.is_char c d.
Proof.
  unfold PyStr.is_char. simpl.
  destruct (ascii_dec c d) as [->|Hne].
  - rewrite Ascii.eqb_refl. destruct s; reflexivity.
  - symmetry. apply Ascii.eqb_neq. exact Hne.
Qed.

Lemma rsplit1_absent c s :
  PyStr.contains_char c s = false -> PyStr.rsplit1 (String c "") s = None.
Proof.
  induction s as [|d s IH]; [reflexivity|].
  cbn [PyStr.contains_char PyStr.rsplit1].
  intros [Hd Hs]%orb_false_iff. rewrite (IH Hs), prefix_char, Hd. reflexivity.
Qed.

Lemma rsplit1_last c a b :
  PyStr.contains_char c b = false ->
  PyStr.rsplit1 (String c "") (a +:+ String c b) = Some (a, b).
Proof.
  intros Hb. induction a as [|d a IH].
  - change ("" +:+ String c b) with (String c b).
    cbn [PyStr.rsplit1]. rewrite (rsplit1_absent c b Hb), prefix_char.
    unfold PyStr.is_char. rewrite Ascii.eqb_refl. reflexivity.
  - rewrite app_cons. cbn [PyStr.rsplit1]. rewrite IH. reflexivity.
Qed.

(** ** Discovery of annotation files *)

Lemma foldM_app {A S} (f : S -> A -> result S) s l1 l2 :
  foldM f s (l1 ++ l2) = (s' ← foldM f s l1; foldM f s' l2).
Proof.
  revert s. induction l1 as [|a l1 IH]; intros s; [reflexivity|].
  simpl. destruct (f s a) as [s'|e]; simpl; [apply IH | reflexivity].
Qed.

Lemma of_name_name t : CocoTask.of_name (CocoTask.name t) = Ok t.
Proof. destruct t; reflexivity. Qed.

Lemma of_name_unknown token :
  token ∉ (CocoTask.name <$> CocoTask.members) ->
  CocoTask.of_name token = Raise (KeyError (StrKey token)).
Proof.
  intros Hnot. unfold CocoTask.of_name.
  destruct (List.find _ CocoTask.members) as [e|] eqn:Hfind; [|reflexivity].
  apply List.find_some in Hfind as [_ Heq]. apply String.eqb_eq in Heq.
  exfalso. apply Hnot. rewrite <- Heq.
  apply list_elem_of_fmap_2. destruct e; set_solver.
Qed.

Lemma endswith_path_join a b suf :
  PyStr.endswith b suf = true -> PyStr.endswith (PyStr.path_join a b) suf = true.
Proof.
  intros Hb. unfold PyStr.path_join.
  destruct (String.prefix "/" b); [exact Hb|].
  destruct (String.eqb a "" || PyStr.endswith a "/");
    repeat apply endswith_app; exact Hb.
Qed.

Lemma annotation_file_name_parts task subset :
  PyStr.contains_char "_" subset = false ->
  PyStr.contains_char "/" subset = false ->
  PyStr.endswith (annotation_file_name task subset) ".json" = true
  /\ PyStr.rsplit "_" (PyStr.splitext (annotation_file_name task subset)).1
     = [CocoTask.name task; subset].
Proof.
  intros Hus Hsl. unfold annotation_file_name. split.
  - repeat apply endswith_app. reflexivity.
  - assert (Hroot : PyStr.splitext
                      (CocoTask.name task +:+ "_" +:+ subset +:+ ".json")
                    = (CocoTask.name task +:+ "_" +:+ subset, ".json")).
    { unfold PyStr.splitext.
      rewrite (rsplit1_absent "/").
      2:{ rewrite !contains_char_app, Hsl. destruct task; reflexivity. }
      replace (CocoTask.name task +:+ "_" +:+ subset +:+ ".json")
        with ((CocoTask.name task +:+ "_" +:+ subset) +:+ String "." "json")
        by (rewrite !app_assoc_str; reflexivity).
      rewrite (rsplit1_last "." _ "json" eq_refl).
      replace (PyStr.all_chars "." (CocoTask.name task +:+ "_" +:+ subset))
        with false by (destruct task; reflexivity).
      reflexivity. }
    rewrite Hroot. unfold PyStr.rsplit. cbn [fst].
    change ("_" +:+ subset) with (String "_" subset).
    rewrite (rsplit1_last "_" _ subset Hus). reflexivity.
Qed.

(** C9.  In an existing annotations directory: a [.json] file whose task
    prefix (what precedes the last underscore of its name without the
    extension) is not the name of a task makes the importer raise, once
    the files listed before it are processed, an exception whose message
    holds the prefix and lists instances, person_keypoints, captions,
    labels, image_info; a file named [<task>_<subset>.json] for a task of
    the vocabulary is recorded under that subset and task, so
    [labels_train.json] gives subset "train" and task labels. *)
Theorem C9_find_subsets (isdir : string -> bool)
    (listdir : string -> list string) (dataset_dir : string)
    (Hdir : isdir (PyStr.path_join dataset_dir CocoPath.ANNOTATIONS_DIR) = true) :
  let ann_dir := PyStr.path_join dataset_dir CocoPath.ANNOTATIONS_DIR in
  (forall pre f post acc token rest,
     listdir ann_dir = pre ++ f :: post ->
     foldM (CocoImporter.find_subsets_step ann_dir) [] pre = Ok acc ->
     PyStr.endswith (PyStr.path_join ann_dir f) ".json" = true ->
     PyStr.rsplit "_" (PyStr.splitext f).1 = token :: rest ->
     token ∉ (CocoTask.name <$> CocoTask.members) ->
     CocoImporter.find_subsets isdir listdir dataset_dir
     = Raise (Exception (CocoImporter.unknown_task_message token))
     /\ CocoImporter.unknown_task_message token
        = "Unknown subset type " +:+ token
          +:+ ", only known are: instances, person_keypoints, captions, labels, image_info")
  /\ (forall task subset acc,
        PyStr.contains_char "_" subset = false ->
        PyStr.contains_char "/" subset = false ->
        CocoImporter.find_subsets_step ann_dir acc
          (annotation_file_name task subset)
        = Ok (PyDict.set acc subset
                (PyDict.set (default [] (PyDict.get acc subset)) task
                   (PyStr.path_join ann_dir (annotation_file_name task subset)))))
  /\ (forall task subset,
        PyStr.contains_char "_" subset = false ->
        PyStr.contains_char "/" subset = false ->
        listdir ann_dir = [annotation_file_name task subset] ->
        CocoImporter.find_subsets isdir listdir dataset_dir
        = Ok [(subset,
               [(task, PyStr.path_join ann_dir
                         (annotation_file_name task subset))])]).
Proof.
  intros ann_dir. subst ann_dir.
  set (ann_dir := PyStr.path_join dataset_dir CocoPath.ANNOTATIONS_DIR) in *.
  assert (Hstep : forall task subset acc,
    PyStr.contains_char "_" subset = false ->
    PyStr.contains_char "/" subset = false ->
    CocoImporter.find_subsets_step ann_dir acc (annotation_file_name task subset)
    = Ok (PyDict.set acc subset
            (PyDict.set (default [] (PyDict.get acc subset)) task
               (PyStr.path_join ann_dir (annotation_file_name task subset))))).
  { intros task subset acc Hus Hsl.
    destruct (annotation_file_name_parts task subset Hus Hsl) as [Hend Hparts].
    unfold CocoImporter.find_subsets_step.
    rewrite (endswith_path_join _ _ _ Hend), Hparts. simpl.
    rewrite of_name_name. reflexivity. }
  split; [|split; [exact Hstep|]].
  - intros pre f post acc token rest Hlist Hpre Hend Hparts Hunknown.
    split; [|reflexivity].
    assert (Hf : CocoImporter.find_subsets_step ann_dir acc f
                 = Raise (Exception (CocoImporter.unknown_task_message token))).
    { unfold CocoImporter.find_subsets_step.
      rewrite Hend, Hparts. simpl.
      rewrite (of_name_unknown token Hunknown). reflexivity. }
    unfold CocoImporter.find_subsets. fold ann_dir. rewrite Hdir, Hlist.
    cbn [negb]. rewrite foldM_app, Hpre.
    change (foldM (CocoImporter.find_subsets_step ann_dir) acc (f :: post)
            = Raise (Exception (CocoImporter.unknown_task_message token))).
    cbn [foldM]. rewrite Hf. reflexivity.
  - intros task subset Hus Hsl Hlist.
    unfold CocoImporter.find_subsets. fold ann_dir. rewrite Hdir, Hlist.
    cbn [negb foldM]. rewrite (Hstep task subset [] Hus Hsl). reflexivity.
Qed.

(** The theorem on the specification's two file names. *)
Lemma C9_find_subsets_witness :
  CocoImporter.find_subsets (fun _ => true) (fun _ => ["foo_train.json"]) "/data"
  = Raise (Exception "Unknown subset type foo, only known are: instances, person_keypoints, captions, labels, image_info")
  /\ CocoImporter.find_subsets (fun _ => true) (fun _ => ["labels_train.json"])
       "/data"
     = Ok [("train", [(CocoTask.labels, "/data/annotations/labels_train.json")])].
Proof.
  split.
  - destruct (C9_find_subsets (fun _ => true) (fun _ => ["foo_train.json"])
                "/data" eq_refl) as [Hunknown _].
    refine (proj1 (Hunknown [] "foo_train.json" [] [] "foo" ["train"]
                     eq_refl eq_refl eq_refl eq_refl _)).
    apply (bool_decide_unpack _). vm_compute. exact I.
  - destruct (C9_find_subsets (fun _ => true) (fun _ => ["labels_train.json"])
                "/data" eq_refl) as (_ & _ & Hone).
    exact (Hone CocoTask.labels "train" eq_refl eq_refl eq_refl).
Defined.

(** ** Writing files *)

Lemma io_fold_app {A S} (f : S -> A -> IO S) l1 l2 s w :
  io_fold f s (l1 ++ l2) w
  = match io_fold f s l1 w with
    | (w1, Ok s1) => io_fold f s1 l2 w1
    | (w1, Raise e) => (w1, Raise e)
    end.
Proof.
  revert s w. induction l1 as [|a l1 IH]; intros s w; [reflexivity|].
  cbn [app io_fold]. unfold mbind, IO_bind.
  destruct (f s a w) as [w' [s'|e]]; [apply IH | reflexivity].
Qed.

Lemma io_fold_cons {A S} (f : S -> A -> IO S) a l s w :
  io_fold f s (a :: l) w
  = match f s a w with
    | (w', Ok s') => io_fold f s' l w'
    | (w', Raise e) => (w', Raise e)
    end.
Proof. reflexivity. Qed.

Lemma io_fold_invariant {A S} (P : World -> Prop) (f : S -> A -> IO S) :
  (forall s a w, P w -> P (f s a w).1) ->
  forall l s w, P w -> P (io_fold f s l w).1.
Proof.
  intros Hf l. induction l as [|a l IH]; intros s w Hw; [exact Hw|].
  cbn [io_fold]. unfold mbind, IO_bind.
  specialize (Hf s a w Hw). destruct (f s a w) as [w' [s'|e]]; simpl in *.
  - apply IH. exact Hf.
  - exact Hf.
Qed.

Lemma is_record_file_insert_record w path l p :
  is_record_file
    (mkWorld (<[path := RecordFile l]> (files w)) (dirs w) (warnings w)) p = true
  <-> p = path \/ is_record_file w p = true.
Proof.
  unfold is_record_file. simpl.
  destruct (decide (p = path)) as [->|Hne].
  - rewrite lookup_insert_eq. tauto.
  - rewrite lookup_insert_ne by congruence. split; [tauto|].
    intros [?|?]; [contradiction|assumption].
Qed.

(** ** Sources without subsets *)

Section NoSubsets.

Variable SUBSET_NAMES : list string.
Variables YOLO_DEFAULT TF_DEFAULT IMAGE_EXT IMAGE_FORMAT LABELMAP_FILE : string.
Variable encode_image : Image -> string.

Local Abbreviation tf_item := (tf_item IMAGE_EXT IMAGE_FORMAT encode_image).
Local Abbreviation tf_write := (tf_write IMAGE_EXT IMAGE_FORMAT encode_image).

Lemma tf_write_records self lc anno next w p :
  is_record_file (tf_write self lc anno next w).1 p = true
  <-> (p = anno /\ is_ok (next ≫= tf_item self lc) = true)
      \/ is_record_file w p = true.
Proof.
  unfold tf_write, mbind, IO_bind, lift.
  destruct next as [item|e]; simpl; [|intuition discriminate].
  destruct (tf_item self lc item) as [ex|e]; simpl; [|intuition discriminate].
  unfold write_record. simpl. rewrite is_record_file_insert_record. tauto.
Qed.

Lemma tf_write_all_records self lc anno items w :
  (forall p, is_record_file w p = true <-> p = anno) ->
  forall p,
    is_record_file (io_for items (tf_write self lc anno) w).1 p = true
    <-> p = anno.
Proof.
  unfold io_for.
  apply (io_fold_invariant
           (fun w => forall p, is_record_file w p = true <-> p = anno)).
  intros [] next w' Hw' p. rewrite tf_write_records, Hw'. tauto.
Qed.

Lemma tf_write_ok self lc anno item ex w :
  tf_item self lc item = Ok ex ->
  tf_write self lc anno (Ok item) w = write_record anno ex w.
Proof.
  intros Hex. unfold tf_write, mbind, IO_bind, lift. rewrite Hex. reflexivity.
Qed.

Lemma tf_write_all_ok self lc anno items :
  forall examples acc w,
    files w !! anno = Some (RecordFile acc) ->
    mapM (tf_item self lc) items = Ok examples ->
    (io_for (Ok <$> items) (tf_write self lc anno) w).2 = Ok tt
    /\ files (io_for (Ok <$> items) (tf_write self lc anno) w).1 !! anno
       = Some (RecordFile (acc ++ examples)).
Proof.
  unfold io_for.
  induction items as [|item items IH]; intros examples acc w Hw Hall.
  - injection Hall as <-. rewrite app_nil_r. split; [reflexivity | exact Hw].
  - cbn [mapM] in Hall.
    destruct (tf_item self lc item) as [ex|e] eqn:Hex; [|discriminate Hall].
    destruct (mapM (tf_item self lc) items) as [exs|e] eqn:Hexs;
      [|discriminate Hall].
    injection Hall as <-.
    cbn [fmap list_fmap]. rewrite io_fold_cons, (tf_write_ok _ _ _ _ _ _ Hex).
    unfold write_record. rewrite Hw.
    replace (acc ++ ex :: exs) with ((acc ++ [ex]) ++ exs)
      by (rewrite <- app_assoc; reflexivity).
    apply (IH exs (acc ++ [ex])); [|reflexivity].
    simpl. apply lookup_insert_eq.
Qed.

Lemma yolo_export_lists self save_dir lists name subset w w' r :
  yolo_export self save_dir lists name subset w = (w', Ok r) ->
  r = PyDict.set lists name (name +:+ ".txt").
Proof.
  unfold yolo_export, mbind, IO_bind, makedirs, write_text, mret, IO_ret.
  destruct (io_fold _ _ _ _) as [w1 [paths|e]]; [|discriminate].
  intros [= _ <-]. reflexivity.
Qed.

Lemma tf_export_records self save_dir name subset lc w :
  cat_label (ds_categories subset) = Some lc ->
  (forall p, is_record_file w p = false) ->
  let out :=
    tf_export IMAGE_EXT IMAGE_FORMAT LABELMAP_FILE encode_image self save_dir
      name subset w in
  (forall p, is_record_file out.1 p = true <-> p = record_path save_dir name)
  /\ (forall items examples,
        ds_iter subset = Ok <$> items ->
        mapM (tf_item self lc) items = Ok examples ->
        out.2 = Ok tt
        /\ files out.1 !! record_path save_dir name = Some (RecordFile examples)).
Proof.
  intros Hlc Hnone out. subst out.
  unfold tf_export, categories_label. rewrite Hlc.
  unfold mbind at 1, IO_bind at 1, lift at 1.
  unfold mbind at 1, IO_bind at 1, write_text at 1.
  unfold mbind at 1, IO_bind at 1, open_records at 1.
  cbn [files dirs warnings].
  set (w2 := mkWorld _ _ _).
  assert (Hw2 : forall p,
            is_record_file w2 p = true <-> p = record_path save_dir name).
  { intros p. subst w2. unfold is_record_file. cbn [files].
    destruct (decide (p = record_path save_dir name)) as [->|Hne].
    - rewrite lookup_insert_eq. tauto.
    - rewrite lookup_insert_ne by congruence.
      split; [|intros; contradiction].
      specialize (Hnone p). unfold is_record_file in Hnone.
      destruct (decide (p = PyStr.path_join save_dir LABELMAP_FILE)) as [->|Hne'].
      + rewrite lookup_insert_eq. discriminate.
      + rewrite lookup_insert_ne by congruence.
        destruct (files w !! p) as [[]|]; discriminate. }
  split.
  - exact (tf_write_all_records self lc _ _ w2 Hw2).
  - intros items examples -> Hall.
    apply (tf_write_all_ok self lc _ items examples [] w2); [|exact Hall].
    subst w2. simpl. apply lookup_insert_eq.
Qed.

(** C7 (as the code has it).  When the source declares no subsets and
    its categories hold a label table, both converters run their loop
    once, for the unnamed subset, which is exported under the format's
    default name from the whole extractor.  The line-format conversion is
    the output directory, [obj.names], one export of the whole extractor
    under the default name, and an [obj.data] that lists exactly that
    subset; the record-format conversion is the output directory and one
    export of the whole extractor under the default name, which in an
    output tree without record files leaves exactly one record file,
    [<default name>.tfrecord], holding the items' records in order when
    every item converts. *)
Theorem C7_no_subsets_one_default_subset (yolo : YoloConverter)
    (tf : DetectionApiConverter) (extractor : Extractor) (save_dir : string)
    (label_categories : LabelCategories)
    (Hnone : ex_subsets extractor = [])
    (Hlabels : cat_label (ds_categories (ex_dataset extractor))
               = Some label_categories) :
  subsets_or_default extractor = [None]
  /\ (forall w,
        YoloConverter_call SUBSET_NAMES YOLO_DEFAULT yolo extractor save_dir w
        = (makedirs save_dir;;
           write_text (PyStr.path_join save_dir "obj.names")
             (PyStr.concat
                ((fun l => fst l +:+ nl)
                   <$> sorted_by_value (label_ids_of 0 label_categories)));;
           yolo_export yolo save_dir [] YOLO_DEFAULT (ex_dataset extractor);;
           write_text (PyStr.path_join save_dir "obj.data")
             ("classes = "
              +:+ str_of_nat (length (label_ids_of 0 label_categories)) +:+ nl
              +:+ PyStr.concat
                    [YOLO_DEFAULT +:+ " = "
                     +:+ PyStr.path_join "data" (YOLO_DEFAULT +:+ ".txt")
                     +:+ nl]
              +:+ "names = " +:+ PyStr.path_join "data" "obj.names" +:+ nl
              +:+ "backup = backup/" +:+ nl)) w)
  /\ (forall w w',
        YoloConverter_call SUBSET_NAMES YOLO_DEFAULT yolo extractor save_dir w
        = (w', Ok tt) ->
        files w' !! PyStr.path_join save_dir "obj.data"
        = Some (TextFile
                  ("classes = "
                   +:+ str_of_nat (length (label_ids_of 0 label_categories))
                   +:+ nl
                   +:+ PyStr.concat
                         [YOLO_DEFAULT +:+ " = "
                          +:+ PyStr.path_join "data" (YOLO_DEFAULT +:+ ".txt")
                          +:+ nl]
                   +:+ "names = " +:+ PyStr.path_join "data" "obj.names"
                   +:+ nl
                   +:+ "backup = backup/" +:+ nl)))
  /\ (forall w,
        DetectionApiConverter_call TF_DEFAULT IMAGE_EXT IMAGE_FORMAT
          LABELMAP_FILE encode_image tf extractor save_dir w
        = (makedirs save_dir;;
           tf_export IMAGE_EXT IMAGE_FORMAT LABELMAP_FILE encode_image tf
             save_dir TF_DEFAULT (ex_dataset extractor)) w)
  /\ (forall w,
        (forall p, is_record_file w p = false) ->
        let out :=
          DetectionApiConverter_call TF_DEFAULT IMAGE_EXT IMAGE_FORMAT
            LABELMAP_FILE encode_image tf extractor save_dir w in
        (forall p, is_record_file out.1 p = true
                   <-> p = record_path save_dir TF_DEFAULT)
        /\ (forall items examples,
              ds_iter (ex_dataset extractor) = Ok <$> items ->
              mapM (tf_item tf label_categories) items = Ok examples ->
              out.2 = Ok tt
              /\ files out.1 !! record_path save_dir TF_DEFAULT
                 = Some (RecordFile examples))).
Proof.
  assert (Hsubsets : subsets_or_default extractor = [None])
    by (unfold subsets_or_default; rewrite Hnone; reflexivity).
  assert (Hyolo : forall w,
    YoloConverter_call SUBSET_NAMES YOLO_DEFAULT yolo extractor save_dir w
    = (makedirs save_dir;;
       write_text (PyStr.path_join save_dir "obj.names")
         (PyStr.concat
            ((fun l => fst l +:+ nl)
               <$> sorted_by_value (label_ids_of 0 label_categories)));;
       yolo_export yolo save_dir [] YOLO_DEFAULT (ex_dataset extractor);;
       write_text (PyStr.path_join save_dir "obj.data")
         ("classes = "
          +:+ str_of_nat (length (label_ids_of 0 label_categories)) +:+ nl
          +:+ PyStr.concat
                [YOLO_DEFAULT +:+ " = "
                 +:+ PyStr.path_join "data" (YOLO_DEFAULT +:+ ".txt") +:+ nl]
          +:+ "names = " +:+ PyStr.path_join "data" "obj.names" +:+ nl
          +:+ "backup = backup/" +:+ nl)) w).
  { intros w. unfold YoloConverter_call, categories_label.
    rewrite Hlabels, Hsubsets.
    unfold mbind, IO_bind, makedirs, lift, write_text.
    rewrite io_fold_cons.
    change (yolo_subset SUBSET_NAMES YOLO_DEFAULT yolo extractor save_dir []
              None)
      with (yolo_export yolo save_dir [] YOLO_DEFAULT (ex_dataset extractor)).
    destruct (yolo_export yolo save_dir [] YOLO_DEFAULT (ex_dataset extractor) _)
      as [w3 [lists|e]] eqn:Hexport; [|reflexivity].
    apply yolo_export_lists in Hexport. subst lists. reflexivity. }
  assert (Htf : forall w,
    DetectionApiConverter_call TF_DEFAULT IMAGE_EXT IMAGE_FORMAT
      LABELMAP_FILE encode_image tf extractor save_dir w
    = (makedirs save_dir;;
       tf_export IMAGE_EXT IMAGE_FORMAT LABELMAP_FILE encode_image tf
         save_dir TF_DEFAULT (ex_dataset extractor)) w).
  { intros w. unfold DetectionApiConverter_call. rewrite Hsubsets.
    unfold mbind, IO_bind, makedirs, io_for. rewrite io_fold_cons.
    change (tf_subset TF_DEFAULT IMAGE_EXT IMAGE_FORMAT LABELMAP_FILE
              encode_image tf extractor save_dir None)
      with (tf_export IMAGE_EXT IMAGE_FORMAT LABELMAP_FILE encode_image tf
              save_dir TF_DEFAULT (ex_dataset extractor)).
    destruct (tf_export _ _ _ _ _ _ _ _ _) as [w' [[]|e]]; reflexivity. }
  split; [exact Hsubsets|]. split; [exact Hyolo|]. split; [|split; [exact Htf|]].
  - intros w w'. rewrite Hyolo.
    unfold mbind, IO_bind, makedirs, write_text.
    destruct (yolo_export yolo save_dir [] YOLO_DEFAULT (ex_dataset extractor) _)
      as [w2 [lists|e]] eqn:Hexport; [|discriminate].
    intros [= <-]. cbn [files]. apply lookup_insert_eq.
  - intros w Hempty out. subst out. rewrite Htf.
    unfold mbind at 1, IO_bind at 1, makedirs at 1.
    apply (tf_export_records tf save_dir TF_DEFAULT (ex_dataset extractor)
             label_categories
             (mkWorld (files w) ({[save_dir]} ∪ dirs w) (warnings w)) Hlabels).
    intros p. exact (Hempty p).
Qed.

End NoSubsets.

(** Without a label table neither converter reaches an export: a source
    without subsets and without label categories gets no record file, so
    the record file of the default subset is not there for every source
    that declares no subsets. *)
Lemma C7_no_label_table_no_record_file :
  ~ (forall extractor : Extractor,
       ex_subsets extractor = [] ->
       forall p,
         is_record_file
           (DetectionApiConverter_call "default" ".jpg" "jpeg" "label_map.pbtxt"
              (fun _ => "") (mkDetectionApiConverter false) extractor
              "out" empty_world).1 p = true
         <-> p = record_path "out" "default").
Proof.
  intros H.
  specialize (H Unlabelled.extractor eq_refl (record_path "out" "default")).
  apply proj2 in H. specialize (H eq_refl). vm_compute in H. discriminate H.
Qed.

(** On that source both conversions end in [KeyError] with only the output
    directory made. *)
Example conversions_without_label_table :
  YoloConverter_call ["train"; "valid"] "train"
    (mkYoloConverter None false false) Unlabelled.extractor "out" empty_world
  = (mkWorld ∅ {["out"]} [], Raise (KeyError (StrKey "AnnotationType.label")))
  /\ DetectionApiConverter_call "default" ".jpg" "jpeg" "label_map.pbtxt"
       (fun _ => "") (mkDetectionApiConverter false) Unlabelled.extractor
       "out" empty_world
     = (mkWorld ∅ {["out"]} [], Raise (KeyError (StrKey "AnnotationType.label"))).
Proof. split; vm_compute; reflexivity. Qed.

(** The theorem on a source without subsets, with a label table and one
    item: the line-format converter writes an [obj.data] that lists the
    one subset "train"; the record-format converter leaves the one record
    file [out/default.tfrecord], and the label map is no record file. *)
Lemma C7_no_subsets_witness :
  subsets_or_default Unnamed.extractor = [None]
  /\ files
       (YoloConverter_call ["train"; "valid"] "train"
          (mkYoloConverter None false false) Unnamed.extractor "out"
          empty_world).1 !! "out/obj.data"
     = Some (TextFile ("classes = 2" +:+ nl +:+ "train = data/train.txt" +:+ nl
                       +:+ "names = data/obj.names" +:+ nl
                       +:+ "backup = backup/" +:+ nl))
  /\ is_record_file
       (DetectionApiConverter_call "default" ".jpg" "jpeg" "label_map.pbtxt"
          (fun _ => "") (mkDetectionApiConverter false) Unnamed.extractor
          "out" empty_world).1 "out/default.tfrecord" = true
  /\ ~ is_record_file
         (DetectionApiConverter_call "default" ".jpg" "jpeg" "label_map.pbtxt"
            (fun _ => "") (mkDetectionApiConverter false) Unnamed.extractor
            "out" empty_world).1 "out/label_map.pbtxt" = true.
Proof.
  pose proof (C7_no_subsets_one_default_subset ["train"; "valid"] "train"
                "default" ".jpg" "jpeg" "label_map.pbtxt" (fun _ => "")
                (mkYoloConverter None false false)
                (mkDetectionApiConverter false) Unnamed.extractor "out"
                (mkLabelCategories [("cat", ""); ("dog", "")])
                eq_refl eq_refl) as (Hone & _ & Hyolo & _ & Hrecords).
  destruct (Hrecords empty_world (fun _ => eq_refl)) as [Hfiles _].
  split; [exact Hone|]. split; [|split].
  - assert (Hok : (YoloConverter_call ["train"; "valid"] "train"
                     (mkYoloConverter None false false) Unnamed.extractor "out"
                     empty_world).2 = Ok tt) by (vm_compute; reflexivity).
    destruct (YoloConverter_call ["train"; "valid"] "train"
                (mkYoloConverter None false false) Unnamed.extractor "out"
                empty_world) as [w' r] eqn:Hdone.
    cbn [snd] in Hok. subst r. cbn [fst].
    exact (Hyolo empty_world w' Hdone).
  - apply Hfiles. reflexivity.
  - intros H. apply Hfiles in H. discriminate H.
Defined.

(** ** Subsets the line format does not accept *)

Lemma quiet_bind {A B} (m : IO A) (f : A -> IO B) :
  quiet m -> (forall a, quiet (f a)) -> quiet (m ≫= f).
Proof.
  intros Hm Hf w. unfold mbind, IO_bind. specialize (Hm w).
  destruct (m w) as [w' [a|e]]; simpl in *.
  - rewrite Hf. exact Hm.
  - exact Hm.
Qed.

Lemma quiet_lift {A} (r : result A) : quiet (lift r).
Proof. intros w. reflexivity. Qed.

Lemma quiet_ret {A} (a : A) : quiet (mret a : IO A).
Proof. intros w. reflexivity. Qed.

Lemma quiet_write_text path content : quiet (write_text path content).
Proof. intros w. reflexivity. Qed.

Lemma quiet_io_fold {A S} (f : S -> A -> IO S) l :
  (forall s a, quiet (f s a)) -> forall s, quiet (io_fold f s l).
Proof.
  intros Hf. induction l as [|a l IH]; intros s.
  - apply quiet_ret.
  - cbn [io_fold]. apply quiet_bind; [apply Hf | intros s'; apply IH].
Qed.

Lemma quiet_yolo_item self subset_dir paths next :
  quiet (yolo_item self subset_dir paths next).
Proof.
  unfold yolo_item.
  apply quiet_bind; [apply quiet_lift|]. intros item.
  apply quiet_bind.
  - destruct (yolo_save_images self); [|apply quiet_ret].
    apply quiet_bind; [intros w; reflexivity|].
    intros [|]; [apply quiet_ret | intros w; reflexivity].
  - intros _. apply quiet_bind; [apply quiet_lift|]. intros [height width].
    apply quiet_bind; [apply quiet_lift|]. intros text.
    apply quiet_bind; [apply quiet_write_text|]. intros _. apply quiet_ret.
Qed.

Lemma quiet_yolo_export self save_dir lists name subset :
  quiet (yolo_export self save_dir lists name subset).
Proof.
  unfold yolo_export.
  apply quiet_bind; [intros w; reflexivity|]. intros _.
  apply quiet_bind; [apply quiet_io_fold; intros; apply quiet_yolo_item|].
  intros paths. apply quiet_bind; [apply quiet_write_text|].
  intros _. apply quiet_ret.
Qed.

Section UnknownSubset.

Variable SUBSET_NAMES : list string.
Variable DEFAULT_SUBSET_NAME : string.

Lemma truthy_Some name : truthy (Some name) = negb (String.eqb name "").
Proof. reflexivity. Qed.

(** C8.  A subset whose name is non-empty and not among the accepted
    names does not fail the line-format converter: its loop step writes
    nothing, logs one warning and hands the subset lists on, so the loop
    goes on with the subsets that remain.  No other step logs a warning,
    and an exception raised in a step ends the loop and the conversion
    with that exception. *)
Theorem C8_unknown_subset_skipped_with_warning (self : YoloConverter)
    (extractor : Extractor) (save_dir : string) (name : string)
    (Hnamed : name <> "") (Hunknown : name ∉ SUBSET_NAMES) :
  let step :=
    yolo_subset SUBSET_NAMES DEFAULT_SUBSET_NAME self extractor save_dir in
  (forall lists w,
     step lists (Some name) w
     = (warned w (yolo_skip_message SUBSET_NAMES name), Ok lists))
  /\ (forall rest lists w,
        io_fold step lists (Some name :: rest) w
        = io_fold step lists rest
            (warned w (yolo_skip_message SUBSET_NAMES name)))
  /\ (forall other lists w,
        warnings (step lists other w).1 <> warnings w ->
        exists n, other = Some n /\ n <> "" /\ n ∉ SUBSET_NAMES)
  /\ (forall pre x post lists w w1 lists1 w2 e,
        io_fold step lists pre w = (w1, Ok lists1) ->
        step lists1 x w1 = (w2, Raise e) ->
        io_fold step lists (pre ++ x :: post) w = (w2, Raise e))
  /\ (forall label_categories w w' e,
        cat_label (ds_categories (ex_dataset extractor))
        = Some label_categories ->
        io_fold step [] (subsets_or_default extractor)
          ((makedirs save_dir;;
            write_text (PyStr.path_join save_dir "obj.names")
              (PyStr.concat
                 ((fun l => fst l +:+ nl)
                    <$> sorted_by_value (label_ids_of 0 label_categories)))) w).1
        = (w', Raise e) ->
        YoloConverter_call SUBSET_NAMES DEFAULT_SUBSET_NAME self extractor
          save_dir w = (w', Raise e)).
Proof.
  intros step.
  assert (Hskip : forall lists w,
            step lists (Some name) w
            = (warned w (yolo_skip_message SUBSET_NAMES name), Ok lists)).
  { intros lists w. subst step. unfold yolo_subset.
    rewrite truthy_Some. apply String.eqb_neq in Hnamed. rewrite Hnamed.
    rewrite (bool_decide_eq_false_2 _ Hunknown). reflexivity. }
  split; [exact Hskip|]. split; [|split; [|split]].
  - intros rest lists w. rewrite io_fold_cons, Hskip. reflexivity.
  - intros other lists w Hwarned. subst step. unfold yolo_subset in Hwarned.
    destruct (truthy other) eqn:Htruthy; cbn [andb negb] in Hwarned.
    + destruct other as [n|]; [|discriminate Htruthy].
      rewrite truthy_Some in Htruthy. apply negb_true_iff in Htruthy.
      apply String.eqb_neq in Htruthy.
      destruct (bool_decide (default "" (Some n) ∈ SUBSET_NAMES)) eqn:Hin.
      * exfalso. apply Hwarned.
        apply (quiet_bind (lift (ex_get_subset extractor (default "" (Some n))))).
        -- apply quiet_lift.
        -- intros subset. apply quiet_yolo_export.
      * apply bool_decide_eq_false in Hin. eauto.
    + exfalso. apply Hwarned. apply quiet_yolo_export.
  - intros pre x post lists w w1 lists1 w2 e Hpre Hx.
    rewrite io_fold_app, Hpre, io_fold_cons, Hx. reflexivity.
  - intros label_categories w w' e Hlc Hloop.
    unfold YoloConverter_call, categories_label. rewrite Hlc.
    unfold mbind, IO_bind, makedirs, lift, write_text in *.
    cbn [fst snd files dirs warnings] in *.
    fold step. rewrite Hloop. reflexivity.
Qed.

End UnknownSubset.

(** The theorem on the subset "extra" with the accepted names "train" and
    "valid": one warning, nothing written, the lists handed on. *)
Lemma C8_unknown_subset_witness :
  yolo_subset ["train"; "valid"] "train" (mkYoloConverter None false false)
    Unnamed.named "out" [] (Some "extra") empty_world
  = (mkWorld ∅ ∅
       ["Skipping subset export 'extra'. If specified, the only valid names are 'train', 'valid'"],
     Ok []).
Proof.
  refine (proj1 (C8_unknown_subset_skipped_with_warning ["train"; "valid"]
                   "train" (mkYoloConverter None false false) Unnamed.named
                   "out" "extra" _ _) [] empty_world).
  - discriminate.
  - apply (bool_decide_unpack _). vm_compute. exact I.
Defined.

(** A whole conversion with the subsets "extra" and "train": "extra" is
    skipped with its warning, "train" is exported after it. *)
Example yolo_skips_extra_then_exports_train :
  let out :=
    YoloConverter_call ["train"; "valid"] "train"
      (mkYoloConverter None false false) Unnamed.named "out" empty_world in
  out.2 = Ok tt
  /\ length (warnings out.1) = 1%nat
  /\ files out.1 !! "out/extra.txt" = None
  /\ files out.1 !! "out/train.txt"
     = Some (TextFile ("data/obj_train_data/7.jpg" +:+ nl))
  /\ files out.1 !! "out/obj.data"
     = Some (TextFile ("classes = 2" +:+ nl +:+ "train = data/train.txt" +:+ nl
                       +:+ "names = data/obj.names" +:+ nl
                       +:+ "backup = backup/" +:+ nl)).
Proof. vm_compute. repeat split. Qed.

(** * Further properties of the code *)

(** ** Dictionaries *)

Lemma dict_get_set_eq {K V} `{EqDecision K} (d : PyDict.dict K V) k v :
  PyDict.get (PyDict.set d k v) k = Some v.
Proof.
  induction d as [|[k' v'] d IH]; simpl.
  - by rewrite decide_True.
  - destruct (decide (k' = k)) as [->|Hne]; simpl.
    + by rewrite decide_True.
    + by rewrite decide_False.
Qed.

Lemma dict_get_set_ne {K V} `{EqDecision K} (d : PyDict.dict K V) k k' v :
  k <> k' -> PyDict.get (PyDict.set d k v) k' = PyDict.get d k'.
Proof.
  intros Hne. induction d as [|[k0 v0] d IH]; simpl.
  - by rewrite decide_False.
  - destruct (decide (k0 = k)) as [->|Hne0]; simpl.
    + by rewrite !decide_False.
    + destruct (decide (k0 = k')); done.
Qed.

Lemma dict_get_None_keys {K V} `{EqDecision K} (d : PyDict.dict K V) k :
  PyDict.get d k = None <-> k ∉ PyDict.keys d.
Proof.
  unfold PyDict.keys. induction d as [|[k' v'] d IH]; simpl.
  - split; [intros _; apply not_elem_of_nil | done].
  - rewrite not_elem_of_cons. destruct (decide (k' = k)) as [->|Hne].
    + split; [discriminate | intros [? _]; done].
    + rewrite IH. split; [intros ?; split; [congruence|done] | tauto].
Qed.

Lemma dict_set_fresh {K V} `{EqDecision K} (d : PyDict.dict K V) k v :
  PyDict.get d k = None -> PyDict.set d k v = d ++ [(k, v)].
Proof.
  induction d as [|[k' v'] d IH]; simpl; [done|].
  destruct (decide (k' = k)); [discriminate|]. intros Hd. by rewrite IH.
Qed.

Lemma dict_keys_set {K V} `{EqDecision K} (d : PyDict.dict K V) k v :
  PyDict.keys (PyDict.set d k v)
  = if decide (k ∈ PyDict.keys d) then PyDict.keys d else PyDict.keys d ++ [k].
Proof.
  unfold PyDict.keys. induction d as [|[k' v'] d IH].
  - destruct (decide (k ∈ _)) as [Hin|_]; [|reflexivity].
    by apply elem_of_nil in Hin.
  - cbn [PyDict.set]. destruct (decide (k' = k)) as [->|Hne].
    + destruct (decide (k ∈ ((k, v') :: d).*1)) as [_|Hnin]; [reflexivity|].
      exfalso. apply Hnin. rewrite fmap_cons. left.
    + rewrite fmap_cons, IH. cbn [fst].
      destruct (decide (k ∈ d.*1)) as [Hin|Hnin];
        destruct (decide (k ∈ ((k', v') :: d).*1)) as [Hin'|Hnin'];
        try reflexivity.
      * exfalso. apply Hnin'. rewrite fmap_cons. right. exact Hin.
      * exfalso. rewrite fmap_cons in Hin'. apply elem_of_cons in Hin'.
        destruct Hin' as [->|?]; [by apply Hne|done].
Qed.

(** ** Printable class names *)

(** X1.  [_make_printable] keeps exactly the printable characters, in
    their order: the characters of its result are those of the input that
    are printable, so it works character by character and through
    concatenation; its result is printable throughout, is never longer
    than the input, is left as it is by a second pass, and a string that
    is printable already comes back unchanged. *)
Theorem X1_make_printable (s : string) :
  all_printable (_make_printable s) = true
  /\ (String.length (_make_printable s) <= String.length s)%nat
  /\ _make_printable (_make_printable s) = _make_printable s
  /\ (all_printable s = true -> _make_printable s = s)
  /\ list_ascii_of_string (_make_printable s)
     = List.filter printable (list_ascii_of_string s)
  /\ (forall t, _make_printable (s +:+ t)
                = _make_printable s +:+ _make_printable t)
  /\ (forall c, List.In c (list_ascii_of_string (_make_printable s))
                <-> List.In c (list_ascii_of_string s) /\ printable c = true).
Proof.
  assert (Hfix : forall t, all_printable t = true -> _make_printable t = t).
  { induction t as [|c t IH]; [reflexivity|]. simpl.
    intros [Hc Ht]%andb_true_iff. rewrite Hc, (IH Ht). reflexivity. }
  assert (Hall : all_printable (_make_printable s) = true).
  { induction s as [|c s IH]; [reflexivity|]. simpl.
    destruct (printable c) eqn:Hc; [|exact IH].
    simpl. rewrite Hc, IH. reflexivity. }
  assert (Hfilter : list_ascii_of_string (_make_printable s)
                    = List.filter printable (list_ascii_of_string s)).
  { clear Hall. induction s as [|c s IH]; [reflexivity|].
    cbn [_make_printable list_ascii_of_string List.filter].
    destruct (printable c); cbn [list_ascii_of_string]; rewrite IH;
      reflexivity. }
  split; [exact Hall|].
  split; [|split; [apply Hfix; exact Hall
                  |split; [apply Hfix|split; [exact Hfilter|split]]]].
  - clear Hall Hfilter. induction s as [|c s IH]; [reflexivity|].
    cbn [_make_printable].
    destruct (printable c); cbn [String.length]; [apply le_n_S | apply le_S];
      exact IH.
  - intros t. clear Hall Hfilter. induction s as [|c s IH]; [reflexivity|].
    rewrite app_cons. cbn [_make_printable].
    destruct (printable c); [rewrite app_cons|]; rewrite IH; reflexivity.
  - intros c. rewrite Hfilter, List.filter_In. reflexivity.
Qed.

(** ** Label ids of the converters *)

Lemma find_last_index_None name l i :
  find_last_index name l i = None <-> name ∉ l.*1.
Proof.
  revert i. induction l as [|[n p] l IH]; intros i; simpl.
  - split; [intros _; apply not_elem_of_nil | done].
  - rewrite not_elem_of_cons, <- (IH (S i)).
    destruct (find_last_index name l (S i)) as [j|].
    + split; [discriminate | intros [_ ?]; done].
    + destruct (String.eqb_spec n name) as [->|Hne].
      * split; [discriminate | intros [? _]; done].
      * split; [intros _; split; [congruence|done] | done].
Qed.

Lemma find_last_index_Some name l i j :
  find_last_index name l i = Some j ->
  (i <= j < i + length l)%nat /\ exists p, l !! (j - i)%nat = Some (name, p).
Proof.
  revert i j. induction l as [|[n p] l IH]; intros i j; simpl; [discriminate|].
  destruct (find_last_index name l (S i)) as [j'|] eqn:Hrest.
  - intros [= ->]. destruct (IH (S i) j Hrest) as [Hj [q Hq]].
    split; [lia|]. exists q.
    replace (j - i)%nat with (S (j - S i)) by lia. exact Hq.
  - destruct (String.eqb_spec n name) as [->|Hne]; [|discriminate].
    intros [= ->]. split; [lia|]. exists p.
    replace (j - j)%nat with 0%nat by lia. reflexivity.
Qed.

Lemma find_last_index_ge name l i k p :
  l !! k = Some (name, p) ->
  exists j, find_last_index name l i = Some j /\ (i + k <= j)%nat.
Proof.
  revert i k. induction l as [|[n q] l IH]; intros i k Hk; [discriminate|].
  simpl. destruct k as [|k]; simpl in Hk.
  - injection Hk as -> ->.
    destruct (find_last_index name l (S i)) as [j|] eqn:Hrest.
    + apply find_last_index_Some in Hrest as [? _]. exists j. split; [done|lia].
    + rewrite String.eqb_refl. exists i. split; [done|lia].
  - destruct (IH (S i) k Hk) as (j & -> & Hj). exists j. split; [done|lia].
Qed.

Lemma find_last_index_NoDup name l i k p :
  NoDup l.*1 -> l !! k = Some (name, p) ->
  find_last_index name l i = Some (i + k)%nat.
Proof.
  revert i k. induction l as [|[n q] l IH]; intros i k Hnd Hk; [discriminate|].
  rewrite fmap_cons in Hnd. apply NoDup_cons in Hnd as [Hn Hnd].
  simpl. destruct k as [|k]; simpl in Hk.
  - injection Hk as -> ->. cbn [fst] in Hn.
    rewrite (proj2 (find_last_index_None name l (S i)) Hn), String.eqb_refl.
    f_equal. lia.
  - rewrite (IH (S i) k Hnd Hk). f_equal. lia.
Qed.

Lemma label_ids_fold first name (l : list (string * string)) i
    (acc : PyDict.dict string nat) :
  PyDict.get
    (foldl (fun acc il => PyDict.set acc (snd il).1 (first + fst il)%nat)
           acc (enumerate_from i l)) name
  = match find_last_index name l i with
    | Some j => Some (first + j)%nat
    | None => PyDict.get acc name
    end.
Proof.
  revert i acc. induction l as [|[n p] l IH]; intros i acc; [reflexivity|].
  cbn [enumerate_from foldl find_last_index fst snd]. rewrite IH.
  destruct (find_last_index name l (S i)) as [j|]; [reflexivity|].
  destruct (String.eqb_spec n name) as [->|Hne].
  - apply dict_get_set_eq.
  - apply dict_get_set_ne. exact Hne.
Qed.

Lemma label_ids_get first lc name :
  PyDict.get (label_ids_of first lc) name
  = (fun j => (first + j)%nat) <$> find_last_index name (items lc) 0.
Proof.
  unfold label_ids_of, enumerate. rewrite label_ids_fold.
  destruct (find_last_index name (items lc) 0); reflexivity.
Qed.

(** X2.  The class index the record format writes for a box: a label
    beyond the table raises [IndexError]; a label in the table gets one
    more than the position of the last category with the same name (no
    category of that name comes after it), which is the label plus one
    when the names are distinct; a box without a label gets 0, which no
    category has, unless a category has the empty name. *)
Theorem X2_tf_class_index (label_categories : LabelCategories) :
  let class_of :=
    tf_map_label_id label_categories (label_ids_of 1 label_categories) in
  (forall i, (length (items label_categories) <= i)%nat ->
             class_of (Some i) = Raise IndexError)
  /\ (forall i name parent,
        items label_categories !! i = Some (name, parent) ->
        exists j parent',
          class_of (Some i) = Ok (Z.of_nat (S j))
          /\ (i <= j)%nat
          /\ items label_categories !! j = Some (name, parent')
          /\ (forall k parent'',
                items label_categories !! k = Some (name, parent'') ->
                (k <= j)%nat))
  /\ (NoDup (label_names label_categories) ->
      forall i, (i < length (items label_categories))%nat ->
                class_of (Some i) = Ok (Z.of_nat i + 1))
  /\ ("" ∉ label_names label_categories -> class_of None = Ok 0)
  /\ (forall name j,
        PyDict.get (label_ids_of 1 label_categories) name = Some j ->
        (1 <= j)%nat).
Proof.
  intros class_of. subst class_of. unfold tf_map_label_id, tf_get_label, index.
  split; [|split; [|split; [|split]]].
  - intros i Hi. rewrite (lookup_ge_None_2 _ _ Hi). reflexivity.
  - intros i name parent Hi. rewrite Hi. simpl. rewrite label_ids_get.
    destruct (find_last_index_ge name _ 0 i parent Hi) as (j & Hj & Hle).
    rewrite Hj. simpl.
    destruct (find_last_index_Some _ _ _ _ Hj) as [_ [parent' Hp]].
    exists j, parent'. rewrite Nat.sub_0_r in Hp.
    split; [reflexivity|]. split; [lia|]. split; [exact Hp|].
    intros k parent'' Hk.
    destruct (find_last_index_ge name _ 0 k parent'' Hk) as (j' & Hj' & Hle').
    rewrite Hj in Hj'. injection Hj' as <-. lia.
  - intros Hnd i Hi. destruct (lookup_lt_is_Some_2 _ _ Hi) as [[name parent] Hl].
    rewrite Hl. simpl. rewrite label_ids_get.
    rewrite (find_last_index_NoDup name _ 0 i parent Hnd Hl). simpl.
    f_equal. lia.
  - intros Hempty. simpl. rewrite label_ids_get.
    rewrite (proj2 (find_last_index_None "" _ 0) Hempty). reflexivity.
  - intros name j. rewrite label_ids_get.
    destruct (find_last_index name _ 0); simpl; [|discriminate].
    intros [= <-]. lia.
Qed.

(** With the name "cat" on the first and the third label, a box of the
    first label is written with the class index 3 of the third. *)
Example class_index_with_repeated_name :
  tf_map_label_id repeated_labels (label_ids_of 1 repeated_labels) (Some 0%nat)
  = Ok 3.
Proof. reflexivity. Qed.

Lemma label_ids_fold_fresh first (l : list (string * string)) i
    (acc : PyDict.dict string nat) :
  NoDup l.*1 -> (forall n, n ∈ l.*1 -> n ∉ PyDict.keys acc) ->
  foldl (fun acc il => PyDict.set acc (snd il).1 (first + fst il)%nat)
        acc (enumerate_from i l)
  = acc ++ ((fun il => ((snd il).1, (first + fst il)%nat)) <$> enumerate_from i l).
Proof.
  revert i acc. induction l as [|[n p] l IH]; intros i acc Hnd Hfresh.
  - simpl. by rewrite app_nil_r.
  - rewrite fmap_cons in Hnd. apply NoDup_cons in Hnd as [Hn Hnd].
    cbn [enumerate_from foldl fmap list_fmap fst snd].
    assert (Hacc : PyDict.get acc n = None).
    { apply dict_get_None_keys, Hfresh. rewrite fmap_cons. left. }
    rewrite (dict_set_fresh acc n _ Hacc), IH; [|exact Hnd|].
    + rewrite <- app_assoc. reflexivity.
    + intros m Hm. unfold PyDict.keys. rewrite fmap_app, not_elem_of_app.
      split.
      * apply Hfresh. rewrite fmap_cons. right. exact Hm.
      * simpl. rewrite not_elem_of_cons. split; [|apply not_elem_of_nil].
        intros ->. exact (Hn Hm).
Qed.

Lemma label_ids_distinct first lc :
  NoDup (label_names lc) ->
  label_ids_of first lc
  = (fun il => ((snd il).1, (first + fst il)%nat)) <$> enumerate (items lc).
Proof.
  intros Hnd. unfold label_ids_of, enumerate.
  rewrite (label_ids_fold_fresh first (items lc) 0 [] Hnd); [reflexivity|].
  intros n _. apply not_elem_of_nil.
Qed.

Lemma sorted_by_value_enumerate first (l : list (string * string)) i :
  sorted_by_value
    ((fun il => ((snd il).1, (first + fst il)%nat)) <$> enumerate_from i l)
  = (fun il => ((snd il).1, (first + fst il)%nat)) <$> enumerate_from i l.
Proof.
  unfold sorted_by_value. revert i.
  induction l as [|[n p] l IH]; intros i; [reflexivity|].
  cbn [enumerate_from fmap list_fmap foldr]. rewrite IH.
  destruct l as [|[n' p'] l]; [reflexivity|].
  cbn [enumerate_from fmap list_fmap insert_by_value fst snd].
  rewrite (proj2 (Nat.leb_le _ _)) by lia. reflexivity.
Qed.

Lemma enumerate_from_lookup {A} (l : list A) i k a :
  l !! k = Some a -> enumerate_from i l !! k = Some ((i + k)%nat, a).
Proof.
  revert i k. induction l as [|b l IH]; intros i k Hk; [discriminate|].
  destruct k as [|k]; simpl in *.
  - injection Hk as ->. do 2 f_equal. lia.
  - rewrite (IH (S i) k Hk). do 2 f_equal. lia.
Qed.

Lemma enumerate_from_length {A} (l : list A) i :
  length (enumerate_from i l) = length l.
Proof. revert i. induction l; intros i; simpl; [done|]. by rewrite IHl. Qed.

Lemma enumerate_from_names first (l : list (string * string)) i :
  ((fun il : nat * (string * string) => ((snd il).1, (first + fst il)%nat))
     <$> enumerate_from i l).*1 = l.*1.
Proof.
  revert i. induction l as [|[n p] l IH]; intros i; [reflexivity|].
  cbn [enumerate_from fmap list_fmap fst snd]. f_equal. apply IH.
Qed.

(** X3.  When the category names are distinct, the names file of the line
    format holds the names in category order, one per line, so that line
    [i] (from 0) is the name of label [i], and the class count is the
    number of categories. *)
Theorem X3_yolo_names_in_label_order (label_categories : LabelCategories)
    (Hdistinct : NoDup (label_names label_categories)) :
  obj_names_text label_categories
  = PyStr.concat ((fun n => n +:+ nl) <$> label_names label_categories)
  /\ length (label_ids_of 0 label_categories)
     = length (items label_categories)
  /\ (forall i name parent,
        items label_categories !! i = Some (name, parent) ->
        sorted_by_value (label_ids_of 0 label_categories) !! i
        = Some (name, i)).
Proof.
  unfold obj_names_text.
  rewrite (label_ids_distinct 0 _ Hdistinct). unfold enumerate.
  rewrite sorted_by_value_enumerate. split; [|split].
  - unfold label_names.
    rewrite <- (enumerate_from_names 0 (items label_categories) 0).
    rewrite <- !list_fmap_compose. reflexivity.
  - rewrite length_fmap. apply enumerate_from_length.
  - intros i name parent Hi. rewrite list_lookup_fmap.
    rewrite (enumerate_from_lookup _ 0 i _ Hi). reflexivity.
Qed.

(** The theorem on three distinct names. *)
Lemma X3_yolo_names_witness :
  obj_names_text three_labels
  = "cat" +:+ nl +:+ "dog" +:+ nl +:+ "car" +:+ nl
  /\ length (label_ids_of 0 three_labels) = 3%nat.
Proof.
  assert (Hnd : NoDup (label_names three_labels)).
  { apply (bool_decide_unpack _). vm_compute. exact I. }
  destruct (X3_yolo_names_in_label_order three_labels Hnd) as (Htext & Hlen & _).
  split; [exact Htext | exact Hlen].
Defined.

(** X4.  When the category names are distinct, the label map of the
    record format lists every category once, in category order, with the
    ids 1, 2, ..., and the id listed for the name of label [i] is the
    class index written for boxes of label [i]. *)
Theorem X4_tf_labelmap_in_label_order (label_categories : LabelCategories)
    (Hdistinct : NoDup (label_names label_categories)) :
  labelmap_text (label_ids_of 1 label_categories)
  = PyStr.concat
      ((fun il : nat * (string * string) =>
          "item {" +:+ nl
          +:+ tab +:+ "id: " +:+ str_of_nat (S (fst il)) +:+ nl
          +:+ tab +:+ "name: '" +:+ (snd il).1 +:+ "'" +:+ nl
          +:+ "}" +:+ nl +:+ nl) <$> enumerate (items label_categories))
  /\ (forall i name parent,
        items label_categories !! i = Some (name, parent) ->
        PyDict.get (label_ids_of 1 label_categories) name = Some (S i)
        /\ tf_map_label_id label_categories (label_ids_of 1 label_categories)
             (Some i) = Ok (Z.of_nat (S i))).
Proof.
  split.
  - unfold labelmap_text. rewrite (label_ids_distinct 1 _ Hdistinct).
    rewrite <- list_fmap_compose. reflexivity.
  - intros i name parent Hi.
    assert (Hget : PyDict.get (label_ids_of 1 label_categories) name
                   = Some (S i)).
    { rewrite label_ids_get.
      rewrite (find_last_index_NoDup name _ 0 i parent Hdistinct Hi).
      reflexivity. }
    split; [exact Hget|].
    unfold tf_map_label_id, tf_get_label, index. rewrite Hi. simpl.
    rewrite Hget. reflexivity.
Qed.

(** The theorem on three distinct names. *)
Lemma X4_tf_labelmap_witness :
  labelmap_text (label_ids_of 1 three_labels)
  = "item {" +:+ nl +:+ tab +:+ "id: 1" +:+ nl +:+ tab +:+ "name: 'cat'" +:+ nl
    +:+ "}" +:+ nl +:+ nl
    +:+ "item {" +:+ nl +:+ tab +:+ "id: 2" +:+ nl +:+ tab +:+ "name: 'dog'" +:+ nl
    +:+ "}" +:+ nl +:+ nl
    +:+ "item {" +:+ nl +:+ tab +:+ "id: 3" +:+ nl +:+ tab +:+ "name: 'car'" +:+ nl
    +:+ "}" +:+ nl +:+ nl.
Proof.
  assert (Hnd : NoDup (label_names three_labels)).
  { apply (bool_decide_unpack _). vm_compute. exact I. }
  exact (proj1 (X4_tf_labelmap_in_label_order three_labels Hnd)).
Defined.

Lemma label_ids_keys_fold first (l : list (string * string)) i
    (acc : PyDict.dict string nat) :
  NoDup (PyDict.keys acc) ->
  let d := foldl (fun acc il => PyDict.set acc (snd il).1 (first + fst il)%nat)
                 acc (enumerate_from i l) in
  NoDup (PyDict.keys d)
  /\ forall n, n ∈ PyDict.keys d <-> n ∈ PyDict.keys acc \/ n ∈ l.*1.
Proof.
  revert i acc. induction l as [|[n p] l IH]; intros i acc Hnd d; subst d.
  - simpl. split; [exact Hnd|]. intros m. rewrite elem_of_nil. tauto.
  - cbn [enumerate_from foldl fst snd].
    assert (Hnd' : NoDup (PyDict.keys (PyDict.set acc n (first + i)%nat))).
    { rewrite dict_keys_set. destruct (decide _) as [?|Hnin]; [exact Hnd|].
      apply NoDup_app. split; [exact Hnd|]. split.
      - intros m Hm [->|[]%elem_of_nil]%elem_of_cons. exact (Hnin Hm).
      - apply NoDup_singleton. }
    destruct (IH (S i) _ Hnd') as [Hres Hmem]. split; [exact Hres|].
    intros m. rewrite Hmem, dict_keys_set, fmap_cons, elem_of_cons. cbn [fst].
    destruct (decide (n ∈ PyDict.keys acc)) as [Hin|Hnin].
    + split; [tauto|]. intros [?|[->|?]]; tauto.
    + rewrite elem_of_app, list_elem_of_singleton. tauto.
Qed.

(** X5.  The class count the line format writes ([len(label_ids)]) is the
    number of distinct category names: the dictionary has one entry per
    name that occurs, so the count never exceeds the number of categories
    and equals it exactly when the names are distinct. *)
Theorem X5_class_count_counts_distinct_names (first : nat)
    (label_categories : LabelCategories) :
  let label_ids := label_ids_of first label_categories in
  NoDup (PyDict.keys label_ids)
  /\ (forall n, n ∈ PyDict.keys label_ids <-> n ∈ label_names label_categories)
  /\ (length label_ids <= length (items label_categories))%nat
  /\ (length label_ids = length (items label_categories)
      <-> NoDup (label_names label_categories)).
Proof.
  intros label_ids. subst label_ids.
  destruct (label_ids_keys_fold first (items label_categories) 0 []
              (NoDup_nil_2)) as [Hnd Hmem].
  fold (enumerate (items label_categories)) in Hnd, Hmem.
  fold (label_ids_of first label_categories) in Hnd, Hmem.
  assert (Hmem' : forall n, n ∈ PyDict.keys (label_ids_of first label_categories)
                            <-> n ∈ label_names label_categories).
  { intros n. rewrite Hmem. unfold PyDict.keys at 1. simpl.
    rewrite elem_of_nil. unfold label_names. tauto. }
  assert (Hsub : PyDict.keys (label_ids_of first label_categories)
                 ⊆+ label_names label_categories).
  { apply NoDup_submseteq; [exact Hnd|]. intros n. apply Hmem'. }
  assert (Hlen : (length (label_ids_of first label_categories)
                  <= length (items label_categories))%nat).
  { apply submseteq_length in Hsub. unfold PyDict.keys, label_names in Hsub.
    rewrite !length_fmap in Hsub. exact Hsub. }
  split; [exact Hnd|]. split; [exact Hmem'|]. split; [exact Hlen|]. split.
  - intros Heq.
    assert (Hperm : PyDict.keys (label_ids_of first label_categories)
                    ≡ₚ label_names label_categories).
    { apply submseteq_length_Permutation; [exact Hsub|].
      unfold PyDict.keys, label_names. rewrite !length_fmap. lia. }
    rewrite <- Hperm. exact Hnd.
  - intros Hdistinct. rewrite (label_ids_distinct first _ Hdistinct).
    rewrite length_fmap. apply enumerate_from_length.
Qed.

(** With the name "cat" twice among three categories the class count is 2,
    and the names file starts with "dog" although label 0 is "cat". *)
Example class_count_with_repeated_name :
  length (label_ids_of 0 repeated_labels) = 2%nat
  /\ obj_names_text repeated_labels = "dog" +:+ nl +:+ "cat" +:+ nl.
Proof. split; reflexivity. Qed.

(** ** Annotation files of the line format *)

Lemma app_nil_r_str s : s +:+ "" = s.
Proof. induction s as [|c s IH]; [reflexivity|]. rewrite app_cons, IH. done. Qed.

Lemma yolo_annotation_fold width height anns acc :
  foldM (fun yolo_annotation bbox =>
           if negb (bool_decide (type_of bbox = AnnotationType.bbox))
           then Ok yolo_annotation
           else
             match label (common bbox) with
             | None => Ok yolo_annotation
             | Some l =>
                 pts ← points_of bbox;
                 '(x, y, w, h) ←
                   _make_yolo_bbox (PyInt width, PyInt height) pts;
                 strs ← mapM format_f6 [x; y; w; h];
                 let yolo_bb := PyStr.join " " strs in
                 Ok (yolo_annotation +:+ str_of_nat l +:+ " " +:+ yolo_bb +:+ nl)
             end)
        acc anns
  = (ls ← mapM (yolo_line width height) anns; Ok (acc +:+ PyStr.concat ls)).
Proof.
  match goal with |- foldM ?f _ _ = _ => set (step := f) end.
  assert (Hstep : forall text a,
            step text a = (l ← yolo_line width height a; Ok (text +:+ l))).
  { intros text a. subst step. unfold yolo_line. cbv beta.
    destruct (negb (bool_decide (type_of a = AnnotationType.bbox)));
      [simpl; by rewrite app_nil_r_str|].
    destruct (label (common a)) as [l|]; [|simpl; by rewrite app_nil_r_str].
    destruct (points_of a) as [pts|e]; [|reflexivity]. simpl.
    destruct (_make_yolo_bbox _ pts) as [[[[x y] w] h]|e]; [|reflexivity].
    simpl.
    destruct (format_f6 x); [|reflexivity]. simpl.
    destruct (format_f6 y); [|reflexivity]. simpl.
    destruct (format_f6 w); [|reflexivity]. simpl.
    destruct (format_f6 h); reflexivity. }
  clearbody step. revert acc.
  induction anns as [|a anns IH]; intros acc.
  - simpl. rewrite app_nil_r_str. reflexivity.
  - cbn [foldM mapM]. rewrite Hstep.
    destruct (yolo_line width height a) as [l|e]; [|reflexivity]. simpl.
    rewrite IH. destruct (mapM _ anns); [|reflexivity]. simpl.
    rewrite app_assoc_str. reflexivity.
Qed.

Lemma yolo_annotation_lines width height anns :
  yolo_annotation_of width height anns
  = (ls ← mapM (yolo_line width height) anns; Ok (PyStr.concat ls)).
Proof. unfold yolo_annotation_of. apply yolo_annotation_fold. Qed.

Lemma yolo_line_unlabelled width height a :
  labelled_bbox a = false -> yolo_line width height a = Ok "".
Proof.
  unfold labelled_bbox, yolo_line.
  destruct (bool_decide (type_of a = AnnotationType.bbox)); [|reflexivity].
  destruct (label (common a)) as [l|]; [|reflexivity].
  cbn [andb]. intros H. apply bool_decide_eq_false in H.
  exfalso. apply H. eauto.
Qed.

Lemma concat_app_str l1 l2 :
  PyStr.concat (l1 ++ l2) = PyStr.concat l1 +:+ PyStr.concat l2.
Proof.
  induction l1 as [|x l1 IH]; [reflexivity|].
  simpl. rewrite IH, app_assoc_str. reflexivity.
Qed.

Lemma mapM_app {A B} (f : A -> result B) l1 l2 :
  mapM f (l1 ++ l2) = (x ← mapM f l1; y ← mapM f l2; Ok (x ++ y)).
Proof.
  induction l1 as [|a l1 IH]; simpl.
  - destruct (mapM f l2); reflexivity.
  - destruct (f a); [|reflexivity]. simpl. rewrite IH.
    destruct (mapM f l1); [|reflexivity]. simpl.
    destruct (mapM f l2); reflexivity.
Qed.

(** X6.  The annotation text of an item is the concatenation, in order, of
    what its annotations contribute one by one: annotations that are not
    boxes and boxes without a label contribute nothing, so leaving them
    out does not change the text, an item without labelled boxes gets an
    empty file, and the text of two annotation lists in a row is the text
    of the first followed by the text of the second. *)
Theorem X6_yolo_annotation_text (width height : Z) (anns more : list Annotation) :
  yolo_annotation_of width height (List.filter labelled_bbox anns)
  = yolo_annotation_of width height anns
  /\ (List.filter labelled_bbox anns = [] ->
      yolo_annotation_of width height anns = Ok "")
  /\ yolo_annotation_of width height (anns ++ more)
     = (x ← yolo_annotation_of width height anns;
        y ← yolo_annotation_of width height more;
        Ok (x +:+ y)).
Proof.
  assert (Hfilter : yolo_annotation_of width height (List.filter labelled_bbox anns)
                    = yolo_annotation_of width height anns).
  { rewrite !yolo_annotation_lines.
    induction anns as [|a anns IH]; [reflexivity|].
    cbn [List.filter mapM]. destruct (labelled_bbox a) eqn:Ha.
    - cbn [mapM]. destruct (yolo_line width height a); [|reflexivity]. simpl.
      destruct (mapM _ (List.filter labelled_bbox anns)),
        (mapM _ anns); simpl in *; congruence.
    - rewrite (yolo_line_unlabelled _ _ _ Ha). simpl. rewrite IH.
      destruct (mapM _ anns); reflexivity. }
  split; [exact Hfilter|]. split.
  - intros Hnone. rewrite <- Hfilter, Hnone. reflexivity.
  - rewrite !yolo_annotation_lines, mapM_app.
    destruct (mapM _ anns); [|reflexivity]. simpl.
    destruct (mapM _ more); [|reflexivity]. simpl.
    rewrite concat_app_str. reflexivity.
Qed.

(** Only the labelled box of a mixed item leaves a line. *)
Example yolo_annotation_of_mixed_item :
  yolo_annotation_of 100 50 Mixed.annotations
  = Ok ("1 0.200000 0.400000 0.200000 0.400000" +:+ nl)
  /\ List.filter labelled_bbox Mixed.annotations = [Mixed.labelled].
Proof. split; vm_compute; reflexivity. Qed.

(** X7.  The line format needs the image of every item: for an item
    without an image, with images not being saved, the loop body raises
    [AttributeError] before it writes anything, and the export of the
    subset ends there, having created only the subset directory: no
    annotation file and no list file. *)
Theorem X7_yolo_item_without_image (self : YoloConverter) (item : DatasetItem)
    (Himage : image item = None) (Hsave : yolo_save_images self = false) :
  (forall subset_dir image_paths w,
     yolo_item self subset_dir image_paths (Ok item) w
     = (w, Raise AttributeError))
  /\ (forall save_dir lists name rest categories w,
        yolo_export self save_dir lists name
          (mkDataset (Ok item :: rest) categories) w
        = (mkWorld (files w)
             ({[PyStr.path_join save_dir ("obj_" +:+ name +:+ "_data")]} ∪ dirs w)
             (warnings w),
           Raise AttributeError)).
Proof.
  assert (Hitem : forall subset_dir image_paths w,
            yolo_item self subset_dir image_paths (Ok item) w
            = (w, Raise AttributeError)).
  { intros subset_dir image_paths w.
    unfold yolo_item, image_shape, mbind, IO_bind, lift, mret, IO_ret.
    rewrite Hsave, Himage. reflexivity. }
  split; [exact Hitem|].
  intros save_dir lists name rest categories w.
  unfold yolo_export. unfold mbind at 1, IO_bind at 1, makedirs at 1.
  unfold mbind at 1, IO_bind at 1. cbn [ds_iter].
  rewrite io_fold_cons, Hitem. reflexivity.
Qed.

(** The theorem on an image-less item with a labelled box. *)
Lemma X7_yolo_item_without_image_witness :
  yolo_item (mkYoloConverter None false false) "out/obj_train_data" []
    (Ok NoImageItem.item) empty_world
  = (empty_world, Raise AttributeError).
Proof.
  exact (proj1 (X7_yolo_item_without_image (mkYoloConverter None false false)
                  NoImageItem.item eq_refl eq_refl)
           "out/obj_train_data" [] empty_world).
Defined.

(** ** Records of the record format *)

Lemma tf_boxes_lengths get_label get_label_id width height boxes
    xmins xmaxs ymins ymaxs texts classes :
  tf_boxes get_label get_label_id width height boxes
  = Ok (xmins, xmaxs, ymins, ymaxs, texts, classes) ->
  length xmins = length boxes /\ length xmaxs = length boxes
  /\ length ymins = length boxes /\ length ymaxs = length boxes
  /\ length texts = length boxes /\ length classes = length boxes.
Proof.
  unfold tf_boxes.
  match goal with |- foldM ?f _ _ = _ -> _ => set (step := f) end.
  assert (Hstep : forall a1 a2 a3 a4 a5 a6 box b1 b2 b3 b4 b5 b6,
            step (a1, a2, a3, a4, a5, a6) box = Ok (b1, b2, b3, b4, b5, b6) ->
            length b1 = S (length a1) /\ length b2 = S (length a2)
            /\ length b3 = S (length a3) /\ length b4 = S (length a4)
            /\ length b5 = S (length a5) /\ length b6 = S (length a6)).
  { intros a1 a2 a3 a4 a5 a6 box b1 b2 b3 b4 b5 b6. subst step. cbv beta iota.
    destruct (get_label (label (common box))); [|discriminate]. simpl.
    destruct (points_of box) as [pts|]; [|discriminate]. simpl.
    destruct (index pts 0); [|discriminate]. simpl.
    destruct (truediv _ _); [|discriminate]. simpl.
    destruct (index pts 2); [|discriminate]. simpl.
    destruct (truediv _ _); [|discriminate]. simpl.
    destruct (index pts 1); [|discriminate]. simpl.
    destruct (truediv _ _); [|discriminate]. simpl.
    destruct (index pts 3); [|discriminate]. simpl.
    destruct (truediv _ _); [|discriminate]. simpl.
    destruct (get_label_id (label (common box))); [|discriminate]. simpl.
    intros [= <- <- <- <- <- <-]. rewrite !length_app. simpl.
    repeat split; lia. }
  clearbody step.
  assert (Hgen : forall boxes a1 a2 a3 a4 a5 a6 b1 b2 b3 b4 b5 b6,
            foldM step (a1, a2, a3, a4, a5, a6) boxes
            = Ok (b1, b2, b3, b4, b5, b6) ->
            length b1 = (length a1 + length boxes)%nat
            /\ length b2 = (length a2 + length boxes)%nat
            /\ length b3 = (length a3 + length boxes)%nat
            /\ length b4 = (length a4 + length boxes)%nat
            /\ length b5 = (length a5 + length boxes)%nat
            /\ length b6 = (length a6 + length boxes)%nat).
  { clear boxes. induction boxes as [|box boxes IH];
      intros a1 a2 a3 a4 a5 a6 b1 b2 b3 b4 b5 b6.
    - intros [= <- <- <- <- <- <-]. simpl. repeat split; lia.
    - cbn [foldM].
      destruct (step (a1, a2, a3, a4, a5, a6) box)
        as [[[[[[c1 c2] c3] c4] c5] c6]|] eqn:Hbox; [|discriminate].
      simpl. intros Hrest.
      apply Hstep in Hbox as (H1 & H2 & H3 & H4 & H5 & H6).
      apply IH in Hrest as (G1 & G2 & G3 & G4 & G5 & G6).
      simpl. repeat split; lia. }
  intros H. apply Hgen in H. simpl in H. exact H.
Qed.

Section TfExample.

Variable IMAGE_EXT IMAGE_FORMAT : string.
Variable encode_image : Image -> string.

(** X8.  A record that [_make_tf_example] returns always holds the source
    id and the file name [<id><ext>]; it holds the encoded image exactly
    when images are saved and the item has one; and it holds the six box
    lists exactly when the item has a box annotation: none of the six
    without a box, and otherwise all six, each with one entry per box. *)
Theorem X8_tf_example_features (item : DatasetItem)
    (get_label_id : option nat -> result Z)
    (get_label : option nat -> result string) (save_images : bool)
    (features : TfExample)
    (Hok : _make_tf_example IMAGE_EXT IMAGE_FORMAT encode_image item
             get_label_id get_label save_images = Ok features) :
  features !! "image/source_id" = Some (BytesList [str_of_key (item_id item)])
  /\ features !! "image/filename"
     = Some (BytesList [str_of_key (item_id item) +:+ IMAGE_EXT])
  /\ features !! "image/encoded"
     = (if save_images
        then (fun img => BytesList [encode_image img]) <$> image item
        else None)
  /\ (boxes_of item = [] ->
      features !! "image/object/bbox/xmin" = None
      /\ features !! "image/object/bbox/xmax" = None
      /\ features !! "image/object/bbox/ymin" = None
      /\ features !! "image/object/bbox/ymax" = None
      /\ features !! "image/object/class/text" = None
      /\ features !! "image/object/class/label" = None)
  /\ (boxes_of item <> [] ->
      exists xmins xmaxs ymins ymaxs texts classes,
        features !! "image/object/bbox/xmin" = Some (FloatList xmins)
        /\ features !! "image/object/bbox/xmax" = Some (FloatList xmaxs)
        /\ features !! "image/object/bbox/ymin" = Some (FloatList ymins)
        /\ features !! "image/object/bbox/ymax" = Some (FloatList ymaxs)
        /\ features !! "image/object/class/text" = Some (BytesList texts)
        /\ features !! "image/object/class/label" = Some (Int64List classes)
        /\ length xmins = length (boxes_of item)
        /\ length xmaxs = length (boxes_of item)
        /\ length ymins = length (boxes_of item)
        /\ length ymaxs = length (boxes_of item)
        /\ length texts = length (boxes_of item)
        /\ length classes = length (boxes_of item)).
Proof.
  unfold _make_tf_example in Hok. fold (boxes_of item) in Hok.
  destruct (tf_image_size item) as [[height width]|]; [|discriminate Hok].
  cbn [mbind result_bind] in Hok.
  destruct (tf_boxes get_label get_label_id width height (boxes_of item))
    as [[[[[[xmins xmaxs] ymins] ymaxs] texts] classes]|] eqn:Hboxes;
    [|discriminate Hok].
  cbn [mbind result_bind] in Hok. injection Hok as <-.
  apply tf_boxes_lengths in Hboxes as (H1 & H2 & H3 & H4 & H5 & H6).
  destruct (boxes_of item) as [|box boxes] eqn:Hb.
  - destruct (image item) as [img|], save_images;
      (split; [reflexivity|]); (split; [reflexivity|]);
      (split; [reflexivity|]);
      (split; [intros _; repeat (split; [reflexivity|]); reflexivity|]); done.
  - destruct (image item) as [img|], save_images;
      (split; [reflexivity|]); (split; [reflexivity|]);
      (split; [reflexivity|]); (split; [discriminate|]); intros _;
      exists xmins, xmaxs, ymins, ymaxs, texts, classes;
      repeat (split; [reflexivity|]); tauto.
Qed.

End TfExample.

(** The theorem on the mixed item: two boxes among four annotations. *)
Lemma X8_tf_example_witness :
  exists features,
    _make_tf_example ".jpg" "jpeg" (fun _ => "") mixed_item
      (tf_map_label_id three_labels (label_ids_of 1 three_labels))
      (tf_get_label three_labels) false = Ok features
    /\ features !! "image/filename" = Some (BytesList ["7.jpg"])
    /\ features !! "image/encoded" = None.
Proof.
  assert (Hsome : is_ok (_make_tf_example ".jpg" "jpeg" (fun _ => "") mixed_item
                           (tf_map_label_id three_labels
                              (label_ids_of 1 three_labels))
                           (tf_get_label three_labels) false) = true)
    by (vm_compute; reflexivity).
  destruct (_make_tf_example ".jpg" "jpeg" (fun _ => "") mixed_item
              (tf_map_label_id three_labels (label_ids_of 1 three_labels))
              (tf_get_label three_labels) false) as [features|e] eqn:Hok;
    [|discriminate Hsome].
  exists features. split; [reflexivity|].
  destruct (X8_tf_example_features ".jpg" "jpeg" (fun _ => "") mixed_item
              _ _ false features Hok) as (_ & Hname & Hencoded & _).
  split; [exact Hname | exact Hencoded].
Defined.

Section RecordFiles.

Variables TF_DEFAULT IMAGE_EXT IMAGE_FORMAT LABELMAP_FILE : string.
Variable encode_image : Image -> string.

Lemma tf_export_adds_record self save_dir name subset w :
  (forall p, is_record_file w p = true ->
             p <> PyStr.path_join save_dir LABELMAP_FILE) ->
  let out := tf_export IMAGE_EXT IMAGE_FORMAT LABELMAP_FILE encode_image self
               save_dir name subset w in
  out.2 = Ok tt ->
  forall p, is_record_file out.1 p = true
            <-> p = record_path save_dir name \/ is_record_file w p = true.
Proof.
  intros Hinv out. subst out. unfold tf_export, categories_label.
  destruct (cat_label (ds_categories subset)) as [lc|]; [|discriminate].
  unfold mbind at 1, IO_bind at 1, lift at 1.
  unfold mbind at 1, IO_bind at 1, write_text at 1.
  unfold mbind at 1, IO_bind at 1, open_records at 1.
  cbn [files dirs warnings]. intros _.
  apply (io_fold_invariant
           (fun w' => forall p, is_record_file w' p = true
                      <-> p = record_path save_dir name
                          \/ is_record_file w p = true)).
  - intros [] next w' Hw' p.
    etrans;
      [exact (tf_write_records IMAGE_EXT IMAGE_FORMAT encode_image self lc
                (record_path save_dir name) next w' p)|].
    rewrite Hw'. tauto.
  - intros p. unfold is_record_file at 1. cbn [files].
    destruct (decide (p = record_path save_dir name)) as [->|Hne].
    + rewrite lookup_insert_eq. tauto.
    + rewrite lookup_insert_ne by congruence.
      destruct (decide (p = PyStr.path_join save_dir LABELMAP_FILE)) as [->|Hne'].
      * rewrite lookup_insert_eq. split; [discriminate|].
        intros [?|Hp]; [done|]. by apply Hinv in Hp.
      * rewrite lookup_insert_ne by congruence. unfold is_record_file. tauto.
Qed.

Lemma tf_subsets_add_records self extractor save_dir subsets :
  (forall name, PyStr.path_join save_dir LABELMAP_FILE
                <> record_path save_dir name) ->
  forall w,
    (forall p, is_record_file w p = true ->
               p <> PyStr.path_join save_dir LABELMAP_FILE) ->
    let out := io_for subsets
                 (tf_subset TF_DEFAULT IMAGE_EXT IMAGE_FORMAT LABELMAP_FILE
                    encode_image self extractor save_dir) w in
    out.2 = Ok tt ->
    forall p, is_record_file out.1 p = true
              <-> (exists s, s ∈ subsets
                             /\ p = record_path save_dir
                                      (tf_subset_name TF_DEFAULT s))
                  \/ is_record_file w p = true.
Proof.
  intros Hlm. unfold io_for.
  induction subsets as [|s subsets IH]; intros w Hinv; cbv zeta.
  - intros _ p. simpl. split; [tauto|].
    intros [(s & []%elem_of_nil & _)|?]; assumption.
  - rewrite io_fold_cons.
    destruct (tf_subset TF_DEFAULT IMAGE_EXT IMAGE_FORMAT LABELMAP_FILE
                encode_image self extractor save_dir s w)
      as [w1 [[]|e]] eqn:Hstep; [|discriminate].
    assert (Hw1 : forall p, is_record_file w1 p = true
                            <-> p = record_path save_dir
                                      (tf_subset_name TF_DEFAULT s)
                                \/ is_record_file w p = true).
    { unfold tf_subset in Hstep. unfold tf_subset_name.
      destruct (truthy s).
      - unfold mbind, IO_bind, lift in Hstep.
        destruct (ex_get_subset extractor (default "" s)) as [ds|];
          [|discriminate Hstep].
        pose proof (tf_export_adds_record self save_dir (default "" s) ds w Hinv)
          as Hexp.
        fold (@mbind IO _) in Hstep. rewrite Hstep in Hexp.
        exact (Hexp eq_refl).
      - pose proof (tf_export_adds_record self save_dir TF_DEFAULT
                      (ex_dataset extractor) w Hinv) as Hexp.
        rewrite Hstep in Hexp. exact (Hexp eq_refl). }
    intros Hrest p.
    assert (Hinv1 : forall q, is_record_file w1 q = true ->
                              q <> PyStr.path_join save_dir LABELMAP_FILE).
    { intros q Hq. apply Hw1 in Hq as [->|Hq]; [|by apply Hinv].
      intros Heq. exact (Hlm _ (eq_sym Heq)). }
    rewrite (IH w1 Hinv1 Hrest p), Hw1. split.
    + intros [(s' & Hs' & ->)|[->|Hp]].
      * left. exists s'. split; [right; exact Hs' | reflexivity].
      * left. exists s. split; [left | reflexivity].
      * right. exact Hp.
    + intros [(s' & Hs' & ->)|Hp].
      * apply elem_of_cons in Hs' as [->|Hs'].
        -- right. left. reflexivity.
        -- left. exists s'. split; [exact Hs' | reflexivity].
      * right. right. exact Hp.
Qed.

(** X9.  When the record-format conversion returns, it leaves one record
    file per subset and no other: [<subset>.tfrecord] for each declared
    subset (the default name for an unnamed one), given an output tree
    without record files and a label map file that is not itself named
    like a record file. *)
Theorem X9_tf_one_record_file_per_subset (self : DetectionApiConverter)
    (extractor : Extractor) (save_dir : string) (w w' : World)
    (Hlabelmap : forall name, PyStr.path_join save_dir LABELMAP_FILE
                              <> record_path save_dir name)
    (Hempty : forall p, is_record_file w p = false)
    (Hdone : DetectionApiConverter_call TF_DEFAULT IMAGE_EXT IMAGE_FORMAT
               LABELMAP_FILE encode_image self extractor save_dir w
             = (w', Ok tt)) :
  forall p,
    is_record_file w' p = true
    <-> exists s, s ∈ subsets_or_default extractor
                  /\ p = record_path save_dir (tf_subset_name TF_DEFAULT s).
Proof.
  intros p. unfold DetectionApiConverter_call in Hdone.
  unfold mbind at 1, IO_bind at 1, makedirs at 1 in Hdone.
  pose proof (tf_subsets_add_records self extractor save_dir
                (subsets_or_default extractor) Hlabelmap
                (mkWorld (files w) ({[save_dir]} ∪ dirs w) (warnings w))) as H.
  cbv zeta in H. rewrite Hdone in H.
  rewrite H; [|intros q Hq; change (is_record_file w q = true) in Hq;
               by rewrite Hempty in Hq | reflexivity].
  split; [|by left]. intros [?|Hp]; [assumption|].
  change (is_record_file w p = true) in Hp. by rewrite Hempty in Hp.
Qed.

End RecordFiles.

(** The theorem on the subsets "extra" and "train". *)
Lemma X9_tf_record_files_witness :
  is_record_file
    (DetectionApiConverter_call "default" ".jpg" "jpeg" "label_map.pbtxt"
       (fun _ => "") (mkDetectionApiConverter false) Unnamed.named "out"
       empty_world).1 "out/extra.tfrecord" = true
  /\ is_record_file
       (DetectionApiConverter_call "default" ".jpg" "jpeg" "label_map.pbtxt"
          (fun _ => "") (mkDetectionApiConverter false) Unnamed.named "out"
          empty_world).1 "out/train.tfrecord" = true.
Proof.
  assert (Hlm : forall name, PyStr.path_join "out" "label_map.pbtxt"
                             <> record_path "out" name).
  { intros name Heq.
    assert (Hend : PyStr.endswith (record_path "out" name) ".tfrecord" = true)
      by (apply endswith_path_join, endswith_app; reflexivity).
    rewrite <- Heq in Hend. discriminate Hend. }
  assert (Hres : (DetectionApiConverter_call "default" ".jpg" "jpeg"
                    "label_map.pbtxt" (fun _ => "")
                    (mkDetectionApiConverter false) Unnamed.named "out"
                    empty_world).2 = Ok tt) by (vm_compute; reflexivity).
  destruct (DetectionApiConverter_call "default" ".jpg" "jpeg" "label_map.pbtxt"
              (fun _ => "") (mkDetectionApiConverter false) Unnamed.named "out"
              empty_world) as [w' r] eqn:Hcall.
  cbn [fst snd] in *. subst r.
  pose proof (X9_tf_one_record_file_per_subset "default" ".jpg" "jpeg"
                "label_map.pbtxt" (fun _ => "") (mkDetectionApiConverter false)
                Unnamed.named "out" empty_world w' Hlm (fun _ => eq_refl) Hcall)
    as Hfiles.
  split; apply Hfiles.
  - exists (Some "extra"). split; [|reflexivity].
    change (Some "extra" ∈ [Some "extra"; Some "train"]). left.
  - exists (Some "train"). split; [|reflexivity].
    change (Some "train" ∈ [Some "extra"; Some "train"]). right. left.
Defined.

(** ** The importer on directories it cannot use *)

Lemma find_subsets_step_skip ann_dir acc f :
  is_json ann_dir f = false ->
  CocoImporter.find_subsets_step ann_dir acc f = Ok acc.
Proof.
  unfold is_json, CocoImporter.find_subsets_step. intros ->. reflexivity.
Qed.

Lemma find_subsets_filter ann_dir listing acc :
  foldM (CocoImporter.find_subsets_step ann_dir) acc listing
  = foldM (CocoImporter.find_subsets_step ann_dir) acc
      (List.filter (is_json ann_dir) listing).
Proof.
  revert acc. induction listing as [|f listing IH]; intros acc; [reflexivity|].
  cbn [List.filter]. destruct (is_json ann_dir f) eqn:Hf.
  - cbn [foldM]. destruct (CocoImporter.find_subsets_step ann_dir acc f);
      [apply IH | reflexivity].
  - cbn [foldM]. rewrite (find_subsets_step_skip _ _ _ Hf). apply IH.
Qed.

(** X10.  The importer looks only at the entries of the annotations
    directory that end in [.json]: other entries never change the result
    or raise.  Without the directory it raises [NotADirectoryError] naming
    the path it looked for; with the directory but no [.json] entry
    [find_subsets] returns no subset and the importer raises
    "Failed to find 'coco' dataset at '<path>'". *)
Theorem X10_importer_ignores_other_files (isdir : string -> bool)
    (listdir : string -> list string) (dataset_dir : string) :
  let ann_dir := PyStr.path_join dataset_dir CocoPath.ANNOTATIONS_DIR in
  (isdir ann_dir = false ->
   CocoImporter.find_subsets isdir listdir dataset_dir
   = Raise (NotADirectoryError
              ("COCO annotations directory not found at " +:+ dquote
                 +:+ ann_dir +:+ dquote))
   /\ CocoImporter.call isdir listdir dataset_dir
      = Raise (NotADirectoryError
                 ("COCO annotations directory not found at " +:+ dquote
                    +:+ ann_dir +:+ dquote)))
  /\ CocoImporter.find_subsets isdir listdir dataset_dir
     = CocoImporter.find_subsets isdir
         (fun d => List.filter (is_json d) (listdir d)) dataset_dir
  /\ (isdir ann_dir = true ->
      List.filter (is_json ann_dir) (listdir ann_dir) = [] ->
      CocoImporter.find_subsets isdir listdir dataset_dir = Ok []
      /\ CocoImporter.call isdir listdir dataset_dir
         = Raise (Exception ("Failed to find 'coco' dataset at '"
                             +:+ dataset_dir +:+ "'"))).
Proof.
  intros ann_dir. subst ann_dir.
  unfold CocoImporter.call, CocoImporter.find_subsets. split; [|split].
  - intros ->. split; reflexivity.
  - destruct (isdir _); [|reflexivity]. cbn [negb]. apply find_subsets_filter.
  - intros -> Hnone. cbn [negb]. rewrite find_subsets_filter, Hnone.
    split; reflexivity.
Qed.

Lemma rsplit_absent c s :
  PyStr.contains_char c s = false -> PyStr.rsplit (String c "") s = [s].
Proof. intros H. unfold PyStr.rsplit. rewrite (rsplit1_absent c s H). done. Qed.

(** X11.  A [.json] entry whose name without the extension has no
    underscore is never accepted: when that name is the name of a task
    (as in [instances.json]) the missing subset part raises [IndexError],
    otherwise the name is reported as an unknown task. *)
Theorem X11_importer_file_without_subset (ann_dir ann_file : string)
    (acc : CocoImporter.subsets_dict)
    (Hjson : is_json ann_dir ann_file = true)
    (Hplain : PyStr.contains_char "_" (stem ann_file) = false) :
  (forall task, CocoTask.name task = stem ann_file ->
     CocoImporter.find_subsets_step ann_dir acc ann_file = Raise IndexError)
  /\ (stem ann_file ∉ (CocoTask.name <$> CocoTask.members) ->
      CocoImporter.find_subsets_step ann_dir acc ann_file
      = Raise (Exception (CocoImporter.unknown_task_message (stem ann_file)))).
Proof.
  unfold is_json, stem in *. unfold CocoImporter.find_subsets_step.
  rewrite Hjson, (rsplit_absent "_" _ Hplain). cbn [negb]. split.
  - intros task <-. simpl. rewrite of_name_name. reflexivity.
  - intros Hunknown. simpl. rewrite (of_name_unknown _ Hunknown). reflexivity.
Qed.

(** The theorem on [instances.json] and on [notes.json]. *)
Lemma X11_importer_file_without_subset_witness :
  CocoImporter.find_subsets_step "/data/annotations" [] "instances.json"
  = Raise IndexError
  /\ CocoImporter.find_subsets_step "/data/annotations" [] "notes.json"
     = Raise (Exception "Unknown subset type notes, only known are: instances, person_keypoints, captions, labels, image_info").
Proof.
  split.
  - exact (proj1 (X11_importer_file_without_subset "/data/annotations"
                    "instances.json" [] eq_refl eq_refl)
             CocoTask.instances eq_refl).
  - refine (proj2 (X11_importer_file_without_subset "/data/annotations"
                     "notes.json" [] eq_refl eq_refl) _).
    apply (bool_decide_unpack _). vm_compute. exact I.
Defined.

(** ** From the importer to the extractor *)

Lemma endswith_char_split c s :
  PyStr.endswith s (String c "") = true -> exists s', s = s' +:+ String c "".
Proof.
  unfold PyStr.endswith. cbn [String.length].
  induction s as [|d s IH]; [discriminate|].
  cbn [String.length]. rewrite Nat.sub_succ, Nat.sub_0_r.
  intros [_ Heq]%andb_true_iff. destruct s as [|e s].
  - simpl in Heq. destruct (Ascii.eqb_spec d c) as [->|]; [|discriminate Heq].
    exists "". reflexivity.
  - cbn [String.length PyStr.drop] in Heq.
    destruct IH as [s' ->].
    + apply andb_true_iff. split; [reflexivity|].
      cbn [String.length]. rewrite Nat.sub_succ, Nat.sub_0_r. exact Heq.
    + exists (String d s'). reflexivity.
Qed.

Lemma basename_path_join a f :
  PyStr.contains_char "/" f = false ->
  PyStr.basename (PyStr.path_join a f) = f.
Proof.
  intros Hf. unfold PyStr.path_join.
  assert (Hprefix : String.prefix "/" f = false).
  { destruct f as [|c f]; [reflexivity|]. rewrite prefix_char.
    simpl in Hf. apply orb_false_iff in Hf as [Hc _]. exact Hc. }
  rewrite Hprefix. unfold PyStr.basename.
  destruct (String.eqb_spec a "") as [->|Ha]; cbn [orb].
  - change ("" +:+ f) with f. rewrite (rsplit1_absent "/" f Hf). reflexivity.
  - destruct (PyStr.endswith a "/") eqn:Hend.
    + destruct (endswith_char_split "/" a Hend) as [a' ->].
      rewrite app_assoc_str. change ("/" +:+ f) with (String "/" f).
      rewrite (rsplit1_last "/" a' f Hf). reflexivity.
    + change ("/" +:+ f) with (String "/" f).
      rewrite (rsplit1_last "/" a f Hf). reflexivity.
Qed.

Lemma annotation_file_name_plain task subset :
  PyStr.contains_char "/" subset = false ->
  PyStr.contains_char "/" (annotation_file_name task subset) = false.
Proof.
  intros Hsl. unfold annotation_file_name.
  rewrite !contains_char_app, Hsl. destruct task; reflexivity.
Qed.

Lemma annotation_file_name_stem task subset :
  PyStr.contains_char "_" subset = false ->
  PyStr.contains_char "/" subset = false ->
  (PyStr.splitext (annotation_file_name task subset)).1
  = CocoTask.name task +:+ "_" +:+ subset.
Proof.
  intros Hus Hsl.
  pose proof (proj2 (annotation_file_name_parts task subset Hus Hsl)) as Hparts.
  unfold annotation_file_name in *. unfold PyStr.splitext in *.
  rewrite (rsplit1_absent "/") in *
    by (rewrite !contains_char_app, Hsl; destruct task; reflexivity).
  replace (CocoTask.name task +:+ "_" +:+ subset +:+ ".json")
    with ((CocoTask.name task +:+ "_" +:+ subset) +:+ String "." "json")
    by (rewrite !app_assoc_str; reflexivity).
  rewrite (rsplit1_last "." _ "json" eq_refl).
  replace (PyStr.all_chars "." (CocoTask.name task +:+ "_" +:+ subset))
    with false by (destruct task; reflexivity).
  reflexivity.
Qed.

Lemma find_subsets_step_named ann_dir acc task subset :
  PyStr.contains_char "_" subset = false ->
  PyStr.contains_char "/" subset = false ->
  CocoImporter.find_subsets_step ann_dir acc (annotation_file_name task subset)
  = Ok (PyDict.set acc subset
          (PyDict.set (default [] (PyDict.get acc subset)) task
             (PyStr.path_join ann_dir (annotation_file_name task subset)))).
Proof.
  intros Hus Hsl.
  destruct (annotation_file_name_parts task subset Hus Hsl) as [Hend Hparts].
  unfold CocoImporter.find_subsets_step.
  rewrite (endswith_path_join _ _ _ Hend), Hparts. simpl.
  rewrite of_name_name. reflexivity.
Qed.

(** X12.  The importer and the extractor read a file name alike.  For the
    one annotation file [<task>_<subset>.json] of a directory, the
    importer registers one source, named [<task>_<subset>], with the
    file's path as url and the extractor kind of the task; and an
    extractor that is constructed on that path has exactly one subset,
    [<subset>], the one under which the importer filed the path. *)
Theorem X12_importer_and_extractor_agree_on_subset
    (isdir : string -> bool) (listdir : string -> list string)
    (json_files : string -> option CocoDataset) (dataset_dir : string)
    (task : CocoTask.t) (subset : string) (merge_instance_polygons : bool)
    (self : CocoExtractor)
    (Hunderscore : PyStr.contains_char "_" subset = false)
    (Hslash : PyStr.contains_char "/" subset = false)
    (Hdir : isdir (PyStr.path_join dataset_dir CocoPath.ANNOTATIONS_DIR) = true)
    (Hlist : listdir (PyStr.path_join dataset_dir CocoPath.ANNOTATIONS_DIR)
             = [annotation_file_name task subset])
    (Hinit : CocoExtractor_init json_files
               (PyStr.path_join
                  (PyStr.path_join dataset_dir CocoPath.ANNOTATIONS_DIR)
                  (annotation_file_name task subset))
               task merge_instance_polygons = Ok self) :
  let path :=
    PyStr.path_join (PyStr.path_join dataset_dir CocoPath.ANNOTATIONS_DIR)
      (annotation_file_name task subset) in
  CocoImporter.find_subsets isdir listdir dataset_dir
  = Ok [(subset, [(task, path)])]
  /\ CocoImporter.call isdir listdir dataset_dir
     = Ok [CocoImporter.mkSource (CocoTask.name task +:+ "_" +:+ subset) path
             (CocoImporter._COCO_EXTRACTORS task)]
  /\ PyDict.keys (_subsets self) = [subset]
  /\ (exists sub, _subsets self = [(subset, sub)]
                  /\ sub_name sub = subset
                  /\ PyDict.keys (loaders sub) = [task])
  /\ _task self = task.
Proof.
  intros path.
  assert (Hfind : CocoImporter.find_subsets isdir listdir dataset_dir
                  = Ok [(subset, [(task, path)])]).
  { unfold CocoImporter.find_subsets. rewrite Hdir, Hlist. cbn [negb foldM].
    rewrite (find_subsets_step_named _ [] task subset Hunderscore Hslash).
    reflexivity. }
  assert (Hbase : PyStr.basename path = annotation_file_name task subset).
  { apply basename_path_join, annotation_file_name_plain, Hslash. }
  split; [exact Hfind|]. split.
  - unfold CocoImporter.call. rewrite Hfind. simpl. fold path.
    rewrite Hbase, (annotation_file_name_stem task subset Hunderscore Hslash).
    reflexivity.
  - unfold CocoExtractor_init in Hinit. fold path in Hinit.
    rewrite Hbase in Hinit.
    rewrite (proj2 (annotation_file_name_parts task subset Hunderscore Hslash))
      in Hinit.
    destruct (index (PyStr.rsplit CocoPath.ANNOTATIONS_DIR path) 0)
      as [rootpath|]; [|discriminate Hinit].
    cbn [mbind result_bind index lookup list_lookup] in Hinit.
    destruct (_make_subset_loader json_files path) as [loader|];
      [|discriminate Hinit].
    cbn [mbind result_bind] in Hinit.
    destruct (_load_categories _) as [[categories label_map]|];
      [|discriminate Hinit].
    cbn [mbind result_bind] in Hinit. injection Hinit as <-.
    cbn [_subsets _task]. split; [reflexivity|]. split; [|reflexivity].
    eexists. split; [reflexivity|]. split; reflexivity.
Qed.

(** The theorem on [/data/annotations/instances_train.json]. *)
Lemma X12_importer_and_extractor_witness :
  CocoImporter.call (fun _ => true) (fun _ => ["instances_train.json"]) "/data"
  = Ok [CocoImporter.mkSource "instances_train"
          "/data/annotations/instances_train.json" "coco_instances"].
Proof.
  assert (Hok : is_ok (CocoExtractor_init (Scenario.json_files "" "" 0)
                         Scenario.path CocoTask.instances false) = true)
    by (vm_compute; reflexivity).
  destruct (CocoExtractor_init (Scenario.json_files "" "" 0) Scenario.path
              CocoTask.instances false) as [self|] eqn:Hinit;
    [|discriminate Hok].
  exact (proj1 (proj2
           (X12_importer_and_extractor_agree_on_subset (fun _ => true)
              (fun _ => ["instances_train.json"]) (Scenario.json_files "" "" 0)
              "/data" CocoTask.instances "train" false self
              eq_refl eq_refl eq_refl eq_refl Hinit))).
Defined.

(** ** Loading the label categories *)

Lemma load_label_fold cats i lc lm :
  foldM (fun '(categories, label_map) '(idx, cat) =>
           let label_map := <[c_id cat := idx]> label_map in
           name ← subscript "name" (c_name cat);
           parent ← subscript "supercategory" (c_supercategory cat);
           Ok (LabelCategories_add categories name parent, label_map))
        (lc, lm) (enumerate_from i cats)
  = (rows ← mapM category_row cats;
     Ok (mkLabelCategories (items lc ++ rows), ids_map i cats lm)).
Proof.
  revert i lc lm. induction cats as [|cat cats IH]; intros i lc lm.
  - simpl. rewrite app_nil_r. destruct lc. reflexivity.
  - cbn [enumerate_from foldM mapM].
    assert (Hrow : category_row cat
                   = (name ← subscript "name" (c_name cat);
                      parent ← subscript "supercategory" (c_supercategory cat);
                      Ok (name, parent))) by reflexivity.
    rewrite Hrow. clear Hrow.
    destruct (c_name cat) as [name|]; [|reflexivity]. simpl.
    destruct (c_supercategory cat) as [parent|]; [|reflexivity]. simpl.
    rewrite IH. destruct (mapM category_row cats); [|reflexivity]. simpl.
    unfold LabelCategories_add. simpl. rewrite <- app_assoc. reflexivity.
Qed.

Lemma load_label_categories_rows loader :
  _load_label_categories loader
  = (cats ← loadCats loader (getCatIds loader);
     rows ← mapM category_row cats;
     Ok (mkLabelCategories rows, ids_map 0 cats ∅)).
Proof.
  unfold _load_label_categories.
  destruct (loadCats loader (getCatIds loader)) as [cats|]; [|reflexivity].
  simpl. unfold enumerate. apply (load_label_fold cats 0 (mkLabelCategories [])).
Qed.

Lemma ids_map_other cats i m id :
  id ∉ c_id <$> cats -> ids_map i cats m !! id = m !! id.
Proof.
  unfold ids_map. revert i m. induction cats as [|cat cats IH]; intros i m Hid.
  - reflexivity.
  - rewrite fmap_cons in Hid. apply not_elem_of_cons in Hid as [Hne Hid].
    cbn [enumerate_from foldl fst snd]. rewrite (IH _ _ Hid).
    apply lookup_insert_ne. congruence.
Qed.

Lemma ids_map_distinct cats i m k cat :
  NoDup (c_id <$> cats) -> cats !! k = Some cat ->
  ids_map i cats m !! c_id cat = Some (i + k)%nat.
Proof.
  revert i m k. induction cats as [|cat0 cats IH]; intros i m k Hnd Hk;
    [discriminate|].
  rewrite fmap_cons in Hnd. apply NoDup_cons in Hnd as [Hfirst Hnd].
  destruct k as [|k]; simpl in Hk.
  - injection Hk as ->. unfold ids_map. cbn [enumerate_from foldl fst snd].
    fold (ids_map (S i) cats (<[c_id cat := i]> m)).
    rewrite (ids_map_other _ _ _ _ Hfirst), lookup_insert_eq. f_equal. lia.
  - unfold ids_map. cbn [enumerate_from foldl fst snd].
    fold (ids_map (S i) cats (<[c_id cat0 := i]> m)).
    rewrite (IH (S i) _ k Hnd Hk). f_equal. lia.
Qed.

Lemma mapM_lookup {A B} (f : A -> result B) l bs k a :
  mapM f l = Ok bs -> l !! k = Some a ->
  exists b, f a = Ok b /\ bs !! k = Some b.
Proof.
  revert bs k. induction l as [|a0 l IH]; intros bs k Hall Hk; [discriminate|].
  cbn [mapM] in Hall. destruct (f a0) as [b0|] eqn:Hb0; [|discriminate].
  destruct (mapM f l) as [bs'|]; [|discriminate]. injection Hall as <-.
  destruct k as [|k]; simpl in Hk.
  - injection Hk as ->. exists b0. split; [exact Hb0 | reflexivity].
  - destruct (IH bs' k eq_refl Hk) as (b & Hb & Hbs). exists b. split; done.
Qed.

Lemma mapM_length {A B} (f : A -> result B) l bs :
  mapM f l = Ok bs -> length bs = length l.
Proof.
  revert bs. induction l as [|a l IH]; intros bs; simpl.
  - intros [= <-]. reflexivity.
  - destruct (f a); [|discriminate]. destruct (mapM f l); [|discriminate].
    intros [= <-]. simpl. f_equal. by apply IH.
Qed.

(** X13.  Category ids, label indices and names agree.  When the category
    ids of the file are distinct and the label categories load, the label
    table has one row per category, in file order, with the category's
    name and supercategory; the id-to-index map sends the id of the
    [i]-th category to [i]; so a record whose category id is that of the
    [i]-th category gets label [i], and label [i] carries that category's
    name. *)
Theorem X13_category_id_to_label_to_name (loader : COCO)
    (cats : list CocoCategory) (label_categories : LabelCategories)
    (label_map : gmap Z nat) (self : CocoExtractor)
    (Hcats : loadCats loader (getCatIds loader) = Ok cats)
    (Hdistinct : NoDup (c_id <$> cats))
    (Hload : _load_label_categories loader = Ok (label_categories, label_map))
    (Hself : _label_map self = Some label_map) :
  length (items label_categories) = length cats
  /\ forall i cat,
       cats !! i = Some cat ->
       label_map !! c_id cat = Some i
       /\ (exists name parent,
             c_name cat = Some name /\ c_supercategory cat = Some parent
             /\ items label_categories !! i = Some (name, parent))
       /\ (forall ann,
             j_category_id ann = Some (c_id cat) -> c_id cat <> 0 ->
             _parse_label self ann = Ok (Some i)).
Proof.
  rewrite load_label_categories_rows, Hcats in Hload. simpl in Hload.
  destruct (mapM category_row cats) as [rows|] eqn:Hrows; [|discriminate].
  injection Hload as <- <-. cbn [items].
  split; [exact (mapM_length _ _ _ Hrows)|].
  intros i cat Hi.
  assert (Hid : ids_map 0 cats ∅ !! c_id cat = Some i)
    by exact (ids_map_distinct cats 0 ∅ i cat Hdistinct Hi).
  split; [exact Hid|]. split.
  - destruct (mapM_lookup _ _ _ _ _ Hrows Hi) as ([name parent] & Hrow & Hlook).
    unfold category_row in Hrow.
    destruct (c_name cat) as [n|]; [|discriminate].
    destruct (c_supercategory cat) as [p|]; [|discriminate].
    injection Hrow as <- <-. exists n, p. done.
  - intros ann Hann Hnz. unfold _parse_label. rewrite Hann, Hself, Hid.
    apply Z.eqb_neq in Hnz. rewrite Hnz. reflexivity.
Qed.

(** The theorem on the categories 3 ("cat") and 9 ("dog"): a record of
    category 9 gets label 1. *)
Lemma X13_category_id_witness :
  _parse_label Dogs.self
    (mkCocoAnn (Some 1) 7 (Some 9) None None None None None None)
  = Ok (Some 1%nat).
Proof.
  assert (Hnd : NoDup (c_id <$> Dogs.cats)).
  { apply (bool_decide_unpack _). vm_compute. exact I. }
  assert (Hload : _load_label_categories Dogs.loader
                  = Ok (mkLabelCategories [("cat", "animal"); ("dog", "animal")],
                        ids_map 0 Dogs.cats ∅)) by reflexivity.
  destruct (X13_category_id_to_label_to_name Dogs.loader Dogs.cats _ _
              Dogs.self eq_refl Hnd Hload eq_refl) as [_ Hcat].
  destruct (Hcat 1%nat _ eq_refl) as (_ & _ & Hlabel).
  apply Hlabel; [reflexivity | discriminate].
Defined.

(** X14.  Loading the label categories needs a name and a supercategory
    on every category: the load succeeds exactly when every category has
    both, and it fails with the [KeyError] of the first category that
    lacks one, "name" before "supercategory". *)
Theorem X14_label_categories_need_supercategory (loader : COCO)
    (cats : list CocoCategory)
    (Hcats : loadCats loader (getCatIds loader) = Ok cats) :
  (is_ok (_load_label_categories loader) = true
   <-> forall cat, cat ∈ cats ->
         is_Some (c_name cat) /\ is_Some (c_supercategory cat))
  /\ (forall before cat after,
        cats = before ++ cat :: after ->
        (forall c, c ∈ before ->
           is_Some (c_name c) /\ is_Some (c_supercategory c)) ->
        (c_name cat = None ->
         _load_label_categories loader = Raise (KeyError (StrKey "name")))
        /\ (is_Some (c_name cat) -> c_supercategory cat = None ->
            _load_label_categories loader
            = Raise (KeyError (StrKey "supercategory")))).
Proof.
  rewrite load_label_categories_rows, Hcats. cbn [mbind result_bind].
  assert (Hall : forall l,
            (forall c, c ∈ l -> is_Some (c_name c) /\ is_Some (c_supercategory c))
            -> exists rows, mapM category_row l = Ok rows).
  { induction l as [|c l IH]; intros Hl; [by exists []|].
    destruct (Hl c) as [[n Hn] [p Hp]]; [left|].
    destruct IH as [rows Hrows]; [intros c' Hc'; apply Hl; by right|].
    exists ((n, p) :: rows). cbn [mapM].
    assert (Hrow : category_row c = Ok (n, p))
      by (unfold category_row; rewrite Hn, Hp; reflexivity).
    rewrite Hrow, Hrows. reflexivity. }
  split.
  - split.
    + intros Hok cat Hcat.
      destruct (mapM category_row cats) as [rows|] eqn:Hrows; [|discriminate].
      apply list_elem_of_lookup in Hcat as [k Hk].
      destruct (mapM_lookup _ _ _ _ _ Hrows Hk) as (row & Hrow & _).
      unfold category_row in Hrow.
      destruct (c_name cat); [|discriminate].
      destruct (c_supercategory cat); [|discriminate]. split; eauto.
    + intros Hcomplete. destruct (Hall cats Hcomplete) as [rows ->]. reflexivity.
  - intros before cat after -> Hbefore. rewrite mapM_app.
    destruct (Hall before Hbefore) as [rows ->]. cbn [mbind result_bind mapM].
    split.
    + intros Hn.
      assert (Hrow : category_row cat = Raise (KeyError (StrKey "name")))
        by (unfold category_row; rewrite Hn; reflexivity).
      rewrite Hrow. reflexivity.
    + intros [n Hn] Hp.
      assert (Hrow : category_row cat
                     = Raise (KeyError (StrKey "supercategory")))
        by (unfold category_row; rewrite Hn, Hp; reflexivity).
      rewrite Hrow. reflexivity.
Qed.

(** The theorem on a second category without supercategory. *)
Lemma X14_label_categories_witness :
  _load_label_categories Dogs.bare_loader
  = Raise (KeyError (StrKey "supercategory")).
Proof.
  refine (proj2 (proj2 (X14_label_categories_need_supercategory
                          Dogs.bare_loader _ eq_refl)
                   [mkCocoCategory 3 (Some "cat") (Some "animal") None None]
                   (mkCocoCategory 9 (Some "dog") None None None) []
                   eq_refl _) _ eq_refl).
  - intros c ->%list_elem_of_singleton. split; eauto.
  - eauto.
Defined.

(** ** Keypoint arrays of any length *)

Lemma mod3_cases k :
  ((3 * k) mod 3 = 0 /\ S (3 * k) mod 3 = 1 /\ S (S (3 * k)) mod 3 = 2)%nat.
Proof.
  repeat split.
  - rewrite Nat.mul_comm. apply Nat.Div0.mod_mul.
  - replace (S (3 * k)) with (1 + k * 3)%nat by lia.
    rewrite Nat.Div0.mod_add. reflexivity.
  - replace (S (S (3 * k))) with (2 + k * 3)%nat by lia.
    rewrite Nat.Div0.mod_add. reflexivity.
Qed.

Lemma enumerate_from_flat_keypoints_tail kps tail k :
  (length tail < 3)%nat ->
  (List.filter (fun ip => negb (Nat.eqb (fst ip mod 3) 2))
     (enumerate_from (3 * k) (flat_keypoints kps ++ tail))).*2
  = flat_coordinates kps ++ tail.
Proof.
  intros Htail. revert k. induction kps as [|[[x y] v] kps IH]; intros k.
  - destruct (mod3_cases k) as (H0 & H1 & _).
    destruct tail as [|a [|b [|c tail]]]; [reflexivity| | |simpl in Htail; lia].
    + cbn [flat_keypoints flat_coordinates app enumerate_from List.filter fst].
      rewrite H0. reflexivity.
    + cbn [flat_keypoints flat_coordinates app enumerate_from List.filter fst].
      rewrite H0, H1. reflexivity.
  - destruct (mod3_cases k) as (H0 & H1 & H2).
    cbn [flat_keypoints flat_coordinates app enumerate_from List.filter fst].
    rewrite H0, H1, H2. cbn [Nat.eqb negb].
    replace (S (S (S (3 * k)))) with (3 * S k)%nat by lia.
    rewrite <- (IH (S k)). reflexivity.
Qed.

(** X15.  The two slices [_parse_annotation] takes of a keypoint array do
    not look at its length.  On whole triples followed by one or two more
    values, the coordinates are the array without every third element, so
    the values after the last whole triple are kept as coordinates, and
    the visibility has one entry per whole triple; there are two
    coordinates per visibility entry exactly when no value is left
    over. *)
Theorem X15_keypoints_with_incomplete_triple
    (kps : list (pynum * pynum * pynum)) (tail : list pynum)
    (Htail : (length tail < 3)%nat) :
  keypoint_coordinates (flat_keypoints kps ++ tail)
  = flat_coordinates kps ++ tail
  /\ slice_from_step 2 3 (flat_keypoints kps ++ tail) = kps.*2
  /\ length (slice_from_step 2 3 (flat_keypoints kps ++ tail)) = length kps
  /\ length (keypoint_coordinates (flat_keypoints kps ++ tail))
     = (2 * length kps + length tail)%nat
  /\ (length (keypoint_coordinates (flat_keypoints kps ++ tail))
      = (2 * length (slice_from_step 2 3 (flat_keypoints kps ++ tail)))%nat
      <-> tail = []).
Proof.
  pose proof (enumerate_from_flat_keypoints_tail kps tail 0 Htail) as Hpts.
  change (keypoint_coordinates (flat_keypoints kps ++ tail)
          = flat_coordinates kps ++ tail) in Hpts.
  assert (Hvis : slice_from_step 2 3 (flat_keypoints kps ++ tail) = kps.*2).
  { clear Hpts. unfold slice_from_step. induction kps as [|[[x y] v] kps IH].
    - destruct tail as [|a [|b [|c tail]]]; try reflexivity.
      simpl in Htail. lia.
    - simpl. f_equal. exact IH. }
  assert (Hlen : length (flat_coordinates kps) = (2 * length kps)%nat).
  { clear. induction kps as [|[[x y] v] kps IH]; [reflexivity|].
    cbn [flat_coordinates length]. rewrite IH. lia. }
  split; [exact Hpts|]. split; [exact Hvis|].
  rewrite Hpts, Hvis, length_app, length_fmap, Hlen.
  split; [reflexivity|]. split; [reflexivity|].
  destruct tail as [|a tail]; cbn [length]; split; intros H;
    try reflexivity; try discriminate H; lia.
Qed.

(** The theorem on one keypoint followed by a lone coordinate. *)
Lemma X15_keypoints_witness :
  keypoint_coordinates [PyInt 10; PyInt 11; PyInt 2; PyInt 20]
  = [PyInt 10; PyInt 11; PyInt 20]
  /\ slice_from_step 2 3 [PyInt 10; PyInt 11; PyInt 2; PyInt 20] = [PyInt 2].
Proof.
  destruct (X15_keypoints_with_incomplete_triple
              [(PyInt 10, PyInt 11, PyInt 2)] [PyInt 20]
              (le_n_S _ _ (le_n_S _ _ (Nat.le_0_l _)))) as (Hc & Hv & _).
  split; [exact Hc | exact Hv].
Defined.

(** ** What the annotations of one record share *)

Lemma parse_segmentation_common mask_utils self segmentation image_info c out :
  parse_segmentation mask_utils self segmentation image_info c = Ok out ->
  forall a, a ∈ out -> common a = c.
Proof.
  unfold parse_segmentation. destruct segmentation as [parts|r].
  - assert (Hpoly : forall a, a ∈ (fun p => Polygon p c) <$> parts ->
                              common a = c).
    { intros a (p & -> & _)%list_elem_of_fmap. reflexivity. }
    destruct (_merge_instance_polygons self).
    + destruct (subscript "height" _) as [img_h|]; [|discriminate]. simpl.
      destruct (subscript "width" _) as [img_w|]; [|discriminate]. simpl.
      destruct (frPyObjects_polygons _ _ _ _) as [rles|]; [|discriminate].
      simpl. destruct (merge _ _) as [rle|]; [|discriminate]. simpl.
      intros [= <-] a [Ha|Ha]%elem_of_app; [by apply Hpoly|].
      apply list_elem_of_singleton in Ha as ->. reflexivity.
    + intros [= <-]. exact Hpoly.
  - destruct (rle_counts_of r).
    + destruct (unpack2 _) as [[h w]|]; [|discriminate]. simpl.
      destruct (frPyObjects_rle _ _ _ _) as [rle|]; [|discriminate]. simpl.
      intros [= <-] a ->%list_elem_of_singleton. reflexivity.
    + intros [= <-] a ->%list_elem_of_singleton. reflexivity.
    + intros [= <-] a ->%list_elem_of_singleton. reflexivity.
Qed.

(** X16.  The annotations decoded from one record belong together: there
    is at least one, they all carry the same label and the same group,
    the group is either absent or the record's id, and each carries the
    record's id, except the box that accompanies keypoints, which has no
    id. *)
Theorem X16_annotations_of_a_record_share_label_and_group
    (mask_utils : MaskUtils) (self : CocoExtractor) (ann : CocoAnn)
    (ann_type : CocoTask.t) (image_info : CocoImage) (out : list Annotation)
    (Hout : _parse_annotation mask_utils self ann ann_type image_info = Ok out) :
  out <> []
  /\ exists label_id group_id,
       (group_id = None \/ group_id = j_id ann)
       /\ forall a, a ∈ out ->
            label (common a) = label_id
            /\ group (common a) = group_id
            /\ (id_ (common a) = j_id ann
                \/ (ann_type = CocoTask.person_keypoints
                    /\ type_of a = AnnotationType.bbox
                    /\ id_ (common a) = None)).
Proof.
  unfold _parse_annotation in Hout. destruct ann_type.
  - (* instances *)
    destruct (subscript "bbox" _) as [bbox|]; [|discriminate]. simpl in Hout.
    destruct (unpack4 _) as [[[[x y] w] h]|]; [|discriminate]. simpl in Hout.
    destruct (_parse_label self ann) as [label_id|]; [|discriminate].
    simpl in Hout.
    destruct (subscript "iscrowd" _) as [iscrowd|]; [|discriminate].
    simpl in Hout.
    set (c := mkCommon _ _ _ _) in Hout.
    assert (Hshapes : exists shapes box,
              out = shapes ++ [box] /\ common box = c
              /\ forall a, a ∈ shapes -> common a = c).
    { destruct (j_segmentation ann) as [segmentation|].
      - destruct (parse_segmentation _ _ _ _ _) as [shapes|] eqn:Hseg;
          [|discriminate]. simpl in Hout.
        destruct (BboxObject x y w h c) as [box|] eqn:Hbox; [|discriminate].
        injection Hout as <-. exists shapes, box.
        split; [reflexivity|]. split.
        + exact (proj1 (BboxObject_fields _ _ _ _ _ _ Hbox)).
        + exact (parse_segmentation_common _ _ _ _ _ _ Hseg).
      - simpl in Hout.
        destruct (BboxObject x y w h c) as [box|] eqn:Hbox; [|discriminate].
        injection Hout as <-. exists [], box.
        split; [reflexivity|]. split.
        + exact (proj1 (BboxObject_fields _ _ _ _ _ _ Hbox)).
        + intros a []%elem_of_nil. }
    destruct Hshapes as (shapes & box & -> & Hbox & Hall).
    split; [by destruct shapes|].
    exists (label c), (group c). split.
    + subst c. cbn [group]. destruct (j_segmentation ann); tauto.
    + intros a [Ha|Ha]%elem_of_app.
      * rewrite (Hall a Ha). repeat split. left. reflexivity.
      * apply list_elem_of_singleton in Ha as ->. rewrite Hbox.
        repeat split. left. reflexivity.
  - (* person_keypoints *)
    destruct (subscript "keypoints" _) as [keypoints|]; [|discriminate].
    simpl in Hout.
    destruct (_parse_label self ann) as [label_id|]; [|discriminate].
    simpl in Hout. destruct (j_bbox ann) as [bbox|].
    + destruct bbox as [|x [|y [|w [|h [|? ?]]]]]; try discriminate.
      simpl in Hout.
      destruct (BboxObject x y w h _) as [box|] eqn:Hbox; [|discriminate].
      injection Hout as <-. split; [discriminate|].
      destruct (BboxObject_fields _ _ _ _ _ _ Hbox) as [Hc Ht].
      exists label_id, (j_id ann). split; [tauto|].
      intros a [->|Ha]%elem_of_cons; [repeat split; by left|].
      apply list_elem_of_singleton in Ha as ->. rewrite Hc.
      repeat split. right. repeat split. exact Ht.
    + injection Hout as <-. split; [discriminate|].
      exists label_id, None. split; [tauto|].
      intros a ->%list_elem_of_singleton. repeat split. by left.
  - (* captions *)
    destruct (subscript "caption" _) as [caption|]; [|discriminate].
    injection Hout as <-. split; [discriminate|].
    exists None, None. split; [tauto|].
    intros a ->%list_elem_of_singleton. repeat split. by left.
  - (* labels *)
    destruct (_parse_label self ann) as [label_id|]; [|discriminate].
    injection Hout as <-. split; [discriminate|].
    exists label_id, None. split; [tauto|].
    intros a ->%list_elem_of_singleton. repeat split. by left.
  - discriminate.
Qed.

(** The theorem on the record with two polygon parts, merged. *)
Lemma X16_annotations_of_a_record_witness :
  exists label_id group_id,
    forall a, a ∈ [Polygon Instance.triangle Instance.fields;
                   Polygon Instance.square Instance.fields;
                   RleMask (mkRle [50; 100] (CountsBytes "merged"))
                     Instance.fields;
                   Instance.box] ->
      label (common a) = label_id /\ group (common a) = group_id.
Proof.
  destruct (X16_annotations_of_a_record_share_label_and_group
              Instance.mask_utils (Instance.self true)
              (Instance.record
                 (Some (SegPolygons [Instance.triangle; Instance.square])))
              CocoTask.instances Instance.info _ eq_refl)
    as [_ (label_id & group_id & _ & Hall)].
  exists label_id, group_id. intros a Ha.
  destruct (Hall a Ha) as (Hl & Hg & _). split; [exact Hl | exact Hg].
Defined.

(** ** Extractors and their label categories *)

Lemma init_fields json_files path task merge self :
  CocoExtractor_init json_files path task merge = Ok self ->
  exists rootpath subset_name loader categories label_map,
    _make_subset_loader json_files path = Ok loader
    /\ _load_categories_from [(task, loader)] = Ok (categories, label_map)
    /\ self = mkCocoExtractor rootpath task
                [(subset_name,
                  mkSubset subset_name [(task, loader)]
                    (PyDict.keys
                       (foldl (fun acc img_id => PyDict.set acc img_id tt) []
                              (getImgIds loader))))]
                categories label_map merge.
Proof.
  unfold CocoExtractor_init. intros Hinit.
  destruct (index (PyStr.rsplit CocoPath.ANNOTATIONS_DIR path) 0)
    as [rootpath|]; [|discriminate Hinit].
  cbn [mbind result_bind] in Hinit.
  destruct (index _ 1) as [subset_name|]; [|discriminate Hinit].
  cbn [mbind result_bind] in Hinit.
  destruct (_make_subset_loader json_files path) as [loader|];
    [|discriminate Hinit].
  cbn [mbind result_bind] in Hinit.
  destruct (_load_categories _) as [[categories label_map]|] eqn:Hcats;
    [|discriminate Hinit].
  cbn [mbind result_bind] in Hinit. injection Hinit as <-.
  exists rootpath, subset_name, loader, categories, label_map.
  split; [reflexivity|]. split; [exact Hcats | reflexivity].
Qed.

Lemma single_loader_label task (loader : COCO) :
  label_loader_of [(task, loader)]
  = if defines_labels task then Some loader else None.
Proof. destruct task; reflexivity. Qed.

Lemma single_loader_keypoints task (loader : COCO) :
  PyDict.get [(task, loader)] CocoTask.person_keypoints
  = match task with
    | CocoTask.person_keypoints => Some loader
    | _ => None
    end.
Proof. destruct task; reflexivity. Qed.

Section NoLabels.

Variable SUBSET_NAMES : list string.
Variables YOLO_DEFAULT TF_DEFAULT IMAGE_EXT IMAGE_FORMAT LABELMAP_FILE : string.
Variable encode_image : Image -> string.
Variable mask_utils : MaskUtils.
Variable image_files : string -> option Image.

(** X17.  An extractor has label categories exactly when its file is a
    labels, instances or person_keypoints file.  One constructed on a
    captions or image_info file has none, and neither converter can
    convert it: each creates the output directory, raises [KeyError] for
    the missing label categories and writes no file. *)
Theorem X17_no_label_categories_no_conversion
    (json_files : string -> option CocoDataset) (path : string)
    (task : CocoTask.t) (merge_instance_polygons : bool) (self : CocoExtractor)
    (Hinit : CocoExtractor_init json_files path task merge_instance_polygons
             = Ok self) :
  (is_Some (cat_label (_categories self)) <-> defines_labels task = true)
  /\ (is_Some (_label_map self) <-> defines_labels task = true)
  /\ (defines_labels task = false ->
      forall yolo tf save_dir w,
        YoloConverter_call SUBSET_NAMES YOLO_DEFAULT yolo
          (as_extractor mask_utils image_files self) save_dir w
        = (mkWorld (files w) ({[save_dir]} ∪ dirs w) (warnings w),
           Raise (KeyError (StrKey "AnnotationType.label")))
        /\ DetectionApiConverter_call TF_DEFAULT IMAGE_EXT IMAGE_FORMAT
             LABELMAP_FILE encode_image tf
             (as_extractor mask_utils image_files self) save_dir w
           = (mkWorld (files w) ({[save_dir]} ∪ dirs w) (warnings w),
              Raise (KeyError (StrKey "AnnotationType.label")))).
Proof.
  destruct (init_fields _ _ _ _ _ Hinit)
    as (rootpath & subset_name & loader & categories & label_map
        & _ & Hcats & ->).
  cbn [_categories _label_map].
  assert (Hlabel : (is_Some (cat_label categories) <-> defines_labels task = true)
                   /\ (is_Some label_map <-> defines_labels task = true)).
  { unfold _load_categories_from in Hcats.
    rewrite single_loader_label, single_loader_keypoints in Hcats.
    destruct (defines_labels task) eqn:Hdef.
    - destruct (_load_label_categories loader) as [[lc lm]|];
        [|discriminate Hcats].
      cbn [mbind result_bind] in Hcats.
      destruct (match task with
                | CocoTask.person_keypoints => Some loader
                | _ => None
                end) as [kp|].
      + cbn [categories_label cat_label mbind result_bind] in Hcats.
        destruct (_load_person_kp_categories lc kp); [|discriminate Hcats].
        injection Hcats as <- <-. cbn [cat_label]. split; split; eauto.
      + injection Hcats as <- <-. cbn [cat_label]. split; split; eauto.
    - assert (Hkp : match task with
                    | CocoTask.person_keypoints => Some loader
                    | _ => None
                    end = None) by (destruct task; done).
      rewrite Hkp in Hcats. injection Hcats as <- <-. cbn [cat_label].
      split; split; try discriminate; intros [? [=]]. }
  split; [exact (proj1 Hlabel)|]. split; [exact (proj2 Hlabel)|].
  intros Hnone yolo tf save_dir w.
  assert (Hcat : cat_label categories = None).
  { destruct Hlabel as [[Hl _] _].
    destruct (cat_label categories) as [lc|]; [|reflexivity].
    assert (Hdef : defines_labels task = true) by (apply Hl; eauto).
    congruence. }
  split.
  - unfold YoloConverter_call, mbind, IO_bind, makedirs, lift, categories_label.
    cbn. rewrite Hcat. reflexivity.
  - unfold DetectionApiConverter_call, mbind, IO_bind, makedirs, io_for.
    cbn [as_extractor subsets_or_default ex_subsets _subsets PyDict.keys
         fmap list_fmap fst].
    rewrite io_fold_cons. unfold tf_subset.
    destruct (truthy (Some subset_name)).
    + unfold mbind, IO_bind, lift. cbn [as_extractor ex_get_subset _subsets
        PyDict.get default]. rewrite decide_True by reflexivity.
      unfold tf_export, mbind, IO_bind, lift, categories_label.
      cbn [ds_categories _categories]. rewrite Hcat. reflexivity.
    + unfold tf_export, mbind, IO_bind, lift, categories_label.
      cbn [ds_categories ex_dataset as_extractor _categories]. rewrite Hcat.
      reflexivity.
Qed.

End NoLabels.

(** The theorem on a captions file. *)
Lemma X17_no_label_categories_witness :
  exists self,
    CocoExtractor_init Captions.json_files Captions.path CocoTask.captions false
    = Ok self
    /\ YoloConverter_call ["train"; "valid"] "train"
         (mkYoloConverter None false false)
         (as_extractor Instance.mask_utils Scenario.image_files self)
         "out" empty_world
       = (mkWorld ∅ ({["out"]} ∪ ∅) [],
          Raise (KeyError (StrKey "AnnotationType.label"))).
Proof.
  assert (Hok : is_ok (CocoExtractor_init Captions.json_files Captions.path
                         CocoTask.captions false) = true)
    by (vm_compute; reflexivity).
  destruct (CocoExtractor_init Captions.json_files Captions.path
              CocoTask.captions false) as [self|] eqn:Hinit;
    [|discriminate Hok].
  exists self. split; [reflexivity|].
  destruct (X17_no_label_categories_no_conversion ["train"; "valid"] "train"
              "default" ".jpg" "jpeg" "label_map.pbtxt" (fun _ => "")
              Instance.mask_utils Scenario.image_files Captions.json_files
              Captions.path CocoTask.captions false self Hinit)
    as (_ & _ & Hfail).
  exact (proj1 (Hfail eq_refl (mkYoloConverter None false false)
                  (mkDetectionApiConverter false) "out" empty_world)).
Defined.

(** ** Length and iteration of an extractor *)

Lemma dict_keys_fold_set {K V} `{EqDecision K} (l : list K) (v : V)
    (acc : PyDict.dict K V) :
  NoDup (PyDict.keys acc) ->
  NoDup (PyDict.keys (foldl (fun acc k => PyDict.set acc k v) acc l))
  /\ forall k, k ∈ PyDict.keys (foldl (fun acc k => PyDict.set acc k v) acc l)
               <-> k ∈ PyDict.keys acc \/ k ∈ l.
Proof.
  revert acc. induction l as [|k0 l IH]; intros acc Hnd.
  - simpl. split; [exact Hnd|]. intros k. rewrite elem_of_nil. tauto.
  - cbn [foldl].
    assert (Hnd' : NoDup (PyDict.keys (PyDict.set acc k0 v))).
    { rewrite dict_keys_set. destruct (decide _) as [?|Hnin]; [exact Hnd|].
      apply NoDup_app. split; [exact Hnd|]. split.
      - intros m Hm [->|[]%elem_of_nil]%elem_of_cons. exact (Hnin Hm).
      - apply NoDup_singleton. }
    destruct (IH _ Hnd') as [Hres Hmem]. split; [exact Hres|].
    intros k. rewrite Hmem, dict_keys_set, elem_of_cons.
    destruct (decide (k0 ∈ PyDict.keys acc)) as [Hin|Hnin].
    + split; [tauto|]. intros [?|[->|?]]; tauto.
    + rewrite elem_of_app, list_elem_of_singleton. tauto.
Qed.

Lemma len_fold_iter mask_utils image_files self (subsets : list Subset) n :
  foldl (fun length_ subset => (length_ + Subset_len subset)%nat) n subsets
  = (n + length (mjoin (Subset_iter mask_utils image_files self <$> subsets)))%nat.
Proof.
  revert n. induction subsets as [|s subsets IH]; intros n.
  - simpl. symmetry. apply Nat.add_0_r.
  - cbn [foldl]. rewrite IH. rewrite fmap_cons. cbn [mjoin list_join].
    rewrite length_app. unfold Subset_iter at 2, Subset_len.
    rewrite length_fmap. symmetry. apply Nat.add_assoc.
Qed.

Lemma yielded_length {A} (l : list (result A)) :
  (length (yielded l) <= length l)%nat
  /\ (length (yielded l) = length l <-> forall r, r ∈ l -> is_ok r = true).
Proof.
  induction l as [|[a|e] l [IHle IHeq]].
  - split; [reflexivity|]. split; [|reflexivity].
    intros _ r Hr. by apply elem_of_nil in Hr.
  - cbn [yielded length]. split; [apply le_n_S; exact IHle|]. split.
    + intros Hlen r Hr. apply elem_of_cons in Hr as [->|Hr]; [reflexivity|].
      apply IHeq; [|exact Hr]. by injection Hlen.
    + intros Hall. f_equal. apply IHeq. intros r Hr. apply Hall. by right.
  - cbn [yielded length]. split; [apply Nat.le_0_l|]. split; [discriminate|].
    intros Hall. specialize (Hall (Raise e)). discriminate Hall. left.
Qed.

(** X18.  [len] of a constructed extractor is the number of distinct image
    ids of its file.  It has exactly one subset, and asking for a subset
    of another name raises [KeyError]; that subset's items are the image
    ids of the file, each once; iterating the extractor fetches the item
    of every such id in turn and ends at the first fetch that raises, so
    it yields at most [len] items, and exactly [len] items when no fetch
    raises. *)
Theorem X18_extractor_length_and_items (mask_utils : MaskUtils)
    (image_files : string -> option Image)
    (json_files : string -> option CocoDataset) (path : string)
    (task : CocoTask.t) (merge_instance_polygons : bool)
    (self : CocoExtractor) (loader : COCO)
    (Hloader : _make_subset_loader json_files path = Ok loader)
    (Hinit : CocoExtractor_init json_files path task merge_instance_polygons
             = Ok self) :
  exists name subset,
    CocoExtractor_subsets self = [name]
    /\ CocoExtractor_get_subset self name = Ok subset
    /\ (forall other, other <> name ->
          CocoExtractor_get_subset self other
          = Raise (KeyError (StrKey other)))
    /\ NoDup (sub_items subset)
    /\ (forall img_id, img_id ∈ sub_items subset
                       <-> img_id ∈ getImgIds loader)
    /\ CocoExtractor_len self = length (sub_items subset)
    /\ CocoExtractor_iter mask_utils image_files self
       = (fun img_id => _get mask_utils image_files self img_id name)
           <$> sub_items subset
    /\ (length (yielded (CocoExtractor_iter mask_utils image_files self))
        <= CocoExtractor_len self)%nat
    /\ (length (yielded (CocoExtractor_iter mask_utils image_files self))
        = CocoExtractor_len self
        <-> forall img_id,
              img_id ∈ getImgIds loader ->
              is_ok (_get mask_utils image_files self img_id name) = true).
Proof.
  assert (Hlen : CocoExtractor_len self
                 = length (CocoExtractor_iter mask_utils image_files self)).
  { unfold CocoExtractor_len, CocoExtractor_iter.
    rewrite (len_fold_iter mask_utils image_files self). reflexivity. }
  destruct (yielded_length (CocoExtractor_iter mask_utils image_files self))
    as [Hle Heq].
  rewrite <- Hlen in Hle, Heq. revert Hle Heq. clear Hlen.
  destruct (init_fields _ _ _ _ _ Hinit)
    as (rootpath & name & loader' & categories & label_map & Hl & _ & ->).
  rewrite Hloader in Hl. injection Hl as <-.
  destruct (dict_keys_fold_set (getImgIds loader) tt [] (NoDup_nil_2))
    as [Hnd Hmem].
  assert (Hitems : forall img_id,
            img_id ∈ PyDict.keys
                       (foldl (fun acc img_id => PyDict.set acc img_id tt) []
                              (getImgIds loader))
            <-> img_id ∈ getImgIds loader).
  { intros img_id. rewrite Hmem. unfold PyDict.keys at 1. simpl.
    rewrite elem_of_nil. tauto. }
  set (self := mkCocoExtractor _ _ _ _ _ _).
  assert (Hiter : CocoExtractor_iter mask_utils image_files self
                  = (fun img_id => _get mask_utils image_files self img_id name)
                      <$> PyDict.keys
                            (foldl (fun acc img_id => PyDict.set acc img_id tt)
                                   [] (getImgIds loader))).
  { unfold CocoExtractor_iter, Subset_iter. cbn. rewrite app_nil_r.
    reflexivity. }
  intros Hle Heq. eexists name, _.
  split; [reflexivity|].
  split; [unfold CocoExtractor_get_subset; cbn [self _subsets PyDict.get];
          rewrite decide_True by reflexivity; reflexivity|].
  split.
  { intros other Hother. unfold CocoExtractor_get_subset.
    cbn [self _subsets PyDict.get]. rewrite decide_False by congruence.
    reflexivity. }
  cbn [sub_items]. split; [exact Hnd|]. split; [exact Hitems|].
  split; [reflexivity|]. split; [exact Hiter|]. split; [exact Hle|].
  rewrite Heq, Hiter. split.
  - intros Hall img_id Hin. apply Hall. apply list_elem_of_fmap.
    exists img_id. split; [reflexivity|]. apply Hitems. exact Hin.
  - intros Hall r Hr. apply list_elem_of_fmap in Hr as (img_id & -> & Hin).
    apply Hall, Hitems. exact Hin.
Qed.

(** The theorem on the image-info file: two image ids, and no item
    yielded, since the annotated first image cannot be fetched. *)
Lemma X18_extractor_length_witness :
  exists self,
    CocoExtractor_init Infos.json_files Infos.path CocoTask.image_info false
    = Ok self
    /\ CocoExtractor_len self = 2%nat
    /\ (length (yielded (CocoExtractor_iter Instance.mask_utils
                           Infos.image_files self)) <= 2)%nat.
Proof.
  assert (Hok : is_ok (CocoExtractor_init Infos.json_files Infos.path
                         CocoTask.image_info false) = true)
    by (vm_compute; reflexivity).
  assert (Hl : is_ok (_make_subset_loader Infos.json_files Infos.path)
               = true) by (vm_compute; reflexivity).
  destruct (CocoExtractor_init Infos.json_files Infos.path
              CocoTask.image_info false) as [self|] eqn:Hinit;
    [|discriminate Hok].
  destruct (_make_subset_loader Infos.json_files Infos.path)
    as [loader|] eqn:Hloader; [|discriminate Hl].
  exists self. split; [reflexivity|].
  destruct (X18_extractor_length_and_items Instance.mask_utils
              Infos.image_files Infos.json_files Infos.path
              CocoTask.image_info false self loader Hloader Hinit)
    as (name & subset & _ & _ & _ & _ & _ & _ & _ & Hle & _).
  assert (Htwo : (s ← CocoExtractor_init Infos.json_files Infos.path
                        CocoTask.image_info false;
                  Ok (CocoExtractor_len s)) = Ok 2%nat)
    by (vm_compute; reflexivity).
  rewrite Hinit in Htwo. injection Htwo as Htwo.
  split; [exact Htwo | rewrite <- Htwo; exact Hle].
Defined.

(** On that file the iteration yields nothing, and on the captions file,
    whose two images can be fetched, it yields both. *)
Example yielded_items_of_two_files :
  (s ← CocoExtractor_init Infos.json_files Infos.path CocoTask.image_info false;
   Ok (CocoExtractor_len s,
       length (yielded (CocoExtractor_iter Instance.mask_utils
                          Infos.image_files s))))
  = Ok (2%nat, 0%nat)
  /\ (s ← CocoExtractor_init Captions.json_files Captions.path
             CocoTask.captions false;
      Ok (CocoExtractor_len s,
          length (yielded (CocoExtractor_iter Instance.mask_utils
                             Scenario.image_files s))))
     = Ok (2%nat, 2%nat).
Proof. split; vm_compute; reflexivity. Qed.

(** ** The files the line-format converter ends with *)

Lemma dict_fold_set_first {K V} `{EqDecision K} (g : K -> V) (l seen : list K) :
  foldl (fun acc k => PyDict.set acc k (g k)) ((fun k => (k, g k)) <$> seen) l
  = (fun k => (k, g k))
      <$> foldl (fun seen k => if decide (k ∈ seen) then seen else seen ++ [k])
                seen l.
Proof.
  revert seen. induction l as [|k l IH]; intros seen; [reflexivity|].
  cbn [foldl]. rewrite <- IH. f_equal.
  destruct (decide (k ∈ seen)) as [Hin|Hnin].
  - clear IH. induction seen as [|k' seen IHs]; [by apply elem_of_nil in Hin|].
    cbn [fmap list_fmap PyDict.set]. destruct (decide (k' = k)) as [->|Hne].
    + reflexivity.
    + f_equal. apply IHs. apply elem_of_cons in Hin as [->|Hin]; done.
  - rewrite fmap_app. apply dict_set_fresh. apply dict_get_None_keys.
    unfold PyDict.keys. rewrite <- list_fmap_compose.
    intros Hin. apply Hnin. apply list_elem_of_fmap in Hin as (k' & -> & Hin).
    exact Hin.
Qed.

Lemma first_occurrences_from {K} `{EqDecision K} (l seen : list K) :
  NoDup seen ->
  let out := foldl (fun seen k => if decide (k ∈ seen) then seen else seen ++ [k])
                   seen l in
  NoDup out /\ forall k, k ∈ out <-> k ∈ seen \/ k ∈ l.
Proof.
  revert seen. induction l as [|k0 l IH]; intros seen Hnd; cbv zeta.
  - simpl. split; [exact Hnd|]. intros k. rewrite elem_of_nil. tauto.
  - cbn [foldl]. destruct (decide (k0 ∈ seen)) as [Hin|Hnin].
    + destruct (IH seen Hnd) as [Hres Hmem]. split; [exact Hres|].
      intros k. rewrite Hmem, elem_of_cons.
      split; [tauto|]. intros [?|[->|?]]; tauto.
    + assert (Hnd' : NoDup (seen ++ [k0])).
      { apply NoDup_app. split; [exact Hnd|]. split.
        - intros m Hm [->|[]%elem_of_nil]%elem_of_cons. exact (Hnin Hm).
        - apply NoDup_singleton. }
      destruct (IH _ Hnd') as [Hres Hmem]. split; [exact Hres|].
      intros k. rewrite Hmem, elem_of_app, list_elem_of_singleton, elem_of_cons.
      tauto.
Qed.

Lemma first_occurrences_spec {K} `{EqDecision K} (l : list K) :
  NoDup (first_occurrences l)
  /\ forall k, k ∈ first_occurrences l <-> k ∈ l.
Proof.
  destruct (first_occurrences_from l [] (NoDup_nil_2)) as [Hnd Hmem].
  split; [exact Hnd|]. intros k. unfold first_occurrences. rewrite Hmem.
  rewrite elem_of_nil. tauto.
Qed.

Section YoloFiles.

Variable SUBSET_NAMES : list string.
Variable DEFAULT_SUBSET_NAME : string.

Lemma yolo_subset_step self extractor save_dir lists s w w' lists' :
  yolo_subset SUBSET_NAMES DEFAULT_SUBSET_NAME self extractor save_dir lists s w
  = (w', Ok lists') ->
  lists' = match yolo_exported_as SUBSET_NAMES DEFAULT_SUBSET_NAME s with
           | Some n => PyDict.set lists n (n +:+ ".txt")
           | None => lists
           end
  /\ warnings w'
     = warnings w
       ++ (yolo_skip_message SUBSET_NAMES
             <$> option_list (yolo_skipped SUBSET_NAMES DEFAULT_SUBSET_NAME s)).
Proof.
  unfold yolo_subset, yolo_skipped, yolo_exported_as.
  destruct (truthy s && bool_decide (default "" s ∈ SUBSET_NAMES)) eqn:Hnamed.
  - unfold mbind at 1, IO_bind at 1, lift at 1.
    destruct (ex_get_subset extractor (default "" s)) as [subset|e];
      [|discriminate].
    intros Hdone. split.
    + exact (yolo_export_lists _ _ _ _ _ _ _ _ Hdone).
    + pose proof (quiet_yolo_export self save_dir lists (default "" s) subset w)
        as Hq.
      rewrite Hdone in Hq. cbn [fst] in Hq. rewrite Hq. cbn.
      symmetry. apply app_nil_r.
  - destruct (negb (truthy s)) eqn:Hfalsy.
    + intros Hdone. split.
      * exact (yolo_export_lists _ _ _ _ _ _ _ _ Hdone).
      * pose proof (quiet_yolo_export self save_dir lists DEFAULT_SUBSET_NAME
                      (ex_dataset extractor) w) as Hq.
        rewrite Hdone in Hq. cbn [fst] in Hq. rewrite Hq. cbn.
        symmetry. apply app_nil_r.
    + destruct s as [n|]; [|discriminate Hfalsy].
      unfold mbind, IO_bind, warn, mret, IO_ret. intros [= <- <-].
      split; reflexivity.
Qed.

Lemma yolo_subsets_fold self extractor save_dir subsets :
  forall lists w w' lists',
    io_fold (yolo_subset SUBSET_NAMES DEFAULT_SUBSET_NAME self extractor save_dir)
      lists subsets w = (w', Ok lists') ->
    lists' = foldl (fun acc n => PyDict.set acc n (n +:+ ".txt")) lists
               (omap (yolo_exported_as SUBSET_NAMES DEFAULT_SUBSET_NAME) subsets)
    /\ warnings w'
       = warnings w
         ++ (yolo_skip_message SUBSET_NAMES
               <$> omap (yolo_skipped SUBSET_NAMES DEFAULT_SUBSET_NAME) subsets).
Proof.
  induction subsets as [|s subsets IH]; intros lists w w' lists'.
  - intros [= <- <-]. split; [reflexivity|]. symmetry. apply app_nil_r.
  - rewrite io_fold_cons.
    destruct (yolo_subset _ _ _ _ _ lists s w) as [w1 [lists1|e]] eqn:Hstep;
      [|discriminate].
    intros Hrest. apply yolo_subset_step in Hstep as [-> Hw1].
    apply IH in Hrest as [-> Hw']. split.
    + cbn [omap list_omap]. unfold yolo_skipped.
      destruct (yolo_exported_as _ _ s); reflexivity.
    + rewrite Hw', Hw1, <- app_assoc. f_equal.
      cbn [omap list_omap].
      destruct (yolo_skipped _ _ s); reflexivity.
Qed.

(** X19.  When the line-format conversion returns, [obj.data] holds the
    number of distinct label names, then one line for every exported
    subset (those with an accepted name, and the default one for a falsy
    name), each once and in the order of first export, then the two
    closing lines; and the log has grown by one warning for every skipped
    subset, in order. *)
Theorem X19_yolo_obj_data (self : YoloConverter) (extractor : Extractor)
    (save_dir : string) (w w' : World)
    (Hdone : YoloConverter_call SUBSET_NAMES DEFAULT_SUBSET_NAME self extractor
               save_dir w = (w', Ok tt)) :
  exists label_categories,
    cat_label (ds_categories (ex_dataset extractor)) = Some label_categories
    /\ files w' !! PyStr.path_join save_dir "obj.data"
       = Some (TextFile
                 (obj_data_text (length (label_ids_of 0 label_categories))
                    (first_occurrences
                       (omap (yolo_exported_as SUBSET_NAMES DEFAULT_SUBSET_NAME)
                             (subsets_or_default extractor)))))
    /\ warnings w'
       = warnings w
         ++ (yolo_skip_message SUBSET_NAMES
               <$> omap (yolo_skipped SUBSET_NAMES DEFAULT_SUBSET_NAME)
                     (subsets_or_default extractor)).
Proof.
  revert Hdone. unfold YoloConverter_call, categories_label.
  unfold mbind at 1, IO_bind at 1, makedirs at 1.
  unfold mbind at 1, IO_bind at 1, lift at 1.
  destruct (cat_label (ds_categories (ex_dataset extractor)))
    as [label_categories|]; [|discriminate].
  unfold mbind at 1, IO_bind at 1, write_text at 1.
  unfold mbind at 1, IO_bind at 1.
  destruct (io_fold _ _ _ _) as [w2 [lists|e]] eqn:Hfold; [|discriminate].
  apply yolo_subsets_fold in Hfold as [-> Hw2]. cbn [warnings] in Hw2.
  unfold write_text. intros [= <-].
  exists label_categories. split; [reflexivity|]. cbn [files warnings].
  split; [|exact Hw2].
  rewrite lookup_insert_eq. do 2 f_equal. unfold obj_data_text.
  do 2 f_equal.
  rewrite (dict_fold_set_first (fun n => n +:+ ".txt") _ []).
  rewrite <- list_fmap_compose. reflexivity.
Qed.

End YoloFiles.

(** The theorem on a source with the subsets "extra" and "train". *)
Lemma X19_yolo_obj_data_witness :
  exists w',
    YoloConverter_call ["train"; "valid"] "train"
      (mkYoloConverter None false false) Unnamed.named "out" empty_world
    = (w', Ok tt)
    /\ files w' !! "out/obj.data"
       = Some (TextFile ("classes = 2" +:+ nl +:+ "train = data/train.txt" +:+ nl
                         +:+ "names = data/obj.names" +:+ nl
                         +:+ "backup = backup/" +:+ nl))
    /\ warnings w'
       = ["Skipping subset export 'extra'. If specified, the only valid names are 'train', 'valid'"].
Proof.
  assert (Hok : (YoloConverter_call ["train"; "valid"] "train"
                   (mkYoloConverter None false false) Unnamed.named "out"
                   empty_world).2 = Ok tt) by (vm_compute; reflexivity).
  destruct (YoloConverter_call ["train"; "valid"] "train"
              (mkYoloConverter None false false) Unnamed.named "out"
              empty_world) as [w' r] eqn:Hdone.
  cbn [snd] in Hok. subst r. exists w'. split; [reflexivity|].
  destruct (X19_yolo_obj_data _ _ _ _ _ _ _ Hdone)
    as (label_categories & Hlabels & Hdata & Hwarn).
  injection Hlabels as <-. split; [exact Hdata | exact Hwarn].
Defined.

(** ** The list file of a subset *)

Lemma yolo_item_ok self subset_dir paths next w w' r :
  yolo_item self subset_dir paths next w = (w', Ok r) ->
  exists item,
    next = Ok item
    /\ is_ok (image_shape item) = true
    /\ r = PyDict.set paths (item_id item)
             (PyStr.path_join3 "data" (PyStr.basename subset_dir)
                (str_of_key (item_id item) +:+ ".jpg")).
Proof.
  unfold yolo_item. unfold mbind at 1, IO_bind at 1, lift at 1.
  destruct next as [item|e]; [|discriminate].
  unfold mbind at 1, IO_bind at 1.
  match goal with
  | |- (match ?m w with _ => _ end) = _ -> _ =>
      destruct (m w) as [w1 [[]|e]]; [|discriminate]
  end.
  unfold mbind at 1, IO_bind at 1, lift at 1.
  destruct (image_shape item) as [[height width]|e] eqn:Hshape; [|discriminate].
  unfold mbind at 1, IO_bind at 1, lift at 1.
  destruct (yolo_annotation_of width height (annotations item)) as [text|e];
    [|discriminate].
  unfold mbind, IO_bind, write_text, mret, IO_ret. intros [= _ <-].
  exists item. split; [reflexivity|]. rewrite Hshape. split; reflexivity.
Qed.

Lemma yolo_items_fold self subset_dir l :
  forall paths w w' r,
    io_fold (yolo_item self subset_dir) paths l w = (w', Ok r) ->
    exists items,
      l = Ok <$> items
      /\ Forall (fun item => is_ok (image_shape item) = true) items
      /\ r = foldl (fun acc id =>
                      PyDict.set acc id
                        (PyStr.path_join3 "data" (PyStr.basename subset_dir)
                           (str_of_key id +:+ ".jpg")))
                   paths (item_id <$> items).
Proof.
  induction l as [|next l IH]; intros paths w w' r.
  - intros [= _ <-]. exists []. split; [reflexivity|]. split; [constructor|].
    reflexivity.
  - rewrite io_fold_cons.
    destruct (yolo_item self subset_dir paths next w) as [w1 [paths1|e]]
      eqn:Hitem; [|discriminate].
    intros Hrest. apply yolo_item_ok in Hitem as (item & -> & Hshape & ->).
    apply IH in Hrest as (items & -> & Hall & ->).
    exists (item :: items). split; [reflexivity|].
    split; [constructor; assumption|]. reflexivity.
Qed.

(** X20.  When the export of a subset returns, every item of the subset
    was fetched without an exception and has an image of three
    dimensions, and the subset's list file holds one image path per
    distinct item id, in the order the ids first came: a repeated id is
    listed once. *)
Theorem X20_yolo_image_list (self : YoloConverter) (save_dir : string)
    (lists lists' : PyDict.dict string string) (name : string)
    (subset : Dataset) (w w' : World)
    (Hname : PyStr.contains_char "/" ("obj_" +:+ name +:+ "_data") = false)
    (Hdone : yolo_export self save_dir lists name subset w = (w', Ok lists')) :
  exists items,
    ds_iter subset = Ok <$> items
    /\ (forall item, item ∈ items ->
          exists img height width depth,
            image item = Some img /\ shape img = [height; width; depth])
    /\ files w' !! PyStr.path_join save_dir (name +:+ ".txt")
       = Some (TextFile
                 (image_list_text name (first_occurrences (item_id <$> items))))
    /\ NoDup (first_occurrences (item_id <$> items))
    /\ (forall id, id ∈ first_occurrences (item_id <$> items)
                   <-> exists item, item ∈ items /\ item_id item = id).
Proof.
  revert Hdone. unfold yolo_export.
  unfold mbind at 1, IO_bind at 1, makedirs at 1.
  unfold mbind at 1, IO_bind at 1.
  destruct (io_fold _ _ _ _) as [w1 [paths|e]] eqn:Hfold; [|discriminate].
  apply yolo_items_fold in Hfold as (items & Hitems & Hall & ->).
  unfold mbind, IO_bind, write_text, mret, IO_ret. intros [= <- _].
  exists items. split; [exact Hitems|]. split; [|split; [|split]].
  - intros item Hin. rewrite Forall_forall in Hall. specialize (Hall item Hin).
    unfold image_shape in Hall. destruct (image item) as [img|]; [|discriminate].
    destruct (shape img) as [|height [|width [|depth [|]]]] eqn:Hshape;
      try discriminate.
    exists img, height, width, depth. split; [reflexivity | exact Hshape].
  - cbn [files]. rewrite lookup_insert_eq. do 2 f_equal.
    rewrite (basename_path_join _ _ Hname).
    rewrite (dict_fold_set_first
               (fun id => PyStr.path_join3 "data" ("obj_" +:+ name +:+ "_data")
                            (str_of_key id +:+ ".jpg")) _ []).
    unfold image_list_text, PyDict.values, first_occurrences.
    rewrite <- !list_fmap_compose. reflexivity.
  - apply first_occurrences_spec.
  - intros id. rewrite (proj2 (first_occurrences_spec _)).
    rewrite list_elem_of_fmap. split.
    + intros (item & -> & Hin). by exists item.
    + intros (item & Hin & <-). by exists item.
Qed.

(** The theorem on a subset that yields the same item twice. *)
Lemma X20_yolo_image_list_witness :
  exists w' lists',
    yolo_export (mkYoloConverter None false false) "out" [] "train"
      (mkDataset [Ok Unnamed.item; Ok Unnamed.item]
         (ds_categories Unnamed.dataset)) empty_world
    = (w', Ok lists')
    /\ files w' !! "out/train.txt"
       = Some (TextFile ("data/obj_train_data/7.jpg" +:+ nl)).
Proof.
  assert (Hok : is_ok (yolo_export (mkYoloConverter None false false) "out" []
                         "train"
                         (mkDataset [Ok Unnamed.item; Ok Unnamed.item]
                            (ds_categories Unnamed.dataset)) empty_world).2
                = true) by (vm_compute; reflexivity).
  destruct (yolo_export (mkYoloConverter None false false) "out" [] "train"
              (mkDataset [Ok Unnamed.item; Ok Unnamed.item]
                 (ds_categories Unnamed.dataset)) empty_world)
    as [w' [lists'|e]] eqn:Hdone; [|discriminate Hok].
  exists w', lists'. split; [reflexivity|].
  destruct (X20_yolo_image_list (mkYoloConverter None false false) "out" []
              lists' "train" _ empty_world w' eq_refl Hdone)
    as (items & Hitems & _ & Hfile & _).
  cbn [ds_iter] in Hitems.
  destruct items as [|i1 [|i2 [|i3 items]]]; try discriminate Hitems.
  injection Hitems as <- <-. exact Hfile.
Defined.

(** ** The item of an image *)

(** X21.  The item a constructed extractor makes for an image id: it
    carries that id and the subset's name; its image is the file below
    [images/], else the one below [images/<subset>/], else none, and none
    for an empty file name; its annotations are those of the image's
    records, in order, parsed for the extractor's task.  A record without
    [file_name] raises [KeyError]; an image-info file with a record
    annotated raises [NotImplementedError]; an image with no annotation
    record yields an item with no annotations. *)
Theorem X21_item_of_an_image (mask_utils : MaskUtils)
    (image_files : string -> option Image)
    (json_files : string -> option CocoDataset) (path : string)
    (task : CocoTask.t) (merge_instance_polygons : bool)
    (self : CocoExtractor) (loader : COCO) (img_id : Z)
    (info : CocoImage) (more : list CocoImage) (anns : list CocoAnn)
    (Hloader : _make_subset_loader json_files path = Ok loader)
    (Hinit : CocoExtractor_init json_files path task merge_instance_polygons
             = Ok self)
    (Himg : loadImgs loader img_id = Ok (info :: more))
    (Hanns : loadAnns loader (getAnnIds loader img_id) = Ok anns) :
  exists name,
    CocoExtractor_subsets self = [name]
    /\ _get mask_utils image_files self img_id name
       = (file_name ← subscript "file_name" (i_file_name info);
          parsed ← mapM (fun ann =>
                           _parse_annotation mask_utils self ann task info) anns;
          let image_dir := PyStr.path_join (_path self) CocoPath.IMAGES_DIR in
          Ok (mkDatasetItem (IntKey img_id) (Some name)
                (if String.eqb file_name "" then None
                 else match image_files (PyStr.path_join image_dir file_name) with
                      | Some img => Some img
                      | None =>
                          image_files
                            (PyStr.path_join3 image_dir name file_name)
                      end)
                (mjoin parsed)))
    /\ (i_file_name info = None ->
        _get mask_utils image_files self img_id name
        = Raise (KeyError (StrKey "file_name")))
    /\ (task = CocoTask.image_info -> is_Some (i_file_name info) ->
        anns <> [] ->
        _get mask_utils image_files self img_id name
        = Raise NotImplementedError)
    /\ (is_Some (i_file_name info) -> anns = [] ->
        exists item,
          _get mask_utils image_files self img_id name = Ok item
          /\ item_id item = IntKey img_id
          /\ item_subset item = Some name
          /\ annotations item = []).
Proof.
  destruct (init_fields _ _ _ _ _ Hinit)
    as (rootpath & name & loader' & categories & label_map & Hl & _ & ->).
  rewrite Hloader in Hl. injection Hl as <-.
  exists name. split; [reflexivity|].
  assert (Hget : _get mask_utils image_files
                   (mkCocoExtractor rootpath task
                      [(name,
                        mkSubset name [(task, loader)]
                          (PyDict.keys
                             (foldl (fun acc img_id => PyDict.set acc img_id tt)
                                [] (getImgIds loader))))]
                      categories label_map merge_instance_polygons)
                   img_id name
                 = (file_name ← subscript "file_name" (i_file_name info);
                    parsed ← mapM (fun ann =>
                                     _parse_annotation mask_utils
                                       (mkCocoExtractor rootpath task
                                          [(name,
                                            mkSubset name [(task, loader)]
                                              (PyDict.keys
                                                 (foldl (fun acc img_id =>
                                                           PyDict.set acc img_id tt)
                                                    [] (getImgIds loader))))]
                                          categories label_map
                                          merge_instance_polygons)
                                       ann task info) anns;
                    let image_dir := PyStr.path_join rootpath CocoPath.IMAGES_DIR in
                    Ok (mkDatasetItem (IntKey img_id) (Some name)
                          (if String.eqb file_name "" then None
                           else match image_files
                                        (PyStr.path_join image_dir file_name) with
                                | Some img => Some img
                                | None =>
                                    image_files
                                      (PyStr.path_join3 image_dir name file_name)
                                end)
                          (mjoin parsed)))).
  { unfold _get. cbn [_subsets PyDict.get].
    rewrite decide_True by reflexivity.
    cbn [mbind result_bind loaders foldM]. rewrite Himg.
    cbn [mbind result_bind index lookup list_lookup].
    destruct (i_file_name info) as [file_name|]; [|reflexivity].
    cbn [subscript mbind result_bind]. rewrite Hanns.
    cbn [mbind result_bind].
    destruct (mapM _ anns) as [parsed|e]; [|reflexivity].
    cbn [mbind result_bind app]. unfold find_image. cbn [_path omap list_omap].
    destruct (String.eqb file_name ""); [reflexivity|].
    destruct (image_files (PyStr.path_join _ file_name)) as [img|];
      [reflexivity|].
    destruct (image_files (PyStr.path_join3 _ name file_name)); reflexivity. }
  split; [exact Hget|]. rewrite Hget. split; [|split].
  - intros ->. reflexivity.
  - intros -> [file_name ->] Hsome. cbn [subscript mbind result_bind].
    destruct anns as [|ann anns]; [done|]. reflexivity.
  - intros [file_name ->] ->. cbn [subscript mbind result_bind mapM].
    eexists. split; [reflexivity|]. split; [reflexivity|].
    split; reflexivity.
Qed.

(** The theorem on an image-info file: the annotated image cannot be
    fetched, the other one is an item without image and annotations. *)
Lemma X21_item_of_an_image_witness :
  exists self,
    CocoExtractor_init Infos.json_files Infos.path CocoTask.image_info false
    = Ok self
    /\ _get Instance.mask_utils Infos.image_files self 7 "val"
       = Raise NotImplementedError
    /\ _get Instance.mask_utils Infos.image_files self 8 "val"
       = Ok (mkDatasetItem (IntKey 8) (Some "val") None []).
Proof.
  assert (Hok : is_ok (CocoExtractor_init Infos.json_files Infos.path
                         CocoTask.image_info false) = true)
    by (vm_compute; reflexivity).
  destruct (CocoExtractor_init Infos.json_files Infos.path
              CocoTask.image_info false) as [self|] eqn:Hinit;
    [|discriminate Hok].
  assert (Hl : exists loader,
             _make_subset_loader Infos.json_files Infos.path = Ok loader
             /\ loadImgs loader 7
                = Ok [mkCocoImage 7 (Some "a.jpg") (Some 50) (Some 100)]
             /\ loadAnns loader (getAnnIds loader 7)
                = Ok [mkCocoAnn (Some 1) 7 None None None None None None None]
             /\ loadImgs loader 8
                = Ok [mkCocoImage 8 (Some "") (Some 50) (Some 100)]
             /\ loadAnns loader (getAnnIds loader 8) = Ok []).
  { eexists. split; [vm_compute; reflexivity|].
    split; [|split; [|split]]; vm_compute; reflexivity. }
  destruct Hl as (loader & Hloader & Himg7 & Hanns7 & Himg8 & Hanns8).
  exists self. split; [reflexivity|]. split.
  - destruct (X21_item_of_an_image Instance.mask_utils Infos.image_files
                Infos.json_files Infos.path CocoTask.image_info false self
                loader 7 _ _ _ Hloader Hinit Himg7 Hanns7)
      as (name & Hname & _ & _ & Hraise & _).
    assert (Hval : (s ← CocoExtractor_init Infos.json_files Infos.path
                          CocoTask.image_info false;
                    Ok (CocoExtractor_subsets s)) = Ok ["val"])
      by (vm_compute; reflexivity).
    rewrite Hinit in Hval. injection Hval as Hval.
    rewrite Hname in Hval. injection Hval as ->.
    apply Hraise; [reflexivity | by eexists | discriminate].
  - destruct (X21_item_of_an_image Instance.mask_utils Infos.image_files
                Infos.json_files Infos.path CocoTask.image_info false self
                loader 8 _ _ _ Hloader Hinit Himg8 Hanns8)
      as (name & Hname & Hget & _).
    assert (Hval : (s ← CocoExtractor_init Infos.json_files Infos.path
                          CocoTask.image_info false;
                    Ok (CocoExtractor_subsets s)) = Ok ["val"])
      by (vm_compute; reflexivity).
    rewrite Hinit in Hval. injection Hval as Hval.
    rewrite Hname in Hval. injection Hval as ->.
    rewrite Hget. reflexivity.
Defined.

(** ** Boxes on an image without extent *)

Lemma truediv_float_by_two (f : float) :
  truediv (PyFloat f) (PyInt 2) = Ok (PyFloat (f / 2)%float).
Proof.
  unfold truediv. cbn [to_float].
  assert (Htwo : float_of_int 2 = Ok 2%float) by (vm_compute; reflexivity).
  rewrite Htwo. cbn [mbind result_bind].
  assert (Hnz : float_is_zero 2%float = false) by (vm_compute; reflexivity).
  rewrite Hnz. reflexivity.
Qed.

Lemma make_yolo_bbox_flat (width height : Z) (box : list pynum) :
  width = 0 \/ height = 0 ->
  is_ok (_make_yolo_bbox (PyInt width, PyInt height) box) = false.
Proof.
  intros Hflat. unfold _make_yolo_bbox. cbn [fst snd].
  destruct (index box 0) as [b0|]; [|reflexivity].
  destruct (index box 2) as [b2|]; [|reflexivity].
  cbn [mbind result_bind].
  destruct (add b0 b2) as [s|]; [|reflexivity]. cbn [mbind result_bind].
  destruct (truediv s (PyInt 2)) as [m|]; [|reflexivity].
  cbn [mbind result_bind].
  destruct (truediv m (PyInt width)) as [x|] eqn:Hx; [|reflexivity].
  destruct Hflat as [->| ->];
    [rewrite truediv_by_int_zero in Hx; discriminate Hx|].
  cbn [mbind result_bind].
  destruct (index box 1) as [b1|]; [|reflexivity].
  destruct (index box 3) as [b3|]; [|reflexivity].
  cbn [mbind result_bind].
  destruct (add b1 b3) as [s'|]; [|reflexivity]. cbn [mbind result_bind].
  destruct (truediv s' (PyInt 2)) as [m'|]; [|reflexivity].
  cbn [mbind result_bind]. rewrite truediv_by_int_zero. reflexivity.
Qed.

Lemma yolo_line_flat (width height : Z) (a : Annotation) :
  width = 0 \/ height = 0 ->
  is_ok (yolo_line width height a) = negb (labelled_bbox a).
Proof.
  intros Hflat.
  destruct (labelled_bbox a) eqn:Hl;
    [|rewrite (yolo_line_unlabelled _ _ _ Hl); reflexivity].
  unfold labelled_bbox in Hl. apply andb_true_iff in Hl as [Ht Hsome].
  apply bool_decide_eq_true in Hsome as [l Hsome].
  unfold yolo_line. rewrite Ht, Hsome. cbn [negb].
  apply bool_decide_eq_true in Ht.
  destruct a as [| pts c | | | | |]; try discriminate Ht.
  cbn [points_of mbind result_bind].
  pose proof (make_yolo_bbox_flat width height pts Hflat) as Hbox.
  destruct (_make_yolo_bbox _ pts); [discriminate Hbox | reflexivity].
Qed.

(** X22.  On an image of width or height 0 no box can be normalised: the
    division by the image size raises.  The annotation text of an item
    with such an image exists exactly when the item has no labelled box;
    and with width 0 and coordinates that are floats the exception is
    [ZeroDivisionError]. *)
Theorem X22_yolo_box_on_flat_image (width height : Z)
    (Hflat : width = 0 \/ height = 0) :
  (forall box,
     is_ok (_make_yolo_bbox (PyInt width, PyInt height) box) = false)
  /\ (forall anns,
        is_ok (yolo_annotation_of width height anns) = true
        <-> List.filter labelled_bbox anns = [])
  /\ (forall anns, List.filter labelled_bbox anns = [] ->
                   yolo_annotation_of width height anns = Ok "")
  /\ (forall x1 y1 x2 y2 : float,
        width = 0 ->
        _make_yolo_bbox (PyInt width, PyInt height)
          [PyFloat x1; PyFloat y1; PyFloat x2; PyFloat y2]
        = Raise ZeroDivisionError).
Proof.
  split; [intros box; apply make_yolo_bbox_flat; exact Hflat|].
  assert (Hnone : forall anns, List.filter labelled_bbox anns = [] ->
                               yolo_annotation_of width height anns = Ok "").
  { intros anns. rewrite yolo_annotation_lines.
    induction anns as [|a anns IH]; [reflexivity|]. cbn [List.filter].
    destruct (labelled_bbox a) eqn:Hl; [discriminate|]. intros Hrest.
    cbn [mapM]. rewrite (yolo_line_unlabelled _ _ _ Hl).
    cbn [mbind result_bind]. specialize (IH Hrest).
    destruct (mapM (yolo_line width height) anns) as [ls|]; [|discriminate IH].
    cbn [mbind result_bind] in *. exact IH. }
  split; [|split; [exact Hnone|]].
  - intros anns. split; [|intros H; rewrite (Hnone _ H); reflexivity].
    rewrite yolo_annotation_lines.
    induction anns as [|a anns IH]; [reflexivity|].
    cbn [mapM List.filter]. pose proof (yolo_line_flat width height a Hflat) as Ha.
    destruct (yolo_line width height a) as [line|];
      destruct (labelled_bbox a); try discriminate Ha.
    + cbn [mbind result_bind].
      destruct (mapM (yolo_line width height) anns) as [ls|]; [|discriminate].
      intros _. apply IH. reflexivity.
    + discriminate.
  - intros x1 y1 x2 y2 ->. unfold _make_yolo_bbox.
    cbn [index lookup list_lookup mbind result_bind add to_float fst snd].
    rewrite !truediv_float_by_two. cbn [mbind result_bind].
    rewrite truediv_by_int_zero. reflexivity.
Qed.

(** The theorem on an image of width 0. *)
Lemma X22_yolo_box_on_flat_image_witness :
  is_ok (_make_yolo_bbox (PyInt 0, PyInt 50)
           [PyInt 10; PyInt 10; PyInt 30; PyInt 30]) = false.
Proof.
  exact (proj1 (X22_yolo_box_on_flat_image 0 50 (or_introl eq_refl)) _).
Defined.

(** ** The points categories of a keypoints file *)

Lemma category_rows_names cats rows :
  mapM category_row cats = Ok rows -> c_name <$> cats = Some <$> rows.*1.
Proof.
  revert rows. induction cats as [|cat cats IH]; intros rows.
  - intros [= <-]. reflexivity.
  - cbn [mapM].
    destruct (category_row cat) as [[name parent]|] eqn:Hrow;
      cbn [mbind result_bind]; [|discriminate].
    assert (Hname : c_name cat = Some name).
    { unfold category_row in Hrow. destruct (c_name cat); [|discriminate].
      destruct (c_supercategory cat); [|discriminate].
      by injection Hrow as -> _. }
    destruct (mapM category_row cats) as [rows'|];
      cbn [mbind result_bind]; [|discriminate].
    intros [= <-].
    rewrite !fmap_cons, Hname, (IH rows' eq_refl). reflexivity.
Qed.

Lemma keypoint_fold (label_categories : LabelCategories) cats :
  forall k acc,
    (forall i cat, cats !! i = Some cat ->
       exists name, c_name cat = Some name
                    /\ LabelCategories_find label_categories name
                       = Ok (k + i)%nat) ->
    (forall key, key ∈ PyDict.keys acc -> (key < k)%nat) ->
    foldM (fun categories cat =>
             name ← subscript "name" (c_name cat);
             label_id ← LabelCategories_find label_categories name;
             labels ← subscript "keypoints" (c_keypoints cat);
             adjacent ← subscript "skeleton" (c_skeleton cat);
             Ok (PointsCategories_add categories label_id labels adjacent))
          (mkPointsCategories acc) cats
    = (rows ← mapM keypoint_row cats;
       Ok (mkPointsCategories (acc ++ enumerate_from k rows))).
Proof.
  induction cats as [|cat cats IH]; intros k acc Hfind Hkeys.
  - simpl. rewrite app_nil_r. reflexivity.
  - cbn [foldM mapM].
    destruct (Hfind 0%nat cat eq_refl) as (name & Hname & Hk).
    rewrite Nat.add_0_r in Hk. rewrite Hname. cbn [subscript mbind result_bind].
    rewrite Hk. cbn [mbind result_bind].
    assert (Hkr : keypoint_row cat
                  = (labels ← subscript "keypoints" (c_keypoints cat);
                     adjacent ← subscript "skeleton" (c_skeleton cat);
                     Ok (labels, adjacent))) by reflexivity.
    rewrite Hkr. clear Hkr.
    destruct (c_keypoints cat) as [labels|]; [|reflexivity].
    destruct (c_skeleton cat) as [adjacent|]; [|reflexivity].
    cbn [subscript mbind result_bind]. unfold PointsCategories_add.
    cbn [points_items].
    rewrite dict_set_fresh.
    2:{ apply dict_get_None_keys. intros Hin. apply Hkeys in Hin. lia. }
    rewrite (IH (S k)).
    + destruct (mapM keypoint_row cats) as [rows|]; [|reflexivity].
      cbn [mbind result_bind enumerate_from]. rewrite <- app_assoc. reflexivity.
    + intros i cat' Hi. destruct (Hfind (S i) cat' Hi) as (n & Hn & Hf).
      exists n. split; [exact Hn|]. rewrite Hf. f_equal. lia.
    + intros key. unfold PyDict.keys. rewrite fmap_app, elem_of_app.
      intros [Hin|Hin]; [apply Hkeys in Hin; lia|].
      apply list_elem_of_singleton in Hin. cbn in Hin. lia.
Qed.

(** X23.  The points categories of a keypoints file whose category names
    are distinct: they load exactly when every category has its keypoint
    names and its skeleton, and then there is one entry per category, in
    file order, keyed by the index of the category's row in the label
    table, with that category's keypoint names and skeleton. *)
Theorem X23_points_categories_follow_labels (loader : COCO)
    (cats : list CocoCategory) (label_categories : LabelCategories)
    (label_map : gmap Z nat)
    (Hcats : loadCats loader (getCatIds loader) = Ok cats)
    (Hnames : NoDup (c_name <$> cats))
    (Hload : _load_label_categories loader = Ok (label_categories, label_map)) :
  (is_ok (_load_person_kp_categories label_categories loader) = true
   <-> forall cat, cat ∈ cats ->
         is_Some (c_keypoints cat) /\ is_Some (c_skeleton cat))
  /\ forall points_categories,
       _load_person_kp_categories label_categories loader
       = Ok points_categories ->
       length (points_items points_categories) = length cats
       /\ forall i cat,
            cats !! i = Some cat ->
            exists name parent labels adjacent,
              items label_categories !! i = Some (name, parent)
              /\ c_name cat = Some name
              /\ c_keypoints cat = Some labels
              /\ c_skeleton cat = Some adjacent
              /\ points_items points_categories !! i
                 = Some (i, (labels, adjacent)).
Proof.
  rewrite load_label_categories_rows, Hcats in Hload.
  cbn [mbind result_bind] in Hload.
  destruct (mapM category_row cats) as [rows|] eqn:Hrows; [|discriminate].
  cbn [mbind result_bind] in Hload. injection Hload as <- <-.
  assert (Hnd : NoDup rows.*1).
  { rewrite (category_rows_names _ _ Hrows) in Hnames.
    apply (NoDup_fmap_1 Some). exact Hnames. }
  assert (Hrow : forall i cat, cats !! i = Some cat ->
            exists name parent,
              rows !! i = Some (name, parent) /\ c_name cat = Some name).
  { intros i cat Hi.
    destruct (mapM_lookup _ _ _ _ _ Hrows Hi) as ([name parent] & Hr & Hri).
    exists name, parent. split; [exact Hri|].
    unfold category_row in Hr. destruct (c_name cat); [|discriminate].
    destruct (c_supercategory cat); [|discriminate]. by injection Hr as -> _. }
  assert (Hfold : _load_person_kp_categories (mkLabelCategories rows) loader
                  = (krows ← mapM keypoint_row cats;
                     Ok (mkPointsCategories (enumerate_from 0 krows)))).
  { unfold _load_person_kp_categories. rewrite Hcats. cbn [mbind result_bind].
    apply (keypoint_fold (mkLabelCategories rows) cats 0 []).
    - intros i cat Hi. destruct (Hrow i cat Hi) as (name & parent & Hri & Hn).
      exists name. split; [exact Hn|]. unfold LabelCategories_find.
      cbn [items]. rewrite (find_last_index_NoDup name rows 0 i parent Hnd Hri).
      reflexivity.
    - intros key Hin. by apply elem_of_nil in Hin. }
  rewrite Hfold. split.
  - split.
    + intros Hok cat Hcat.
      destruct (mapM keypoint_row cats) as [krows|] eqn:Hk; [|discriminate].
      apply list_elem_of_lookup in Hcat as [i Hi].
      destruct (mapM_lookup _ _ _ _ _ Hk Hi) as (row & Hr & _).
      unfold keypoint_row in Hr. destruct (c_keypoints cat); [|discriminate].
      destruct (c_skeleton cat); [|discriminate]. split; eauto.
    + intros Hall.
      assert (Hex : forall l,
                (forall c, c ∈ l ->
                   is_Some (c_keypoints c) /\ is_Some (c_skeleton c)) ->
                exists krows, mapM keypoint_row l = Ok krows).
      { induction l as [|c l IH]; intros Hl; [by exists []|].
        destruct (Hl c) as [[ls Hls] [adj Hadj]]; [left|].
        destruct IH as [krows Hkrows]; [intros c' Hc'; apply Hl; by right|].
        exists ((ls, adj) :: krows). cbn [mapM].
        assert (Hkr : keypoint_row c = Ok (ls, adj))
          by (unfold keypoint_row; rewrite Hls, Hadj; reflexivity).
        rewrite Hkr, Hkrows. reflexivity. }
      destruct (Hex cats Hall) as [krows ->]. reflexivity.
  - intros points_categories.
    destruct (mapM keypoint_row cats) as [krows|] eqn:Hk; [|discriminate].
    cbn [mbind result_bind]. intros [= <-]. cbn [points_items items].
    split; [rewrite enumerate_from_length; exact (mapM_length _ _ _ Hk)|].
    intros i cat Hi. destruct (Hrow i cat Hi) as (name & parent & Hri & Hn).
    destruct (mapM_lookup _ _ _ _ _ Hk Hi) as ([labels adjacent] & Hr & Hki).
    unfold keypoint_row in Hr.
    destruct (c_keypoints cat) as [ls|]; [|discriminate].
    destruct (c_skeleton cat) as [adj|]; [|discriminate].
    injection Hr as -> ->.
    exists name, parent, labels, adjacent.
    split; [exact Hri|]. split; [exact Hn|]. split; [reflexivity|].
    split; [reflexivity|].
    rewrite (enumerate_from_lookup krows 0 i _ Hki). reflexivity.
Qed.

(** The theorem on a document with two categories. *)
Lemma X23_points_categories_witness :
  exists points_categories,
    _load_person_kp_categories People.labels People.loader
    = Ok points_categories
    /\ points_items points_categories !! 1%nat
       = Some (1%nat, (["thumb"; "index"], [[1; 2]])).
Proof.
  assert (Hnames : NoDup (c_name <$> People.cats)).
  { apply (bool_decide_unpack _). vm_compute. exact I. }
  assert (Hload : _load_label_categories People.loader
                  = Ok (People.labels, ids_map 0 People.cats ∅))
    by reflexivity.
  destruct (X23_points_categories_follow_labels People.loader People.cats
              People.labels _ eq_refl Hnames Hload) as [_ Hpoints].
  destruct (_load_person_kp_categories People.labels People.loader)
    as [points_categories|] eqn:Hkp; [|exfalso; vm_compute in Hkp; discriminate].
  exists points_categories. split; [reflexivity|].
  destruct (Hpoints points_categories eq_refl) as [_ Hrows].
  destruct (Hrows 1%nat _ eq_refl)
    as (name & parent & labels & adjacent & _ & _ & Hl & Ha & Hi).
  injection Hl as <-. injection Ha as <-. exact Hi.
Defined.
